(** * virtio-snd: the control plane of the VIRTIO sound device

    A shallow embedding of hw/virtio/virtio-snd.c (the revision that
    implements the PCM control requests) and of the structures of
    include/hw/virtio/virtio-snd.h, followed by the properties of the
    control path: parameter negotiation, stream lifecycle, the command
    queue and the configuration space.  Where the earlier revision of the
    file differs (dispatch, realization, teardown) it is embedded in the
    module [first_revision].

    Conventions of the embedding.
    - A [uint32_t], [uint8_t] or [size_t] is a [Z]; where the C code can
      wrap, the reduction modulo the width is written out.
    - Guest buffers are lists of bytes.  A scatter-gather list is the
      concatenation of its segments, which is all that [iov_to_buf],
      [iov_from_buf] and [iov_size] observe.
    - A pointer that may be NULL is an [option]; an array obtained from
      [g_new0] is a list (NULL when zero elements were requested).
    - C undefined behaviour, failed assertions and the abort of [g_new0]
      on a block the host cannot provide are the [Fault] outcome: nothing
      is promised about a run that reaches one. *)

From Stdlib Require Import ZArith.
From Stdlib.Strings Require Import Byte String.
From stdpp Require Import base option list numbers.

Local Open Scope Z_scope.

(** ** Outcomes *)

Inductive fault : Type :=
  | OutOfBounds       (* index outside the allocated array *)
  | NullPointer       (* access through a NULL pointer *)
  | NotReached        (* g_assert_not_reached() *)
  | ShiftCount        (* shift by at least the width of the type *)
  | AllocationFailed. (* g_new0 aborts: the host cannot provide the block *)

Inductive outcome (A : Type) : Type :=
  | Done (a : A)
  | Fault (f : fault).
Arguments Done {A} a.
Arguments Fault {A} f.

#[export] Instance outcome_ret : MRet outcome := @Done.
#[export] Instance outcome_bind : MBind outcome := λ A B k m,
  match m with
  | Done a => k a
  | Fault f => Fault f
  end.

(** [p->field] through a pointer that may be NULL. *)
Definition deref {A : Type} (p : option A) : outcome A :=
  match p with
  | Some a => Done a
  | None => Fault NullPointer
  end.

(** [a[i]] on an array of [length a] elements. *)
Definition array_get {A : Type} (a : list A) (i : Z) : outcome A :=
  if bool_decide (0 ≤ i) then
    match a !! Z.to_nat i with
    | Some x => Done x
    | None => Fault OutOfBounds
    end
  else Fault OutOfBounds.

(** [a[i] = x]. *)
Definition array_set {A : Type} (a : list A) (i : Z) (x : A) : outcome (list A) :=
  if bool_decide (0 ≤ i ∧ i < Z.of_nat (length a))
  then Done (<[Z.to_nat i := x]> a)
  else Fault OutOfBounds.

(** The host the device runs on: [g_malloc_ok bytes] tells whether it
    provides a block of that many bytes.  Nothing is assumed about it. *)
Class glib_host : Type := { g_malloc_ok : Z → bool }.

(** [g_new0(T, n)] for an array whose length [n] comes from the
    configuration or from the guest: NULL for [n = 0], otherwise [n] zeroed
    elements of [size] bytes each; glib aborts the process when the block
    cannot be had.  (The allocations of a single structure of fixed size
    are taken to succeed.) *)
Definition g_new0 `{glib_host} {A : Type} (zero : A) (size n : Z)
    : outcome (option (list A)) :=
  if bool_decide (n ≤ 0) then Done None
  else if g_malloc_ok (n * size) then Done (Some (replicate (Z.to_nat n) zero))
  else Fault AllocationFailed.

(** A host that provides blocks of up to one GiB. *)
Definition roomy_host : glib_host := {| g_malloc_ok bytes := bytes <=? 2 ^ 30 |}.

(** ** Bytes and fixed-width fields

    The structures are copied between guest buffers and C structs with
    [memcpy]/[iov_to_buf], in the byte order of the host; the embedding is
    that of a little-endian host. *)

Definition byte_val (b : byte) : Z := Z.of_N (Byte.to_N b).

Definition byte_of (v : Z) : byte :=
  match Byte.of_N (Z.to_N (v mod 256)) with
  | Some b => b
  | None => x00
  end.

Fixpoint le_decode (bs : list byte) : Z :=
  match bs with
  | [] => 0
  | b :: rest => byte_val b + 256 * le_decode rest
  end.

Fixpoint le_encode (n : nat) (v : Z) : list byte :=
  match n with
  | O => []
  | S k => byte_of v :: le_encode k (v / 256)
  end.

(** The field of [len] bytes at offset [off] of a struct image. *)
Definition field (buf : list byte) (off len : nat) : Z :=
  le_decode (take len (drop off buf)).

Definition u32 (v : Z) : Z := v mod 2 ^ 32.
Definition u8 (v : Z) : Z := v mod 2 ^ 8.

(** Modelled from the spec: the transport's scatter-gather helpers
    ([iov_to_buf], [iov_from_buf], [iov_size] of qemu/iov.h) are not among
    the sources.  A read copies the bytes available from [offset], at most
    [size] of them, and reports how many it copied; a write stores as much
    of the data as the buffer holds from [offset] on. *)
Definition iov_size (iov : list byte) : Z := Z.of_nat (length iov).

Definition iov_to_buf (iov : list byte) (offset size : nat) : list byte :=
  take size (drop offset iov).

Definition iov_from_buf (iov : list byte) (offset : nat) (buf : list byte) : list byte :=
  take offset iov
    ++ take (length iov - offset) buf
    ++ drop (offset + length buf) iov.

(** ** Constants of the headers that are not among the sources

    The request, status, format, rate and direction codes come from
    standard-headers/linux/virtio_snd.h, the channel limit and the host
    formats from audio/audio.h.  The development is parametric in them. *)

Inductive virtio_snd_request : Type :=
  | VIRTIO_SND_R_JACK_INFO
  | VIRTIO_SND_R_JACK_REMAP
  | VIRTIO_SND_R_PCM_INFO
  | VIRTIO_SND_R_PCM_SET_PARAMS
  | VIRTIO_SND_R_PCM_PREPARE
  | VIRTIO_SND_R_PCM_RELEASE
  | VIRTIO_SND_R_PCM_START
  | VIRTIO_SND_R_PCM_STOP
  | VIRTIO_SND_R_CHMAP_INFO.

Inductive virtio_snd_status : Type :=
  | VIRTIO_SND_S_OK
  | VIRTIO_SND_S_BAD_MSG
  | VIRTIO_SND_S_NOT_SUPP
  | VIRTIO_SND_S_IO_ERR.

Inductive virtio_snd_direction : Type :=
  | VIRTIO_SND_D_OUTPUT
  | VIRTIO_SND_D_INPUT.

Inductive AudioFormat : Type :=
  | AUDIO_FORMAT_U8
  | AUDIO_FORMAT_S8
  | AUDIO_FORMAT_U16
  | AUDIO_FORMAT_S16
  | AUDIO_FORMAT_U32
  | AUDIO_FORMAT_S32
  | AUDIO_FORMAT_F32.

#[export] Instance virtio_snd_status_eq_dec : EqDecision virtio_snd_status.
Proof. solve_decision. Defined.
#[export] Instance virtio_snd_direction_eq_dec : EqDecision virtio_snd_direction.
Proof. solve_decision. Defined.
#[export] Instance AudioFormat_eq_dec : EqDecision AudioFormat.
Proof. solve_decision. Defined.

Class virtio_snd_abi : Type := {
  (* the 32-bit value of a request code; the enumerators are the case
     labels of one switch, hence pairwise distinct *)
  request_code : virtio_snd_request → Z;
  request_code_inj : Inj (=) (=) request_code;
  (* the 32-bit value of a status and the 8-bit value of a direction *)
  status_code : virtio_snd_status → Z;
  direction_code : virtio_snd_direction → Z;
  (* sample formats *)
  VIRTIO_SND_PCM_FMT_S8 : Z;
  VIRTIO_SND_PCM_FMT_U8 : Z;
  VIRTIO_SND_PCM_FMT_S16 : Z;
  VIRTIO_SND_PCM_FMT_U16 : Z;
  VIRTIO_SND_PCM_FMT_S32 : Z;
  VIRTIO_SND_PCM_FMT_U32 : Z;
  VIRTIO_SND_PCM_FMT_FLOAT : Z;
  (* sample rates *)
  VIRTIO_SND_PCM_RATE_5512 : Z;
  VIRTIO_SND_PCM_RATE_8000 : Z;
  VIRTIO_SND_PCM_RATE_11025 : Z;
  VIRTIO_SND_PCM_RATE_16000 : Z;
  VIRTIO_SND_PCM_RATE_22050 : Z;
  VIRTIO_SND_PCM_RATE_32000 : Z;
  VIRTIO_SND_PCM_RATE_44100 : Z;
  VIRTIO_SND_PCM_RATE_48000 : Z;
  VIRTIO_SND_PCM_RATE_64000 : Z;
  VIRTIO_SND_PCM_RATE_88200 : Z;
  VIRTIO_SND_PCM_RATE_96000 : Z;
  VIRTIO_SND_PCM_RATE_176400 : Z;
  VIRTIO_SND_PCM_RATE_192000 : Z;
  VIRTIO_SND_PCM_RATE_384000 : Z;
  (* channel maps *)
  VIRTIO_SND_CHMAP_FL : Z;
  VIRTIO_SND_CHMAP_FR : Z;
  VIRTIO_SND_CHMAP_MAX_SIZE : Z;
  (* audio/audio.h *)
  AUDIO_MAX_CHANNELS : Z;
  AUDIO_HOST_ENDIANNESS : Z
}.

(** The values of the VIRTIO 1.2 sound device (section 5.14) and of the
    QEMU audio subsystem on a little-endian host.  Nothing general depends
    on them; they serve to run the device on concrete requests. *)
Definition request_code_v1_2 (r : virtio_snd_request) : Z :=
  match r with
  | VIRTIO_SND_R_JACK_INFO => 1
  | VIRTIO_SND_R_JACK_REMAP => 2
  | VIRTIO_SND_R_PCM_INFO => 256
  | VIRTIO_SND_R_PCM_SET_PARAMS => 257
  | VIRTIO_SND_R_PCM_PREPARE => 258
  | VIRTIO_SND_R_PCM_RELEASE => 259
  | VIRTIO_SND_R_PCM_START => 260
  | VIRTIO_SND_R_PCM_STOP => 261
  | VIRTIO_SND_R_CHMAP_INFO => 512
  end.

Lemma request_code_v1_2_inj : Inj (=) (=) request_code_v1_2.
Proof. intros [] [] H; first [reflexivity | discriminate H]. Qed.

Definition virtio_v1_2 : virtio_snd_abi := {|
  request_code := request_code_v1_2;
  request_code_inj := request_code_v1_2_inj;
  status_code := λ st,
    match st with
    | VIRTIO_SND_S_OK => 32768
    | VIRTIO_SND_S_BAD_MSG => 32769
    | VIRTIO_SND_S_NOT_SUPP => 32770
    | VIRTIO_SND_S_IO_ERR => 32771
    end;
  direction_code := λ d,
    match d with
    | VIRTIO_SND_D_OUTPUT => 0
    | VIRTIO_SND_D_INPUT => 1
    end;
  VIRTIO_SND_PCM_FMT_S8 := 3;
  VIRTIO_SND_PCM_FMT_U8 := 4;
  VIRTIO_SND_PCM_FMT_S16 := 5;
  VIRTIO_SND_PCM_FMT_U16 := 6;
  VIRTIO_SND_PCM_FMT_S32 := 17;
  VIRTIO_SND_PCM_FMT_U32 := 18;
  VIRTIO_SND_PCM_FMT_FLOAT := 19;
  VIRTIO_SND_PCM_RATE_5512 := 0;
  VIRTIO_SND_PCM_RATE_8000 := 1;
  VIRTIO_SND_PCM_RATE_11025 := 2;
  VIRTIO_SND_PCM_RATE_16000 := 3;
  VIRTIO_SND_PCM_RATE_22050 := 4;
  VIRTIO_SND_PCM_RATE_32000 := 5;
  VIRTIO_SND_PCM_RATE_44100 := 6;
  VIRTIO_SND_PCM_RATE_48000 := 7;
  VIRTIO_SND_PCM_RATE_64000 := 8;
  VIRTIO_SND_PCM_RATE_88200 := 9;
  VIRTIO_SND_PCM_RATE_96000 := 10;
  VIRTIO_SND_PCM_RATE_176400 := 11;
  VIRTIO_SND_PCM_RATE_192000 := 12;
  VIRTIO_SND_PCM_RATE_384000 := 13;
  VIRTIO_SND_CHMAP_FL := 3;
  VIRTIO_SND_CHMAP_FR := 4;
  VIRTIO_SND_CHMAP_MAX_SIZE := 18;
  AUDIO_MAX_CHANNELS := 16;
  AUDIO_HOST_ENDIANNESS := 0
|}.

(** ** Data model (include/hw/virtio/virtio-snd.h) *)

(** [virtio_snd_config]: the device configuration space. *)
Record virtio_snd_config : Type := {
  jacks : Z;
  streams : Z;
  chmaps : Z
}.

(** [VirtIOSoundPCMParams]: the negotiated parameters of one stream. *)
Record VirtIOSoundPCMParams : Type := {
  features : Z;
  buffer_bytes : Z;
  period_bytes : Z;
  channels : Z;
  format : Z;
  rate : Z
}.

(** [virtio_snd_pcm_set_params] as the handlers read it: [hdr.stream_id]
    and the payload.  [hdr.hdr.code] is never read through this struct. *)
Record virtio_snd_pcm_set_params : Type := {
  sp_stream_id : Z;
  sp_buffer_bytes : Z;
  sp_period_bytes : Z;
  sp_features : Z;
  sp_channels : Z;
  sp_format : Z;
  sp_rate : Z
}.

(** [virtio_snd_query_info] without its header. *)
Record virtio_snd_query_info : Type := {
  start_id : Z;
  count : Z;
  size : Z
}.

(** [virtio_snd_pcm_info]; the five padding bytes are zero throughout. *)
Record virtio_snd_pcm_info : Type := {
  hda_fn_nid : Z;
  info_features : Z;
  info_formats : Z;
  info_rates : Z;
  info_direction : Z;
  info_channels_min : Z;
  info_channels_max : Z
}.

Record audsettings : Type := {
  freq : Z;
  nchannels : Z;
  fmt : AudioFormat;
  endianness : Z
}.

(** [VirtIOSoundPCMStream].  The back pointers [pcm] and [s], the voice
    (NULL after [g_new0]), the mutex and the empty block queue carry no
    information on the control path and are left out. *)
Record VirtIOSoundPCMStream : Type := {
  st_hda_fn_nid : Z;
  st_id : Z;
  st_buffer_bytes : Z;
  st_period_bytes : Z;
  st_positions : list Z;
  st_features : Z;
  st_formats : Z;
  st_rates : Z;
  st_direction : virtio_snd_direction;
  st_channels_min : Z;
  st_channels_max : Z;
  st_flushing : bool;
  st_as : audsettings;
  st_desired_as : audsettings
}.

(** [VirtIOSoundPCM]: the three arrays of pointers. *)
Record VirtIOSoundPCM : Type := {
  pcm_params : option (list (option VirtIOSoundPCMParams));
  pcm_streams : option (list (option VirtIOSoundPCMStream));
  pcm_jacks : option (list (option unit))
}.

(** An element popped from a virtqueue: the bytes the guest wrote
    ([out_sg]) and the buffer the device may write ([in_sg]). *)
Record VirtQueueElement : Type := {
  index : Z;
  out_sg : list byte;
  in_sg : list byte
}.

(** [virtio_snd_ctrl_command]; [vq] is always the control queue. *)
Record virtio_snd_ctrl_command : Type := {
  elem : VirtQueueElement;
  ctrl_code : Z;
  resp_code : virtio_snd_status
}.

(** Modelled from the spec: the transport ([virtqueue_pop],
    [virtqueue_push], [virtio_notify], [virtio_queue_ready]) is not among
    the sources.  A queue offers the available elements in arrival order,
    records each returned element with the length given to
    [virtqueue_push], and counts the notifications sent to the guest. *)
Record VirtQueue : Type := {
  vq_ready : bool;
  vq_avail : list VirtQueueElement;
  vq_used : list (VirtQueueElement * Z);
  vq_notified : nat
}.

(** [VirtIOSound]; [ctrl_vq] is [queues[VIRTIO_SND_VQ_CONTROL]]. *)
Record VirtIOSound : Type := {
  snd_conf : virtio_snd_config;
  pcm : option VirtIOSoundPCM;
  ctrl_vq : VirtQueue;
  cmdq : list virtio_snd_ctrl_command;
  processing_cmdq : bool
}.

(** Field updates. *)
Definition with_snd_conf (c : virtio_snd_config) (s : VirtIOSound) : VirtIOSound :=
  {| snd_conf := c; pcm := pcm s; ctrl_vq := ctrl_vq s; cmdq := cmdq s;
     processing_cmdq := processing_cmdq s |}.

Definition with_pcm (p : option VirtIOSoundPCM) (s : VirtIOSound) : VirtIOSound :=
  {| snd_conf := snd_conf s; pcm := p; ctrl_vq := ctrl_vq s; cmdq := cmdq s;
     processing_cmdq := processing_cmdq s |}.

Definition with_ctrl_vq (q : VirtQueue) (s : VirtIOSound) : VirtIOSound :=
  {| snd_conf := snd_conf s; pcm := pcm s; ctrl_vq := q; cmdq := cmdq s;
     processing_cmdq := processing_cmdq s |}.

Definition with_cmdq (q : list virtio_snd_ctrl_command) (s : VirtIOSound) : VirtIOSound :=
  {| snd_conf := snd_conf s; pcm := pcm s; ctrl_vq := ctrl_vq s; cmdq := q;
     processing_cmdq := processing_cmdq s |}.

Definition with_processing_cmdq (b : bool) (s : VirtIOSound) : VirtIOSound :=
  {| snd_conf := snd_conf s; pcm := pcm s; ctrl_vq := ctrl_vq s; cmdq := cmdq s;
     processing_cmdq := b |}.

Definition with_pcm_params (a : option (list (option VirtIOSoundPCMParams)))
    (p : VirtIOSoundPCM) : VirtIOSoundPCM :=
  {| pcm_params := a; pcm_streams := pcm_streams p; pcm_jacks := pcm_jacks p |}.

Definition with_pcm_streams (a : option (list (option VirtIOSoundPCMStream)))
    (p : VirtIOSoundPCM) : VirtIOSoundPCM :=
  {| pcm_params := pcm_params p; pcm_streams := a; pcm_jacks := pcm_jacks p |}.

Definition with_in_sg (b : list byte) (e : VirtQueueElement) : VirtQueueElement :=
  {| index := index e; out_sg := out_sg e; in_sg := b |}.

Definition with_elem (e : VirtQueueElement) (c : virtio_snd_ctrl_command)
    : virtio_snd_ctrl_command :=
  {| elem := e; ctrl_code := ctrl_code c; resp_code := resp_code c |}.

Definition with_ctrl_code (v : Z) (c : virtio_snd_ctrl_command) : virtio_snd_ctrl_command :=
  {| elem := elem c; ctrl_code := v; resp_code := resp_code c |}.

Definition with_resp_code (v : virtio_snd_status) (c : virtio_snd_ctrl_command)
    : virtio_snd_ctrl_command :=
  {| elem := elem c; ctrl_code := ctrl_code c; resp_code := v |}.

(** [s->pcm->pcm_params[stream_id] = v] and [s->pcm->streams[stream_id] = v],
    once the pointers involved are known to be valid. *)
Definition store_params (s : VirtIOSound) (stream_id : Z)
    (v : option VirtIOSoundPCMParams) : VirtIOSound :=
  with_pcm
    ((λ p, with_pcm_params ((λ a, <[Z.to_nat stream_id := v]> a) <$> pcm_params p) p)
       <$> pcm s) s.

Definition store_stream (s : VirtIOSound) (stream_id : Z)
    (v : option VirtIOSoundPCMStream) : VirtIOSound :=
  with_pcm
    ((λ p, with_pcm_streams ((λ a, <[Z.to_nat stream_id := v]> a) <$> pcm_streams p) p)
       <$> pcm s) s.

(** Sizes of the wire structures.  Modelled from the spec: the structs are
    declared in standard-headers/linux/virtio_snd.h, which is not among the
    sources; the layouts are those of the wire format (header [{code: u32}];
    stream header [{header, stream_id: u32}]; query [{header, start_id,
    count, size}]; SET_PARAMS [{stream header, buffer_bytes, period_bytes,
    features: u32, channels, format, rate: u8}] padded to a multiple of
    four; info record [{hda_fn_nid, features: u32, formats, rates: u64,
    direction, channels_min, channels_max: u8}] padded to a multiple of
    eight). *)
Definition sizeof_virtio_snd_hdr : nat := 4.
Definition sizeof_virtio_snd_pcm_hdr : nat := 8.
Definition sizeof_virtio_snd_query_info : nat := 16.
Definition sizeof_virtio_snd_pcm_set_params : nat := 24.
Definition sizeof_virtio_snd_pcm_info : nat := 32.
Definition sizeof_virtio_snd_config : nat := 12.
Definition sizeof_uint32_t : nat := 4.
(** [sizeof(cmd->elem)], the size of a pointer. *)
Definition sizeof_pointer : Z := 8.

(** ** The device (hw/virtio/virtio-snd.c) *)

Section Device.
Context {abi : virtio_snd_abi} {host : glib_host}.

(** Modelled from the spec: the macro [BIT] of qemu/bitops.h is not among
    the sources.  The supported formats and rates form bit sets indexed by
    code; [BIT(nr)] is [1UL << nr] on a 64-bit [unsigned long], a shift
    that C defines only for counts below 64. *)
Definition BIT (nr : Z) : Z := Z.shiftl 1 nr mod 2 ^ 64.

Definition shift_defined (nr : Z) : outcome unit :=
  if bool_decide (0 ≤ nr ∧ nr < 64) then Done () else Fault ShiftCount.

(** The two masks are [uint32_t] objects. *)
Definition supported_formats : Z :=
  u32 (Z.lor (BIT VIRTIO_SND_PCM_FMT_S8)
      (Z.lor (BIT VIRTIO_SND_PCM_FMT_U8)
      (Z.lor (BIT VIRTIO_SND_PCM_FMT_S16)
      (Z.lor (BIT VIRTIO_SND_PCM_FMT_U16)
      (Z.lor (BIT VIRTIO_SND_PCM_FMT_S32)
      (Z.lor (BIT VIRTIO_SND_PCM_FMT_U32)
             (BIT VIRTIO_SND_PCM_FMT_FLOAT))))))).

Definition supported_rates : Z :=
  u32 (Z.lor (BIT VIRTIO_SND_PCM_RATE_5512)
      (Z.lor (BIT VIRTIO_SND_PCM_RATE_8000)
      (Z.lor (BIT VIRTIO_SND_PCM_RATE_11025)
      (Z.lor (BIT VIRTIO_SND_PCM_RATE_16000)
      (Z.lor (BIT VIRTIO_SND_PCM_RATE_22050)
      (Z.lor (BIT VIRTIO_SND_PCM_RATE_32000)
      (Z.lor (BIT VIRTIO_SND_PCM_RATE_44100)
      (Z.lor (BIT VIRTIO_SND_PCM_RATE_48000)
      (Z.lor (BIT VIRTIO_SND_PCM_RATE_64000)
      (Z.lor (BIT VIRTIO_SND_PCM_RATE_88200)
      (Z.lor (BIT VIRTIO_SND_PCM_RATE_96000)
      (Z.lor (BIT VIRTIO_SND_PCM_RATE_176400)
      (Z.lor (BIT VIRTIO_SND_PCM_RATE_192000)
             (BIT VIRTIO_SND_PCM_RATE_384000)))))))))))))).

Definition VIRTIO_SOUND_HDA_FN_NID : Z := 0.

(** *** Configuration space *)

(** [memcpy(config, &s->snd_conf, sizeof(s->snd_conf))]. *)
Definition virtio_snd_get_config (s : VirtIOSound) : list byte :=
  le_encode 4 (jacks (snd_conf s))
    ++ le_encode 4 (streams (snd_conf s))
    ++ le_encode 4 (chmaps (snd_conf s)).

(** [memcpy(&s->snd_conf, sndconfig, sizeof(s->snd_conf))]; [config] is the
    device's configuration buffer of [sizeof(virtio_snd_config)] bytes. *)
Definition virtio_snd_set_config (s : VirtIOSound) (config : list byte) : VirtIOSound :=
  with_snd_conf
    {| jacks := field config 0 4;
       streams := field config 4 4;
       chmaps := field config 8 4 |} s.

(** *** Stream and parameter lookup *)

Definition virtio_snd_pcm_get_stream (s : VirtIOSound) (stream_id : Z)
    : outcome (option VirtIOSoundPCMStream) :=
  if bool_decide (streams (snd_conf s) ≤ stream_id) then Done None
  else
    p ← deref (pcm s);
    a ← deref (pcm_streams p);
    array_get a stream_id.

Definition virtio_snd_pcm_get_params (s : VirtIOSound) (stream_id : Z)
    : outcome (option VirtIOSoundPCMParams) :=
  if bool_decide (streams (snd_conf s) ≤ stream_id) then Done None
  else
    p ← deref (pcm s);
    a ← deref (pcm_params p);
    array_get a stream_id.

(** *** VIRTIO_SND_R_PCM_INFO *)

Definition zero_pcm_info : virtio_snd_pcm_info :=
  {| hda_fn_nid := 0; info_features := 0; info_formats := 0; info_rates := 0;
     info_direction := 0; info_channels_min := 0; info_channels_max := 0 |}.

Definition encode_pcm_info (r : virtio_snd_pcm_info) : list byte :=
  le_encode 4 (hda_fn_nid r)
    ++ le_encode 4 (info_features r)
    ++ le_encode 8 (info_formats r)
    ++ le_encode 8 (info_rates r)
    ++ le_encode 1 (info_direction r)
    ++ le_encode 1 (info_channels_min r)
    ++ le_encode 1 (info_channels_max r)
    ++ replicate 5 x00.

Definition decode_query_info (buf : list byte) : virtio_snd_query_info :=
  {| start_id := field buf 4 4; count := field buf 8 4; size := field buf 12 4 |}.

(** The body of the [for] loop, [n] iterations from [i] on.  [None] is the
    early return with BAD_MSG; the [memset] addresses [pcm_info[i]]. *)
Fixpoint pcm_info_loop (n : nat) (s : VirtIOSound) (req : virtio_snd_query_info)
    (i : Z) (pcm_info : list virtio_snd_pcm_info)
    : outcome (option (list virtio_snd_pcm_info)) :=
  match n with
  | O => Done (Some pcm_info)
  | S n' =>
    stream ← virtio_snd_pcm_get_stream s i;
    match stream with
    | None => Done None
    | Some stream =>
      pcm_info ← array_set pcm_info (i - start_id req)
        {| hda_fn_nid := st_hda_fn_nid stream;
           info_features := st_features stream;
           info_formats := st_formats stream;
           info_rates := st_rates stream;
           info_direction := direction_code (st_direction stream);
           info_channels_min := st_channels_min stream;
           info_channels_max := st_channels_max stream |};
      _ ← array_get pcm_info i;
      pcm_info_loop n' s req (i + 1) pcm_info
    end
  end.

Definition virtio_snd_handle_pcm_info (s : VirtIOSound) (cmd : virtio_snd_ctrl_command)
    : outcome virtio_snd_ctrl_command :=
  let buf := iov_to_buf (out_sg (elem cmd)) 0 sizeof_virtio_snd_query_info in
  if bool_decide (length buf ≠ sizeof_virtio_snd_query_info) then
    Done (with_resp_code VIRTIO_SND_S_BAD_MSG cmd)
  else
    let req := decode_query_info buf in
    if bool_decide (iov_size (in_sg (elem cmd))
                    < Z.of_nat sizeof_virtio_snd_hdr + u32 (size req * count req)) then
      Done (with_resp_code VIRTIO_SND_S_BAD_MSG cmd)
    else
      pcm_info ← g_new0 zero_pcm_info (Z.of_nat sizeof_virtio_snd_pcm_info) (count req);
      (* with [count = 0] the array is NULL and the loop does not run *)
      let pcm_info := default [] pcm_info in
      let bound := u32 (start_id req + count req) in
      r ← pcm_info_loop (Z.to_nat (bound - start_id req)) s req (start_id req) pcm_info;
      match r with
      | None => Done (with_resp_code VIRTIO_SND_S_BAD_MSG cmd)
      | Some pcm_info =>
        let cmd := with_resp_code VIRTIO_SND_S_OK cmd in
        Done (with_elem
                (with_in_sg
                   (iov_from_buf (in_sg (elem cmd)) sizeof_virtio_snd_hdr
                      (concat (encode_pcm_info <$> pcm_info)))
                   (elem cmd)) cmd)
      end.

(** *** VIRTIO_SND_R_PCM_SET_PARAMS *)

Definition zero_params : VirtIOSoundPCMParams :=
  {| features := 0; buffer_bytes := 0; period_bytes := 0;
     channels := 0; format := 0; rate := 0 |}.

Definition virtio_snd_pcm_set_params_impl (s : VirtIOSound)
    (params : virtio_snd_pcm_set_params) : outcome (virtio_snd_status * VirtIOSound) :=
  let stream_id := sp_stream_id params in
  if bool_decide (streams (snd_conf s) < stream_id) then Done (VIRTIO_SND_S_BAD_MSG, s)
  else
    p ← deref (pcm s);
    match pcm_params p with
    | None => Done (VIRTIO_SND_S_BAD_MSG, s)
    | Some a =>
      slot ← array_get a stream_id;
      (* if (!s->pcm->pcm_params[stream_id]) ... = g_new0(VirtIOSoundPCMParams, 1) *)
      let s := match slot with
               | None => store_params s stream_id (Some zero_params)
               | Some _ => s
               end in
      st_params ← virtio_snd_pcm_get_params s stream_id;
      st_params ← deref st_params;
      let st_params :=
        {| features := sp_features params;
           buffer_bytes := sp_buffer_bytes params;
           period_bytes := sp_period_bytes params;
           channels := channels st_params;
           format := format st_params;
           rate := rate st_params |} in
      if bool_decide (sp_channels params < 1 ∨ AUDIO_MAX_CHANNELS < sp_channels params) then
        Done (VIRTIO_SND_S_NOT_SUPP, store_params s stream_id (Some st_params))
      else
        let st_params :=
          {| features := features st_params;
             buffer_bytes := buffer_bytes st_params;
             period_bytes := period_bytes st_params;
             channels := sp_channels params;
             format := format st_params;
             rate := rate st_params |} in
        _ ← shift_defined (sp_format params);
        if bool_decide (Z.land supported_formats (BIT (sp_format params)) = 0) then
          Done (VIRTIO_SND_S_NOT_SUPP, store_params s stream_id (Some st_params))
        else
          let st_params :=
            {| features := features st_params;
               buffer_bytes := buffer_bytes st_params;
               period_bytes := period_bytes st_params;
               channels := channels st_params;
               format := sp_format params;
               rate := rate st_params |} in
          _ ← shift_defined (sp_rate params);
          if bool_decide (Z.land supported_rates (BIT (sp_rate params)) = 0) then
            Done (VIRTIO_SND_S_NOT_SUPP, store_params s stream_id (Some st_params))
          else
            let st_params :=
              {| features := features st_params;
                 buffer_bytes := sp_buffer_bytes params;
                 period_bytes := sp_period_bytes params;
                 channels := channels st_params;
                 format := format st_params;
                 rate := sp_rate params |} in
            Done (VIRTIO_SND_S_OK, store_params s stream_id (Some st_params))
    end.

Definition decode_pcm_set_params (buf : list byte) : virtio_snd_pcm_set_params :=
  {| sp_stream_id := field buf 4 4;
     sp_buffer_bytes := field buf 8 4;
     sp_period_bytes := field buf 12 4;
     sp_features := field buf 16 4;
     sp_channels := field buf 20 1;
     sp_format := field buf 21 1;
     sp_rate := field buf 22 1 |}.

Definition virtio_snd_handle_pcm_set_params (s : VirtIOSound)
    (cmd : virtio_snd_ctrl_command) : outcome (virtio_snd_ctrl_command * VirtIOSound) :=
  let buf := iov_to_buf (out_sg (elem cmd)) 0 sizeof_virtio_snd_pcm_set_params in
  if bool_decide (length buf ≠ sizeof_virtio_snd_pcm_set_params) then
    Done (with_resp_code VIRTIO_SND_S_BAD_MSG cmd, s)
  else
    '(status, s) ← virtio_snd_pcm_set_params_impl s (decode_pcm_set_params buf);
    Done (with_resp_code status cmd, s).

(** *** VIRTIO_SND_R_PCM_PREPARE *)

Definition virtio_snd_get_qemu_format (format : Z) : outcome AudioFormat :=
  if bool_decide (format = VIRTIO_SND_PCM_FMT_U8) then Done AUDIO_FORMAT_U8
  else if bool_decide (format = VIRTIO_SND_PCM_FMT_S8) then Done AUDIO_FORMAT_S8
  else if bool_decide (format = VIRTIO_SND_PCM_FMT_U16) then Done AUDIO_FORMAT_U16
  else if bool_decide (format = VIRTIO_SND_PCM_FMT_S16) then Done AUDIO_FORMAT_S16
  else if bool_decide (format = VIRTIO_SND_PCM_FMT_U32) then Done AUDIO_FORMAT_U32
  else if bool_decide (format = VIRTIO_SND_PCM_FMT_S32) then Done AUDIO_FORMAT_S32
  else if bool_decide (format = VIRTIO_SND_PCM_FMT_FLOAT) then Done AUDIO_FORMAT_F32
  else Fault NotReached.

Definition virtio_snd_get_qemu_freq (rate : Z) : outcome Z :=
  if bool_decide (rate = VIRTIO_SND_PCM_RATE_5512) then Done 5512
  else if bool_decide (rate = VIRTIO_SND_PCM_RATE_8000) then Done 8000
  else if bool_decide (rate = VIRTIO_SND_PCM_RATE_11025) then Done 11025
  else if bool_decide (rate = VIRTIO_SND_PCM_RATE_16000) then Done 16000
  else if bool_decide (rate = VIRTIO_SND_PCM_RATE_22050) then Done 22050
  else if bool_decide (rate = VIRTIO_SND_PCM_RATE_32000) then Done 32000
  else if bool_decide (rate = VIRTIO_SND_PCM_RATE_44100) then Done 44100
  else if bool_decide (rate = VIRTIO_SND_PCM_RATE_48000) then Done 48000
  else if bool_decide (rate = VIRTIO_SND_PCM_RATE_64000) then Done 64000
  else if bool_decide (rate = VIRTIO_SND_PCM_RATE_88200) then Done 88200
  else if bool_decide (rate = VIRTIO_SND_PCM_RATE_96000) then Done 96000
  else if bool_decide (rate = VIRTIO_SND_PCM_RATE_176400) then Done 176400
  else if bool_decide (rate = VIRTIO_SND_PCM_RATE_192000) then Done 192000
  else if bool_decide (rate = VIRTIO_SND_PCM_RATE_384000) then Done 384000
  else Fault NotReached.

Definition virtio_snd_get_qemu_audsettings (params : VirtIOSoundPCMParams)
    : outcome audsettings :=
  let nchannels := Z.min AUDIO_MAX_CHANNELS (channels params) in
  fmt ← virtio_snd_get_qemu_format (format params);
  freq ← virtio_snd_get_qemu_freq (rate params);
  Done {| freq := freq; nchannels := nchannels; fmt := fmt;
          endianness := AUDIO_HOST_ENDIANNESS |}.

(** [positions] is an array of [VIRTIO_SND_CHMAP_MAX_SIZE] bytes whose
    first two entries are assigned. *)
Definition default_positions : list Z :=
  <[1%nat := VIRTIO_SND_CHMAP_FR]>
    (<[0%nat := VIRTIO_SND_CHMAP_FL]>
       (replicate (Z.to_nat VIRTIO_SND_CHMAP_MAX_SIZE) 0)).

Definition virtio_snd_pcm_prepare_impl (s : VirtIOSound) (stream_id : Z)
    : outcome (virtio_snd_status * VirtIOSound) :=
  p ← deref (pcm s);
  match pcm_streams p, pcm_params p with
  | None, _ | _, None => Done (VIRTIO_SND_S_BAD_MSG, s)
  | Some str, Some par =>
    slot ← array_get par stream_id;
    match slot with
    | None => Done (VIRTIO_SND_S_BAD_MSG, s)
    | Some _ =>
      params ← virtio_snd_pcm_get_params s stream_id;
      match params with
      | None => Done (VIRTIO_SND_S_BAD_MSG, s)
      | Some params =>
        as_ ← virtio_snd_get_qemu_audsettings params;
        (* virtio_snd_pcm_close(s->pcm->streams[stream_id]) *)
        _ ← array_get str stream_id;
        let stream :=
          {| st_hda_fn_nid := VIRTIO_SOUND_HDA_FN_NID;
             st_id := stream_id;
             st_buffer_bytes := buffer_bytes params;
             st_period_bytes := period_bytes params;
             st_positions := default_positions;
             st_features := 0;
             st_formats := supported_formats;
             st_rates := supported_rates;
             st_direction :=
               if bool_decide (stream_id < streams (snd_conf s) `div` 2
                                           + Z.land (streams (snd_conf s)) 1)
               then VIRTIO_SND_D_OUTPUT else VIRTIO_SND_D_INPUT;
             st_channels_min := 1;
             st_channels_max := u8 (nchannels as_);
             st_flushing := false;
             st_as := as_;
             st_desired_as := as_ |} in
        Done (VIRTIO_SND_S_OK, store_stream s stream_id (Some stream))
      end
    end
  end.

Definition virtio_snd_handle_pcm_prepare (s : VirtIOSound)
    (cmd : virtio_snd_ctrl_command) : outcome (virtio_snd_ctrl_command * VirtIOSound) :=
  let buf := iov_to_buf (out_sg (elem cmd)) sizeof_virtio_snd_hdr sizeof_uint32_t in
  if bool_decide (length buf = sizeof_uint32_t) then
    '(status, s) ← virtio_snd_pcm_prepare_impl s (le_decode buf);
    Done (with_resp_code status cmd, s)
  else Done (with_resp_code VIRTIO_SND_S_BAD_MSG cmd, s).

(** *** VIRTIO_SND_R_PCM_START, VIRTIO_SND_R_PCM_STOP *)

Definition virtio_snd_handle_pcm_start_stop (s : VirtIOSound)
    (cmd : virtio_snd_ctrl_command) (start : bool) : outcome virtio_snd_ctrl_command :=
  let buf := iov_to_buf (out_sg (elem cmd)) 0 sizeof_virtio_snd_pcm_hdr in
  if bool_decide (length buf ≠ sizeof_virtio_snd_pcm_hdr) then
    Done (with_resp_code VIRTIO_SND_S_BAD_MSG cmd)
  else
    let cmd := with_resp_code VIRTIO_SND_S_OK cmd in
    stream ← virtio_snd_pcm_get_stream s (field buf 4 4);
    match stream with
    | None => Done (with_resp_code VIRTIO_SND_S_BAD_MSG cmd)
    | Some _ => Done cmd
    end.

(** *** VIRTIO_SND_R_PCM_RELEASE *)

Definition virtio_snd_handle_pcm_release (s : VirtIOSound)
    (cmd : virtio_snd_ctrl_command) : outcome virtio_snd_ctrl_command :=
  let buf := iov_to_buf (out_sg (elem cmd)) sizeof_virtio_snd_hdr sizeof_uint32_t in
  if bool_decide (length buf ≠ sizeof_uint32_t) then
    Done (with_resp_code VIRTIO_SND_S_BAD_MSG cmd)
  else
    stream ← virtio_snd_pcm_get_stream s (le_decode buf);
    match stream with
    | None => Done (with_resp_code VIRTIO_SND_S_BAD_MSG cmd)
    | Some _ => Done (with_resp_code VIRTIO_SND_S_OK cmd)
    end.

(** *** The command queue *)

Definition virtqueue_push (vq : VirtQueue) (e : VirtQueueElement) (len : Z) : VirtQueue :=
  {| vq_ready := vq_ready vq; vq_avail := vq_avail vq;
     vq_used := vq_used vq ++ [(e, len)]; vq_notified := vq_notified vq |}.

Definition virtio_notify (vq : VirtQueue) : VirtQueue :=
  {| vq_ready := vq_ready vq; vq_avail := vq_avail vq;
     vq_used := vq_used vq; vq_notified := S (vq_notified vq) |}.

(** The [switch] of [process_cmd]. *)
Definition dispatch (s : VirtIOSound) (cmd : virtio_snd_ctrl_command)
    : outcome (virtio_snd_ctrl_command * VirtIOSound) :=
  let code := ctrl_code cmd in
  if bool_decide (code = request_code VIRTIO_SND_R_JACK_INFO
                  ∨ code = request_code VIRTIO_SND_R_JACK_REMAP) then
    Done (with_resp_code VIRTIO_SND_S_NOT_SUPP cmd, s)
  else if bool_decide (code = request_code VIRTIO_SND_R_PCM_INFO) then
    cmd ← virtio_snd_handle_pcm_info s cmd; Done (cmd, s)
  else if bool_decide (code = request_code VIRTIO_SND_R_PCM_START) then
    cmd ← virtio_snd_handle_pcm_start_stop s cmd true; Done (cmd, s)
  else if bool_decide (code = request_code VIRTIO_SND_R_PCM_STOP) then
    cmd ← virtio_snd_handle_pcm_start_stop s cmd false; Done (cmd, s)
  else if bool_decide (code = request_code VIRTIO_SND_R_PCM_SET_PARAMS) then
    virtio_snd_handle_pcm_set_params s cmd
  else if bool_decide (code = request_code VIRTIO_SND_R_PCM_PREPARE) then
    virtio_snd_handle_pcm_prepare s cmd
  else if bool_decide (code = request_code VIRTIO_SND_R_PCM_RELEASE) then
    cmd ← virtio_snd_handle_pcm_release s cmd; Done (cmd, s)
  else if bool_decide (code = request_code VIRTIO_SND_R_CHMAP_INFO) then
    Done (with_resp_code VIRTIO_SND_S_NOT_SUPP cmd, s)
  else Done (with_resp_code VIRTIO_SND_S_BAD_MSG cmd, s).

Definition process_cmd (s : VirtIOSound) (cmd : virtio_snd_ctrl_command)
    : outcome VirtIOSound :=
  let buf := iov_to_buf (out_sg (elem cmd)) 0 sizeof_virtio_snd_hdr in
  if bool_decide (length buf ≠ sizeof_virtio_snd_hdr) then Done s
  else
    let cmd := with_ctrl_code (le_decode buf) cmd in
    '(cmd, s) ← dispatch s cmd;
    let e :=
      with_in_sg
        (iov_from_buf (in_sg (elem cmd)) 0 (le_encode 4 (status_code (resp_code cmd))))
        (elem cmd) in
    Done (with_ctrl_vq (virtio_notify (virtqueue_push (ctrl_vq s) e sizeof_pointer)) s).

(** The [while] loop of [virtio_snd_process_cmdq] over the queue [q], which
    is [s->cmdq] on entry: the head is processed, then removed. *)
Fixpoint process_cmdq_loop (q : list virtio_snd_ctrl_command) (s : VirtIOSound)
    : outcome VirtIOSound :=
  match q with
  | [] => Done s
  | cmd :: rest =>
    s ← process_cmd s cmd;
    process_cmdq_loop rest (with_cmdq rest s)
  end.

Definition virtio_snd_process_cmdq (s : VirtIOSound) : outcome VirtIOSound :=
  if processing_cmdq s then Done s
  else
    s ← process_cmdq_loop (cmdq s) (with_processing_cmdq true s);
    Done (with_processing_cmdq false s).

(** The [while (elem)] loop of [virtio_snd_handle_ctrl]: every available
    element is popped and appended to the tail of [cmdq]. *)
Fixpoint pop_all (avail : list VirtQueueElement) (q : list virtio_snd_ctrl_command)
    : list virtio_snd_ctrl_command :=
  match avail with
  | [] => q
  | e :: avail =>
    pop_all avail (q ++ [{| elem := e; ctrl_code := 0; resp_code := VIRTIO_SND_S_OK |}])
  end.

Definition virtio_snd_handle_ctrl (s : VirtIOSound) : outcome VirtIOSound :=
  let vq := ctrl_vq s in
  if negb (vq_ready vq) then Done s
  else
    let q := pop_all (vq_avail vq) (cmdq s) in
    let vq := {| vq_ready := vq_ready vq; vq_avail := []; vq_used := vq_used vq;
                 vq_notified := vq_notified vq |} in
    virtio_snd_process_cmdq (with_cmdq q (with_ctrl_vq vq s)).

(** The [while] loop of [virtio_snd_reset] over the queue [q], which is
    [s->cmdq] on entry: the head is removed and freed, nothing is answered. *)
Fixpoint reset_loop (q : list virtio_snd_ctrl_command) (s : VirtIOSound) : VirtIOSound :=
  match q with
  | [] => s
  | _ :: rest => reset_loop rest (with_cmdq rest s)
  end.

Definition virtio_snd_reset (s : VirtIOSound) : VirtIOSound := reset_loop (cmdq s) s.

(** *** Realization *)

Definition virtio_snd_set_pcm (snd : VirtIOSound) : outcome VirtIOSound :=
  pcm_streams ← g_new0 None sizeof_pointer (streams (snd_conf snd));
  pcm_params ← g_new0 None sizeof_pointer (streams (snd_conf snd));
  pcm_jacks ← g_new0 None sizeof_pointer (jacks (snd_conf snd));
  Done (with_pcm
          (Some {| pcm_streams := pcm_streams;
                   pcm_params := pcm_params;
                   pcm_jacks := pcm_jacks |}) snd).

Inductive realize_result : Type :=
  | Realized (s : VirtIOSound)
  | RealizeError (msg : string) (s : VirtIOSound).

(** [virtio_add_queue]: a fresh queue that the guest has not set up yet. *)
Definition virtio_add_queue : VirtQueue :=
  {| vq_ready := false; vq_avail := []; vq_used := []; vq_notified := 0 |}.

Definition default_params (i : Z) : virtio_snd_pcm_set_params :=
  {| sp_stream_id := i;
     sp_buffer_bytes := 8192;
     sp_period_bytes := 4096;
     sp_features := 0;
     sp_channels := 2;
     sp_format := VIRTIO_SND_PCM_FMT_S16;
     sp_rate := VIRTIO_SND_PCM_RATE_44100 |}.

(** The [for] loop of [virtio_snd_common_realize], [n] iterations from [i]. *)
Fixpoint realize_streams (n : nat) (i : Z) (vsnd : VirtIOSound) : outcome realize_result :=
  match n with
  | O => Done (Realized vsnd)
  | S n' =>
    '(status, vsnd) ← virtio_snd_pcm_set_params_impl vsnd (default_params i);
    if bool_decide (status ≠ VIRTIO_SND_S_OK) then
      Done (RealizeError "Can't initalize stream params" vsnd)
    else
      '(status, vsnd) ← virtio_snd_pcm_prepare_impl vsnd i;
      if bool_decide (status ≠ VIRTIO_SND_S_OK) then
        Done (RealizeError "Can't prepare streams" vsnd)
      else realize_streams n' (i + 1) vsnd
  end.

Definition virtio_snd_common_realize (vsnd : VirtIOSound) : outcome realize_result :=
  vsnd ← virtio_snd_set_pcm vsnd;
  if bool_decide (8 < jacks (snd_conf vsnd)) then
    Done (RealizeError "Invalid number of jacks" vsnd)
  else if bool_decide (streams (snd_conf vsnd) < 1 ∨ 10 < streams (snd_conf vsnd)) then
    Done (RealizeError "Invalid number of streams" vsnd)
  else if bool_decide (VIRTIO_SND_CHMAP_MAX_SIZE < chmaps (snd_conf vsnd)) then
    Done (RealizeError "Invalid number of channel maps" vsnd)
  else
    let vsnd := with_cmdq [] (with_ctrl_vq virtio_add_queue vsnd) in
    realize_streams (Z.to_nat (streams (snd_conf vsnd))) 0 vsnd.

Definition virtio_snd_realize (vsnd : VirtIOSound) : outcome realize_result :=
  virtio_snd_common_realize (with_pcm None vsnd).

(** The device object before realization, its properties set. *)
Definition instance (conf : virtio_snd_config) : VirtIOSound :=
  {| snd_conf := conf; pcm := None; ctrl_vq := virtio_add_queue; cmdq := [];
     processing_cmdq := false |}.

End Device.

(** ** Observations

    What the properties below speak about: the contents of the two tables,
    the parts of the device a PCM handler leaves alone, and the identity of
    a request on its way through the command queue. *)

(** The contents of [pcm->pcm_params] and [pcm->streams]; a table that was
    never allocated has no entry. *)
Definition params_table (s : VirtIOSound) : list (option VirtIOSoundPCMParams) :=
  default [] (pcm s ≫= pcm_params).

Definition streams_table (s : VirtIOSound) : list (option VirtIOSoundPCMStream) :=
  default [] (pcm s ≫= pcm_streams).

(** A Stream exists for [stream_id]; [stream_id] has no Stream (the id is
    beyond the configured count, or its slot holds NULL). *)
Definition stream_exists (s : VirtIOSound) (stream_id : Z) : Prop :=
  0 ≤ stream_id < streams (snd_conf s)
  ∧ ∃ stream, streams_table s !! Z.to_nat stream_id = Some (Some stream).

Definition no_stream (s : VirtIOSound) (stream_id : Z) : Prop :=
  streams (snd_conf s) ≤ stream_id
  ∨ (0 ≤ stream_id ∧ streams_table s !! Z.to_nat stream_id = Some None).

(** The stream table has a slot for every configured stream id, as after
    realization. *)
Definition table_covers_config (s : VirtIOSound) : Prop :=
  streams (snd_conf s) ≤ Z.of_nat (length (streams_table s)).

(** The host provides the block that [g_new0] needs for [n] elements of
    [size] bytes (none for [n = 0]); the tables of [virtio_snd_set_pcm]. *)
Definition allocates `{glib_host} (size n : Z) : Prop :=
  n ≤ 0 ∨ g_malloc_ok (n * size) = true.

Definition tables_allocate `{glib_host} (conf : virtio_snd_config) : Prop :=
  allocates sizeof_pointer (streams conf) ∧ allocates sizeof_pointer (jacks conf).

(** What a handler leaves alone besides the tables. *)
Definition same_queues (s s' : VirtIOSound) : Prop :=
  snd_conf s' = snd_conf s ∧ ctrl_vq s' = ctrl_vq s
  ∧ cmdq s' = cmdq s ∧ processing_cmdq s' = processing_cmdq s.

(** A request is identified by its descriptor index and the bytes the
    guest wrote; the device only ever writes [in_sg]. *)
Definition request_of (e : VirtQueueElement) : Z * list byte := (index e, out_sg e).

Definition same_request (e e' : VirtQueueElement) : Prop :=
  index e' = index e ∧ out_sg e' = out_sg e ∧ length (in_sg e') = length (in_sg e).

(** The request holds at least the common header. *)
Definition header_complete (e : VirtQueueElement) : Prop :=
  (sizeof_virtio_snd_hdr ≤ length (out_sg e))%nat.

#[export] Instance header_complete_dec (e : VirtQueueElement) : Decision (header_complete e).
Proof. unfold header_complete. apply _. Defined.

Section Defaults.
Context {abi : virtio_snd_abi} {host : glib_host}.

(** The parameters [virtio_snd_common_realize] stores for every stream. *)
Definition default_stored : VirtIOSoundPCMParams :=
  {| features := 0; buffer_bytes := 8192; period_bytes := 4096; channels := 2;
     format := VIRTIO_SND_PCM_FMT_S16; rate := VIRTIO_SND_PCM_RATE_44100 |}.

(** The info record [virtio_snd_handle_pcm_info] builds for a Stream. *)
Definition info_of_stream (stream : VirtIOSoundPCMStream) : virtio_snd_pcm_info :=
  {| hda_fn_nid := st_hda_fn_nid stream;
     info_features := st_features stream;
     info_formats := st_formats stream;
     info_rates := st_rates stream;
     info_direction := direction_code (st_direction stream);
     info_channels_min := st_channels_min stream;
     info_channels_max := st_channels_max stream |}.

(** What realization needs of the constants: stereo is within the channel
    limit and the codes of S16 and of 44100 Hz index a bit of the 32-bit
    masks. *)
Definition abi_supports_defaults : Prop :=
  2 ≤ AUDIO_MAX_CHANNELS
  ∧ 0 ≤ VIRTIO_SND_PCM_FMT_S16 < 32
  ∧ 0 ≤ VIRTIO_SND_PCM_RATE_44100 < 32.

End Defaults.

(** ** Scenarios

    Concrete devices and requests on which the device is run in the
    properties below, with the constants of VIRTIO 1.2. *)

Section Scenarios.
#[local] Existing Instance virtio_v1_2.
#[local] Existing Instance roomy_host.

Definition config_of (n : Z) : virtio_snd_config :=
  {| jacks := 0; streams := n; chmaps := 0 |}.

(** The device realized with [n] streams. *)
Definition realized (n : Z) : VirtIOSound :=
  match virtio_snd_realize (instance (config_of n)) with
  | Done (Realized s) => s
  | _ => instance (config_of n)
  end.

(** The driver sets the control queue up and makes [elems] available. *)
Definition driver_offers (elems : list VirtQueueElement) (s : VirtIOSound) : VirtIOSound :=
  with_ctrl_vq
    {| vq_ready := true;
       vq_avail := vq_avail (ctrl_vq s) ++ elems;
       vq_used := vq_used (ctrl_vq s);
       vq_notified := vq_notified (ctrl_vq s) |} s.

(** A descriptor chain: the request bytes and [room] writable bytes. *)
Definition request (idx : Z) (out : list byte) (room : nat) : VirtQueueElement :=
  {| index := idx; out_sg := out; in_sg := replicate room x00 |}.

(** The images of [virtio_snd_pcm_hdr] and [virtio_snd_query_info]. *)
Definition pcm_hdr (r : virtio_snd_request) (stream_id : Z) : list byte :=
  le_encode 4 (request_code r) ++ le_encode 4 stream_id.

Definition query_info (start count size : Z) : list byte :=
  le_encode 4 (request_code VIRTIO_SND_R_PCM_INFO)
    ++ le_encode 4 start ++ le_encode 4 count ++ le_encode 4 size.

(** The command [process_cmd] hands to the [switch] for element [e]. *)
Definition command (e : VirtQueueElement) : virtio_snd_ctrl_command :=
  {| elem := e; ctrl_code := field (out_sg e) 0 4; resp_code := VIRTIO_SND_S_OK |}.

(** A SET_PARAMS request for stream 0 whose channel count is zero. *)
Definition zero_channels : virtio_snd_pcm_set_params :=
  {| sp_stream_id := 0; sp_buffer_bytes := 1; sp_period_bytes := 1; sp_features := 7;
     sp_channels := 0; sp_format := VIRTIO_SND_PCM_FMT_S16;
     sp_rate := VIRTIO_SND_PCM_RATE_44100 |}.

(** A device whose parameter table has one empty slot and whose stream
    table was never allocated. *)
Definition without_stream_table : VirtIOSound :=
  with_pcm
    (Some {| pcm_params := Some [None]; pcm_streams := None; pcm_jacks := None |})
    (instance (config_of 1)).

End Scenarios.

(** ** Checked parameters and the state of a realized device *)

Section Validity.
Context {abi : virtio_snd_abi} {host : glib_host}.

(** The format and rate codes whose bits [supported_formats] and
    [supported_rates] are built from. *)
Definition supported_format_codes : list Z :=
  [VIRTIO_SND_PCM_FMT_S8; VIRTIO_SND_PCM_FMT_U8; VIRTIO_SND_PCM_FMT_S16;
   VIRTIO_SND_PCM_FMT_U16; VIRTIO_SND_PCM_FMT_S32; VIRTIO_SND_PCM_FMT_U32;
   VIRTIO_SND_PCM_FMT_FLOAT].

Definition supported_rate_codes : list Z :=
  [VIRTIO_SND_PCM_RATE_5512; VIRTIO_SND_PCM_RATE_8000; VIRTIO_SND_PCM_RATE_11025;
   VIRTIO_SND_PCM_RATE_16000; VIRTIO_SND_PCM_RATE_22050; VIRTIO_SND_PCM_RATE_32000;
   VIRTIO_SND_PCM_RATE_44100; VIRTIO_SND_PCM_RATE_48000; VIRTIO_SND_PCM_RATE_64000;
   VIRTIO_SND_PCM_RATE_88200; VIRTIO_SND_PCM_RATE_96000; VIRTIO_SND_PCM_RATE_176400;
   VIRTIO_SND_PCM_RATE_192000; VIRTIO_SND_PCM_RATE_384000].

(** The bitwise or of [BIT c] over the codes [c]. *)
Definition mask_of (codes : list Z) : Z :=
  foldr (λ c m, Z.lor (BIT c) m) 0 codes.

(** Stored parameters that passed every check of
    [virtio_snd_pcm_set_params_impl]. *)
Definition params_valid (p : VirtIOSoundPCMParams) : Prop :=
  1 ≤ channels p ≤ AUDIO_MAX_CHANNELS
  ∧ format p ∈ supported_format_codes
  ∧ rate p ∈ supported_rate_codes.

(** The state realization leaves and the control path keeps: at least one
    stream is configured, both tables have exactly one slot per configured
    stream, and every slot holds checked parameters and a Stream. *)
Definition device_ok (s : VirtIOSound) : Prop :=
  1 ≤ streams (snd_conf s)
  ∧ length (params_table s) = Z.to_nat (streams (snd_conf s))
  ∧ length (streams_table s) = Z.to_nat (streams (snd_conf s))
  ∧ ∀ i, 0 ≤ i < streams (snd_conf s) →
      (∃ p, params_table s !! Z.to_nat i = Some (Some p) ∧ params_valid p)
      ∧ (∃ stream, streams_table s !! Z.to_nat i = Some (Some stream)).

End Validity.

(** ** Replies and control traffic *)

#[export] Instance virtio_snd_request_eq_dec : EqDecision virtio_snd_request.
Proof. solve_decision. Defined.

Section Traffic.
Context {abi : virtio_snd_abi} {host : glib_host}.

(** The device after element [e] was returned to the guest with status
    [st] in its reply header, as the tail of [process_cmd] does, and
    nothing else happened. *)
Definition answered (s : VirtIOSound) (e : VirtQueueElement) (st : virtio_snd_status)
    : VirtIOSound :=
  with_ctrl_vq
    (virtio_notify
       (virtqueue_push (ctrl_vq s)
          (with_in_sg (iov_from_buf (in_sg e) 0 (le_encode 4 (status_code st))) e)
          sizeof_pointer)) s.

(** The number of request bytes the handler of a request code copies out
    of the element before it does anything else. *)
Definition request_size (r : virtio_snd_request) : nat :=
  match r with
  | VIRTIO_SND_R_PCM_INFO => sizeof_virtio_snd_query_info
  | VIRTIO_SND_R_PCM_SET_PARAMS => sizeof_virtio_snd_pcm_set_params
  | VIRTIO_SND_R_PCM_PREPARE | VIRTIO_SND_R_PCM_RELEASE =>
      sizeof_virtio_snd_hdr + sizeof_uint32_t
  | VIRTIO_SND_R_PCM_START | VIRTIO_SND_R_PCM_STOP => sizeof_virtio_snd_pcm_hdr
  | _ => sizeof_virtio_snd_hdr
  end.

(** Requests that stay within defined behaviour on a realized device with
    [n] streams.  A SET_PARAMS that carries its whole structure names a
    configured stream id and format and rate codes below 64 (the width of
    the shifted one); a PREPARE that carries its stream header names a
    configured id; a PCM_INFO that carries its whole query starts at id 0
    and asks for a number of records the host provides.  Any other request
    qualifies. *)
Definition request_defined (n : Z) (e : VirtQueueElement) : Prop :=
  let out := out_sg e in
  let code := field out 0 4 in
  ((sizeof_virtio_snd_pcm_set_params ≤ length out)%nat →
   code = request_code VIRTIO_SND_R_PCM_SET_PARAMS →
   field out 4 4 < n ∧ field out 21 1 < 64 ∧ field out 22 1 < 64)
  ∧ ((sizeof_virtio_snd_pcm_hdr ≤ length out)%nat →
     code = request_code VIRTIO_SND_R_PCM_PREPARE →
     field out 4 4 < n)
  ∧ ((sizeof_virtio_snd_query_info ≤ length out)%nat →
     code = request_code VIRTIO_SND_R_PCM_INFO →
     field out 4 4 = 0
     ∧ allocates (Z.of_nat sizeof_virtio_snd_pcm_info) (field out 8 4)).

(** Nothing is pending: the state between two notifications. *)
Definition idle (s : VirtIOSound) : Prop :=
  cmdq s = [] ∧ vq_avail (ctrl_vq s) = [] ∧ processing_cmdq s = false.

(** The guest makes the requests of a batch available and notifies the
    control queue, batch after batch. *)
Fixpoint control_traffic (batches : list (list VirtQueueElement)) (s : VirtIOSound)
    : outcome VirtIOSound :=
  match batches with
  | [] => Done s
  | batch :: rest =>
    s ← virtio_snd_handle_ctrl (driver_offers batch s);
    control_traffic rest s
  end.

End Traffic.

(** ** The first revision

    The source holds an earlier revision of hw/virtio/virtio-snd.c as well,
    from before the PCM requests were implemented.  Configuration space,
    parameter lookup, [virtio_snd_pcm_set_params_impl], the command queue
    and reset read as above; the [switch] of [process_cmd], the loop of
    realization and the teardown differ and are embedded here. *)
Module first_revision.
Section Device.
Context {abi : virtio_snd_abi} {host : glib_host}.

(** The [switch] of [process_cmd]: no request is implemented yet. *)
Definition dispatch (cmd : virtio_snd_ctrl_command) : virtio_snd_ctrl_command :=
  let code := ctrl_code cmd in
  if bool_decide (code = request_code VIRTIO_SND_R_JACK_INFO
                  ∨ code = request_code VIRTIO_SND_R_JACK_REMAP) then
    with_resp_code VIRTIO_SND_S_NOT_SUPP cmd
  else if bool_decide (code = request_code VIRTIO_SND_R_PCM_INFO
                       ∨ code = request_code VIRTIO_SND_R_PCM_SET_PARAMS
                       ∨ code = request_code VIRTIO_SND_R_PCM_PREPARE
                       ∨ code = request_code VIRTIO_SND_R_PCM_START
                       ∨ code = request_code VIRTIO_SND_R_PCM_STOP
                       ∨ code = request_code VIRTIO_SND_R_PCM_RELEASE) then
    with_resp_code VIRTIO_SND_S_NOT_SUPP cmd
  else if bool_decide (code = request_code VIRTIO_SND_R_CHMAP_INFO) then
    with_resp_code VIRTIO_SND_S_NOT_SUPP cmd
  else with_resp_code VIRTIO_SND_S_BAD_MSG cmd.

Definition process_cmd (s : VirtIOSound) (cmd : virtio_snd_ctrl_command) : VirtIOSound :=
  let buf := iov_to_buf (out_sg (elem cmd)) 0 sizeof_virtio_snd_hdr in
  if bool_decide (length buf ≠ sizeof_virtio_snd_hdr) then s
  else
    let cmd := dispatch (with_ctrl_code (le_decode buf) cmd) in
    let e :=
      with_in_sg
        (iov_from_buf (in_sg (elem cmd)) 0 (le_encode 4 (status_code (resp_code cmd))))
        (elem cmd) in
    with_ctrl_vq (virtio_notify (virtqueue_push (ctrl_vq s) e sizeof_pointer)) s.

Fixpoint process_cmdq_loop (q : list virtio_snd_ctrl_command) (s : VirtIOSound)
    : VirtIOSound :=
  match q with
  | [] => s
  | cmd :: rest => process_cmdq_loop rest (with_cmdq rest (process_cmd s cmd))
  end.

Definition virtio_snd_process_cmdq (s : VirtIOSound) : VirtIOSound :=
  if processing_cmdq s then s
  else with_processing_cmdq false
         (process_cmdq_loop (cmdq s) (with_processing_cmdq true s)).

Definition virtio_snd_handle_ctrl (s : VirtIOSound) : VirtIOSound :=
  let vq := ctrl_vq s in
  if negb (vq_ready vq) then s
  else
    let q := pop_all (vq_avail vq) (cmdq s) in
    let vq := {| vq_ready := vq_ready vq; vq_avail := []; vq_used := vq_used vq;
                 vq_notified := vq_notified vq |} in
    virtio_snd_process_cmdq (with_cmdq q (with_ctrl_vq vq s)).

(** The [for] loop of [virtio_snd_common_realize], [n] iterations from [i]:
    only the default parameters are stored. *)
Fixpoint realize_streams (n : nat) (i : Z) (vsnd : VirtIOSound) : outcome realize_result :=
  match n with
  | O => Done (Realized vsnd)
  | S n' =>
    '(status, vsnd) ← virtio_snd_pcm_set_params_impl vsnd (default_params i);
    if bool_decide (status ≠ VIRTIO_SND_S_OK) then
      Done (RealizeError "Can't initalize stream params" vsnd)
    else realize_streams n' (i + 1) vsnd
  end.

Definition virtio_snd_common_realize (vsnd : VirtIOSound) : outcome realize_result :=
  vsnd ← virtio_snd_set_pcm vsnd;
  if bool_decide (8 < jacks (snd_conf vsnd)) then
    Done (RealizeError "Invalid number of jacks" vsnd)
  else if bool_decide (streams (snd_conf vsnd) < 1 ∨ 10 < streams (snd_conf vsnd)) then
    Done (RealizeError "Invalid number of streams" vsnd)
  else if bool_decide (VIRTIO_SND_CHMAP_MAX_SIZE < chmaps (snd_conf vsnd)) then
    Done (RealizeError "Invalid number of channel maps" vsnd)
  else
    let vsnd := with_cmdq [] (with_ctrl_vq virtio_add_queue vsnd) in
    realize_streams (Z.to_nat (streams (snd_conf vsnd))) 0 vsnd.

Definition virtio_snd_realize (vsnd : VirtIOSound) : outcome realize_result :=
  virtio_snd_common_realize (with_pcm None vsnd).

(** [virtio_snd_pcm_close(stream)] is [virtio_snd_process_cmdq(stream->s)];
    [stream->s] is the device the stream belongs to. *)
Definition virtio_snd_pcm_close (s : VirtIOSound) (stream : option VirtIOSoundPCMStream)
    : outcome VirtIOSound :=
  _ ← deref stream;
  Done (virtio_snd_process_cmdq s).

(** The [for] loop of [virtio_snd_unrealize], [n] iterations from [i]. *)
Fixpoint unrealize_streams (n : nat) (i : Z) (vsnd : VirtIOSound) : outcome VirtIOSound :=
  match n with
  | O => Done vsnd
  | S n' =>
    p ← deref (pcm vsnd);
    a ← deref (pcm_streams p);
    stream ← array_get a i;
    vsnd ← virtio_snd_pcm_close vsnd stream;
    unrealize_streams n' (i + 1) vsnd
  end.

(** [g_free(vsnd->pcm)] leaves the pointer in place. *)
Definition virtio_snd_unrealize (vsnd : VirtIOSound) : outcome VirtIOSound :=
  unrealize_streams (Z.to_nat (streams (snd_conf vsnd))) 0 vsnd.

End Device.
End first_revision.

(** ** Further scenarios *)

Section MoreScenarios.
#[local] Existing Instance virtio_v1_2.
#[local] Existing Instance roomy_host.

(** The image of [virtio_snd_pcm_set_params]. *)
Definition set_params_request (p : virtio_snd_pcm_set_params) : list byte :=
  pcm_hdr VIRTIO_SND_R_PCM_SET_PARAMS (sp_stream_id p)
    ++ le_encode 4 (sp_buffer_bytes p)
    ++ le_encode 4 (sp_period_bytes p)
    ++ le_encode 4 (sp_features p)
    ++ le_encode 1 (sp_channels p)
    ++ le_encode 1 (sp_format p)
    ++ le_encode 1 (sp_rate p)
    ++ [x00].

(** Mono, unsigned 8 bit, 48 kHz for stream 1. *)
Definition mono_u8_48k : virtio_snd_pcm_set_params :=
  {| sp_stream_id := 1; sp_buffer_bytes := 16384; sp_period_bytes := 2048;
     sp_features := 0; sp_channels := 1; sp_format := VIRTIO_SND_PCM_FMT_U8;
     sp_rate := VIRTIO_SND_PCM_RATE_48000 |}.

(** Two channels for stream 0 in a format code no mask can hold. *)
Definition format_64 : virtio_snd_pcm_set_params :=
  {| sp_stream_id := 0; sp_buffer_bytes := 8192; sp_period_bytes := 4096;
     sp_features := 0; sp_channels := 2; sp_format := 64;
     sp_rate := VIRTIO_SND_PCM_RATE_44100 |}.

(** The device realized by the first revision with [n] streams. *)
Definition first_realized (n : Z) : VirtIOSound :=
  match first_revision.virtio_snd_realize (instance (config_of n)) with
  | Done (Realized s) => s
  | _ => instance (config_of n)
  end.

End MoreScenarios.

(** * Properties *)

(** ** Bytes and fields *)

Lemma byte_val_range (b : byte) : 0 ≤ byte_val b < 256.
Proof.
  unfold byte_val. pose proof (Byte.to_N_bounded b). lia.
Qed.

Lemma byte_of_val (b : byte) : byte_of (byte_val b) = b.
Proof.
  unfold byte_of. pose proof (byte_val_range b) as Hb.
  rewrite Z.mod_small by lia.
  unfold byte_val. rewrite N2Z.id, Byte.of_to_N. reflexivity.
Qed.

Lemma byte_of_mod (v : Z) : byte_of (v mod 256) = byte_of v.
Proof.
  unfold byte_of. rewrite Z.mod_mod by lia. reflexivity.
Qed.

Lemma le_encode_length (n : nat) (v : Z) : length (le_encode n v) = n.
Proof.
  revert v. induction n as [|n IH]; intros v; simpl; [reflexivity|].
  rewrite IH. reflexivity.
Qed.

Lemma le_decode_range (bs : list byte) : 0 ≤ le_decode bs < 256 ^ Z.of_nat (length bs).
Proof.
  induction bs as [|b bs IH]; simpl le_decode; simpl length.
  - simpl. lia.
  - pose proof (byte_val_range b).
    rewrite Nat2Z.inj_succ, Z.pow_succ_r by lia. lia.
Qed.

(** Encoding a decoded field gives its bytes back. *)
Lemma le_encode_decode (bs : list byte) : le_encode (length bs) (le_decode bs) = bs.
Proof.
  induction bs as [|b bs IH]; simpl; [reflexivity|].
  pose proof (byte_val_range b) as Hb.
  replace (byte_val b + 256 * le_decode bs) with (byte_val b + le_decode bs * 256) by lia.
  f_equal.
  - rewrite <- byte_of_mod, Z_mod_plus_full, Z.mod_small by lia.
    apply byte_of_val.
  - rewrite Z_div_plus_full, Z.div_small by lia. exact IH.
Qed.

Lemma le_encode_field (buf : list byte) (off len : nat) :
  (off + len ≤ length buf)%nat →
  le_encode len (field buf off len) = take len (drop off buf).
Proof.
  intros Hlen. unfold field.
  assert (length (take len (drop off buf)) = len) as Hl.
  { rewrite length_take, length_drop. lia. }
  rewrite <- Hl at 1. apply le_encode_decode.
Qed.

Lemma field_range (buf : list byte) (off len : nat) :
  0 ≤ field buf off len < 256 ^ Z.of_nat len.
Proof.
  unfold field. pose proof (le_decode_range (take len (drop off buf))) as H.
  assert (length (take len (drop off buf)) ≤ len)%nat as Hl by (rewrite length_take; lia).
  split; [lia|]. eapply Z.lt_le_trans; [apply H|].
  apply Z.pow_le_mono_r; lia.
Qed.

(** Decoding an encoded value gives the value modulo the field width. *)
Lemma le_decode_encode (n : nat) (v : Z) :
  le_decode (le_encode n v) = v mod 256 ^ Z.of_nat n.
Proof.
  revert v. induction n as [|n IH]; intros v.
  - simpl. rewrite Z.mod_1_r. reflexivity.
  - simpl le_encode. simpl le_decode. rewrite IH.
    rewrite Nat2Z.inj_succ, Z.pow_succ_r by lia.
    assert (byte_val (byte_of v) = v mod 256) as ->.
    { unfold byte_of.
      destruct (Byte.of_N (Z.to_N (v mod 256))) as [b|] eqn:Hb.
      - apply Byte.to_of_N in Hb. unfold byte_val. rewrite Hb.
        rewrite Z2N.id; [reflexivity|]. apply Z.mod_pos_bound. lia.
      - exfalso. apply Byte.of_N_None_iff in Hb.
        pose proof (Z.mod_pos_bound v 256 ltac:(lia)). lia. }
    rewrite (Z.rem_mul_r v 256 (256 ^ Z.of_nat n)) by lia. reflexivity.
Qed.

(** ** Configuration space *)

Section Configuration.
Context {abi : virtio_snd_abi} {host : glib_host}.

Lemma set_config_frame (s : VirtIOSound) (config : list byte) :
  pcm (virtio_snd_set_config s config) = pcm s
  ∧ ctrl_vq (virtio_snd_set_config s config) = ctrl_vq s
  ∧ cmdq (virtio_snd_set_config s config) = cmdq s
  ∧ processing_cmdq (virtio_snd_set_config s config) = processing_cmdq s.
Proof. repeat split. Qed.

(** C9: a guest write of a configuration block followed by a read returns
    the block as written, whatever its contents: all twelve bytes of
    [{jacks, streams, chmaps}] are stored and none of the three counts is
    checked against its bound. *)
Theorem config_write_then_read (s : VirtIOSound) (b : list byte) :
  length b = sizeof_virtio_snd_config →
  virtio_snd_get_config (virtio_snd_set_config s b) = b
  ∧ snd_conf (virtio_snd_set_config s b)
    = {| jacks := field b 0 4; streams := field b 4 4; chmaps := field b 8 4 |}.
Proof.
  intros Hlen. unfold sizeof_virtio_snd_config in Hlen. split; [|reflexivity].
  unfold virtio_snd_get_config, virtio_snd_set_config, with_snd_conf.
  cbn [snd_conf jacks streams chmaps].
  rewrite !le_encode_field by lia.
  rewrite drop_0.
  assert (take 4 (drop 8 b) = drop 8 b) as ->.
  { apply take_ge. rewrite length_drop. lia. }
  replace (drop 8 b) with (drop 4 (drop 4 b)) by (rewrite drop_drop; reflexivity).
  rewrite (take_drop 4 (drop 4 b)). apply take_drop.
Qed.

End Configuration.

(** ** Reading outcomes *)

Lemma bind_Done {A B : Type} (m : outcome A) (k : A → outcome B) (b : B) :
  m ≫= k = Done b → ∃ a, m = Done a ∧ k a = Done b.
Proof. destruct m as [a|f]; simpl; [eauto|discriminate]. Qed.

Lemma deref_Done {A : Type} (p : option A) (x : A) : deref p = Done x ↔ p = Some x.
Proof. destruct p; simpl; split; congruence. Qed.

Lemma array_get_Done {A : Type} (a : list A) (i : Z) (x : A) :
  array_get a i = Done x ↔ 0 ≤ i ∧ a !! Z.to_nat i = Some x.
Proof.
  unfold array_get. case_bool_decide.
  - destruct (a !! Z.to_nat i) eqn:E; split; intros; simplify_eq; intuition congruence.
  - split; [discriminate|lia].
Qed.

Lemma array_set_Done {A : Type} (a : list A) (i : Z) (x : A) (a' : list A) :
  array_set a i x = Done a' ↔
  0 ≤ i ∧ (Z.to_nat i < length a)%nat ∧ a' = <[Z.to_nat i := x]> a.
Proof.
  unfold array_set. case_bool_decide; split; intros; simplify_eq.
  - repeat split; lia.
  - intuition congruence.
  - lia.
Qed.

(** Inversion of a run that returned: every step before the return did. *)
Ltac inv_outcome :=
  repeat match goal with
  | H : _ ≫= _ = Done _ |- _ =>
      let a := fresh "r" in let E := fresh "E" in
      apply bind_Done in H as (a & E & H)
  | H : deref _ = Done _ |- _ => apply deref_Done in H
  | H : array_get _ _ = Done _ |- _ =>
      let G := fresh "G" in apply array_get_Done in H as [G H]
  | H : array_set _ _ _ = Done _ |- _ =>
      let G := fresh "G" in let L := fresh "L" in
      apply array_set_Done in H as (G & L & H)
  | H : Done _ = Done _ |- _ => injection H as H
  | H : Fault _ = Done _ |- _ => discriminate H
  | H : (_, _) = (_, _) |- _ => injection H as ? ?
  end.

(** ** The two tables *)

Lemma same_queues_refl (s : VirtIOSound) : same_queues s s.
Proof. repeat split. Qed.

Lemma same_queues_trans (s1 s2 s3 : VirtIOSound) :
  same_queues s1 s2 → same_queues s2 s3 → same_queues s1 s3.
Proof. unfold same_queues. intuition congruence. Qed.

Lemma store_params_tables (s : VirtIOSound) (i : Z) (v : option VirtIOSoundPCMParams) :
  params_table (store_params s i v) = <[Z.to_nat i := v]> (params_table s)
  ∧ streams_table (store_params s i v) = streams_table s
  ∧ same_queues s (store_params s i v).
Proof.
  unfold params_table, streams_table, store_params, same_queues.
  destruct s as [c [[[pa|] [sa|] j]|] q cq f]; simpl; repeat split.
Qed.

Lemma store_stream_tables (s : VirtIOSound) (i : Z) (v : option VirtIOSoundPCMStream) :
  streams_table (store_stream s i v) = <[Z.to_nat i := v]> (streams_table s)
  ∧ params_table (store_stream s i v) = params_table s
  ∧ same_queues s (store_stream s i v).
Proof.
  unfold params_table, streams_table, store_stream, same_queues.
  destruct s as [c [[[pa|] [sa|] j]|] q cq f]; simpl; repeat split.
Qed.

Section Tables.
Context {abi : virtio_snd_abi} {host : glib_host}.

Lemma get_params_Done (s : VirtIOSound) (i : Z) (r : option VirtIOSoundPCMParams) :
  virtio_snd_pcm_get_params s i = Done r →
  (streams (snd_conf s) ≤ i ∧ r = None)
  ∨ (0 ≤ i < streams (snd_conf s) ∧ params_table s !! Z.to_nat i = Some r).
Proof.
  unfold virtio_snd_pcm_get_params, params_table. intros H.
  case_bool_decide; [left; by simplify_eq|right].
  inv_outcome. rewrite E; simpl. rewrite E0; simpl. split; [lia|congruence].
Qed.

Lemma get_params_table (s : VirtIOSound) (i : Z) (r : option VirtIOSoundPCMParams) :
  0 ≤ i < streams (snd_conf s) →
  params_table s !! Z.to_nat i = Some r →
  virtio_snd_pcm_get_params s i = Done r.
Proof.
  unfold virtio_snd_pcm_get_params, params_table. intros Hi H.
  rewrite bool_decide_false by lia.
  destruct (pcm s) as [p|]; simpl in *; [|discriminate].
  destruct (pcm_params p) as [a|]; simpl in *; [|discriminate].
  unfold array_get. rewrite bool_decide_true by lia. rewrite H. reflexivity.
Qed.

Lemma get_stream_Done (s : VirtIOSound) (i : Z) (r : option VirtIOSoundPCMStream) :
  virtio_snd_pcm_get_stream s i = Done r →
  (streams (snd_conf s) ≤ i ∧ r = None)
  ∨ (0 ≤ i < streams (snd_conf s) ∧ streams_table s !! Z.to_nat i = Some r).
Proof.
  unfold virtio_snd_pcm_get_stream, streams_table. intros H.
  case_bool_decide; [left; by simplify_eq|right].
  inv_outcome. rewrite E; simpl. rewrite E0; simpl. split; [lia|congruence].
Qed.

Lemma get_stream_table (s : VirtIOSound) (i : Z) (r : option VirtIOSoundPCMStream) :
  0 ≤ i < streams (snd_conf s) →
  streams_table s !! Z.to_nat i = Some r →
  virtio_snd_pcm_get_stream s i = Done r.
Proof.
  unfold virtio_snd_pcm_get_stream, streams_table. intros Hi H.
  rewrite bool_decide_false by lia.
  destruct (pcm s) as [p|]; simpl in *; [|discriminate].
  destruct (pcm_streams p) as [a|]; simpl in *; [|discriminate].
  unfold array_get. rewrite bool_decide_true by lia. rewrite H. reflexivity.
Qed.

Lemma get_stream_beyond (s : VirtIOSound) (i : Z) :
  streams (snd_conf s) ≤ i → virtio_snd_pcm_get_stream s i = Done None.
Proof.
  intros H. unfold virtio_snd_pcm_get_stream. rewrite bool_decide_true by lia. reflexivity.
Qed.

(** ** SET_PARAMS *)

(** What a returning [virtio_snd_pcm_set_params_impl] did: either it
    refused the request with BAD_MSG and touched nothing, or it wrote
    through [st_params]: [features], [buffer_bytes] and [period_bytes]
    always, the other three fields as far as validation got. *)
Lemma set_params_impl_Done (s s' : VirtIOSound) (params : virtio_snd_pcm_set_params)
    (st : virtio_snd_status) :
  virtio_snd_pcm_set_params_impl s params = Done (st, s') →
  same_queues s s' ∧ streams_table s' = streams_table s
  ∧ ((st = VIRTIO_SND_S_BAD_MSG ∧ s' = s)
     ∨ ∃ old new,
         st ≠ VIRTIO_SND_S_BAD_MSG
         ∧ 0 ≤ sp_stream_id params < streams (snd_conf s)
         ∧ params_table s !! Z.to_nat (sp_stream_id params) = Some old
         ∧ params_table s' = <[Z.to_nat (sp_stream_id params) := Some new]> (params_table s)
         ∧ features new = sp_features params
         ∧ buffer_bytes new = sp_buffer_bytes params
         ∧ period_bytes new = sp_period_bytes params
         ∧ (st = VIRTIO_SND_S_OK →
            channels new = sp_channels params
            ∧ format new = sp_format params
            ∧ rate new = sp_rate params)
         ∧ (st = VIRTIO_SND_S_NOT_SUPP →
            (sp_channels params < 1 ∨ AUDIO_MAX_CHANNELS < sp_channels params) →
            channels new = channels (default zero_params old)
            ∧ format new = format (default zero_params old)
            ∧ rate new = rate (default zero_params old))).
Proof.
  unfold virtio_snd_pcm_set_params_impl. intros H.
  case_bool_decide as Hgt.
  { inv_outcome. subst. split; [apply same_queues_refl|]. split; [reflexivity|]. by left. }
  apply bind_Done in H as (p & Hp & H). apply deref_Done in Hp.
  destruct (pcm_params p) as [a|] eqn:Ha.
  2:{ inv_outcome. subst. split; [apply same_queues_refl|]. split; [reflexivity|]. by left. }
  apply bind_Done in H as (slot & Hslot & H).
  apply array_get_Done in Hslot as [Hi Hslot].
  set (s1 := match slot with
             | Some _ => s
             | None => store_params s (sp_stream_id params) (Some zero_params)
             end) in *.
  assert (params_table s !! Z.to_nat (sp_stream_id params) = Some slot) as Htab.
  { unfold params_table. rewrite Hp. simpl. rewrite Ha. exact Hslot. }
  assert (same_queues s s1 ∧ streams_table s1 = streams_table s
          ∧ params_table s1
            = <[Z.to_nat (sp_stream_id params) := Some (default zero_params slot)]>
                (params_table s)) as (Hq1 & Hs1 & Hp1).
  { subst s1. destruct slot as [old|]; simpl.
    - split; [apply same_queues_refl|]. split; [reflexivity|].
      symmetry. apply list_insert_id. exact Htab.
    - destruct (store_params_tables s (sp_stream_id params) (Some zero_params))
        as (? & ? & ?). done. }
  apply bind_Done in H as (stp & Hstp & H).
  apply bind_Done in H as (stp' & Hstp' & H). apply deref_Done in Hstp'. subst stp.
  apply get_params_Done in Hstp as [[_ ?]|[Hlt Hstp]]; [discriminate|].
  assert (stp' = default zero_params slot) as ->.
  { rewrite Hp1 in Hstp. rewrite list_lookup_insert_eq in Hstp; [congruence|].
    apply lookup_lt_Some in Htab. exact Htab. }
  destruct Hq1 as (Hc1 & Hq1).
  assert (∀ new st0,
    st0 ≠ VIRTIO_SND_S_BAD_MSG →
    features new = sp_features params →
    buffer_bytes new = sp_buffer_bytes params →
    period_bytes new = sp_period_bytes params →
    (st0 = VIRTIO_SND_S_OK →
       channels new = sp_channels params ∧ format new = sp_format params
       ∧ rate new = sp_rate params) →
    (st0 = VIRTIO_SND_S_NOT_SUPP →
       (sp_channels params < 1 ∨ AUDIO_MAX_CHANNELS < sp_channels params) →
       channels new = channels (default zero_params slot)
       ∧ format new = format (default zero_params slot)
       ∧ rate new = rate (default zero_params slot)) →
    Done (st0, store_params s1 (sp_stream_id params) (Some new)) = Done (st, s') →
    same_queues s s' ∧ streams_table s' = streams_table s
    ∧ ((st = VIRTIO_SND_S_BAD_MSG ∧ s' = s)
     ∨ ∃ old new,
         st ≠ VIRTIO_SND_S_BAD_MSG
         ∧ 0 ≤ sp_stream_id params < streams (snd_conf s)
         ∧ params_table s !! Z.to_nat (sp_stream_id params) = Some old
         ∧ params_table s' = <[Z.to_nat (sp_stream_id params) := Some new]> (params_table s)
         ∧ features new = sp_features params
         ∧ buffer_bytes new = sp_buffer_bytes params
         ∧ period_bytes new = sp_period_bytes params
         ∧ (st = VIRTIO_SND_S_OK →
            channels new = sp_channels params
            ∧ format new = sp_format params
            ∧ rate new = sp_rate params)
         ∧ (st = VIRTIO_SND_S_NOT_SUPP →
            (sp_channels params < 1 ∨ AUDIO_MAX_CHANNELS < sp_channels params) →
            channels new = channels (default zero_params old)
            ∧ format new = format (default zero_params old)
            ∧ rate new = rate (default zero_params old)))) as Hret.
  { intros new st0 Hne Hf Hb Hpe Hok Hns Heq. inv_outcome. subst st0 s'.
    destruct (store_params_tables s1 (sp_stream_id params) (Some new)) as (Ht & Hs & Hq).
    split; [eapply same_queues_trans; [split; eassumption|exact Hq]|].
    split; [congruence|].
    right. exists slot, new. split; [exact Hne|]. split; [rewrite <- Hc1; lia|].
    split; [exact Htab|]. split; [|done].
    rewrite Ht, Hp1. apply list_insert_insert_eq. }
  clear Hstp.
  case_bool_decide as Hch.
  { eapply Hret; [..|exact H]; try done. }
  apply bind_Done in H as ([] & _ & H).
  case_bool_decide as Hfmt.
  { eapply Hret; [..|exact H]; try done; try (intros _ ?; contradiction). }
  apply bind_Done in H as ([] & _ & H).
  case_bool_decide as Hrate.
  { eapply Hret; [..|exact H]; try done; try (intros _ ?; contradiction). }
  eapply Hret; [..|exact H]; try done; try (intros _ ?; contradiction).
Qed.

End Tables.

Section Prepare.
Context {abi : virtio_snd_abi} {host : glib_host}.

(** ** PREPARE *)

(** What a returning [virtio_snd_pcm_prepare_impl] did: BAD_MSG and
    nothing touched, or OK and a fresh Stream stored at [stream_id], built
    from the stored parameters. *)
Lemma prepare_impl_Done (s s' : VirtIOSound) (stream_id : Z) (st : virtio_snd_status) :
  virtio_snd_pcm_prepare_impl s stream_id = Done (st, s') →
  same_queues s s' ∧ params_table s' = params_table s
  ∧ ((st = VIRTIO_SND_S_BAD_MSG ∧ s' = s)
     ∨ ∃ params stream,
         st = VIRTIO_SND_S_OK
         ∧ 0 ≤ stream_id < streams (snd_conf s)
         ∧ params_table s !! Z.to_nat stream_id = Some (Some params)
         ∧ (Z.to_nat stream_id < length (streams_table s))%nat
         ∧ streams_table s' = <[Z.to_nat stream_id := Some stream]> (streams_table s)
         ∧ st_id stream = stream_id
         ∧ st_buffer_bytes stream = buffer_bytes params
         ∧ st_period_bytes stream = period_bytes params
         ∧ st_direction stream
           = (if bool_decide (stream_id < streams (snd_conf s) `div` 2
                                          + Z.land (streams (snd_conf s)) 1)
              then VIRTIO_SND_D_OUTPUT else VIRTIO_SND_D_INPUT)).
Proof.
  unfold virtio_snd_pcm_prepare_impl. intros H.
  apply bind_Done in H as (p & Hp & H). apply deref_Done in Hp.
  destruct (pcm_streams p) as [str|] eqn:Hstr.
  2:{ inv_outcome. subst. split; [apply same_queues_refl|]. split; [reflexivity|]. by left. }
  destruct (pcm_params p) as [par|] eqn:Hpar.
  2:{ inv_outcome. subst. split; [apply same_queues_refl|]. split; [reflexivity|]. by left. }
  apply bind_Done in H as (slot & Hslot & H).
  apply array_get_Done in Hslot as [Hi Hslot].
  destruct slot as [slot|].
  2:{ inv_outcome. subst. split; [apply same_queues_refl|]. split; [reflexivity|]. by left. }
  apply bind_Done in H as (params & Hparams & H).
  destruct params as [params|].
  2:{ inv_outcome. subst. split; [apply same_queues_refl|]. split; [reflexivity|]. by left. }
  apply get_params_Done in Hparams as [[_ ?]|[Hlt Hparams]]; [discriminate|].
  apply bind_Done in H as (as_ & Has & H).
  apply bind_Done in H as (old & Hold & H).
  apply array_get_Done in Hold as [_ Hold].
  inv_outcome. subst st s'.
  match goal with
  | |- context [store_stream s stream_id (Some ?x)] => set (stream := x)
  end.
  destruct (store_stream_tables s stream_id (Some stream)) as (Ht & Hs & Hq).
  split; [exact Hq|]. split; [exact Hs|].
  right. exists params, stream. split; [reflexivity|]. split; [lia|].
  split; [exact Hparams|]. split.
  { unfold streams_table. rewrite Hp. simpl. rewrite Hstr. simpl.
    apply lookup_lt_Some in Hold. exact Hold. }
  split; [exact Ht|]. repeat split.
Qed.

(** The direction bound [streams / 2 + (streams & 1)] in arithmetic. *)
Lemma land_1_mod_2 (n : Z) : Z.land n 1 = n mod 2.
Proof. exact (Z.land_ones n 1 ltac:(lia)). Qed.

(** C6: a successful PREPARE of stream [i] on a device configured with [N]
    streams leaves at [i] a Stream whose direction is OUTPUT when
    [i < N/2 + N mod 2] and INPUT otherwise: with five streams 0, 1 and 2
    play and 3 and 4 capture, with four streams 0 and 1 play and 2 and 3
    capture. *)
Theorem prepare_direction (s s' : VirtIOSound) (i : Z) :
  virtio_snd_pcm_prepare_impl s i = Done (VIRTIO_SND_S_OK, s') →
  ∃ stream,
    virtio_snd_pcm_get_stream s' i = Done (Some stream)
    ∧ st_direction stream
      = (if bool_decide (i < streams (snd_conf s) / 2 + streams (snd_conf s) mod 2)
         then VIRTIO_SND_D_OUTPUT else VIRTIO_SND_D_INPUT)
    ∧ (streams (snd_conf s) = 5 →
       (0 ≤ i ≤ 2 → st_direction stream = VIRTIO_SND_D_OUTPUT)
       ∧ (3 ≤ i ≤ 4 → st_direction stream = VIRTIO_SND_D_INPUT))
    ∧ (streams (snd_conf s) = 4 →
       (0 ≤ i ≤ 1 → st_direction stream = VIRTIO_SND_D_OUTPUT)
       ∧ (2 ≤ i ≤ 3 → st_direction stream = VIRTIO_SND_D_INPUT)).
Proof.
  intros H. apply prepare_impl_Done in H as (Hq & _ & [[? _]|H]); [discriminate|].
  destruct H as (params & stream & _ & Hi & _ & Hlen & Ht & _ & _ & _ & Hdir).
  rewrite land_1_mod_2 in Hdir.
  exists stream. split.
  { apply get_stream_table.
    - destruct Hq as [-> _]. exact Hi.
    - rewrite Ht. apply list_lookup_insert_eq. exact Hlen. }
  split; [exact Hdir|].
  assert (∀ N b, streams (snd_conf s) = N → N / 2 + N mod 2 = b →
            (i < b → st_direction stream = VIRTIO_SND_D_OUTPUT)
            ∧ (b ≤ i → st_direction stream = VIRTIO_SND_D_INPUT)) as Hcase.
  { intros N b HN Hb. rewrite HN, Hb in Hdir.
    split; intros Hlt; rewrite Hdir.
    - rewrite bool_decide_true by lia. reflexivity.
    - rewrite bool_decide_false by lia. reflexivity. }
  split; intros HN.
  - destruct (Hcase 5 3 HN eq_refl) as [Hout Hin].
    split; intros Hmem; [apply Hout|apply Hin]; lia.
  - destruct (Hcase 4 2 HN eq_refl) as [Hout Hin].
    split; intros Hmem; [apply Hout|apply Hin]; lia.
Qed.

End Prepare.

Section Realize.
Context {abi : virtio_snd_abi} {host : glib_host}.

(** What a [g_new0] that returns hands out. *)
Lemma g_new0_Done {A : Type} (zero : A) (size n : Z) (r : option (list A)) :
  g_new0 zero size n = Done r →
  default [] r = replicate (Z.to_nat n) zero
  ∧ (0 < n → r = Some (replicate (Z.to_nat n) zero)).
Proof.
  unfold g_new0. intros H. case_bool_decide as Hn.
  - injection H as <-. split; [|lia].
    replace (Z.to_nat n) with 0%nat by lia. reflexivity.
  - destruct (g_malloc_ok (n * size)); [|discriminate].
    injection H as <-. done.
Qed.

Lemma g_new0_allocates {A : Type} (zero : A) (size n : Z) :
  allocates size n → ∃ r, g_new0 zero size n = Done r.
Proof.
  unfold g_new0, allocates. intros [Hn|Hok].
  - rewrite bool_decide_true by exact Hn. eauto.
  - case_bool_decide; [eauto|]. rewrite Hok. eauto.
Qed.

Lemma g_new0_fails {A : Type} (zero : A) (size n : Z) :
  ¬ allocates size n → g_new0 zero size n = Fault AllocationFailed.
Proof.
  unfold g_new0, allocates. intros Hno.
  rewrite bool_decide_false by (intros ?; apply Hno; by left).
  destruct (g_malloc_ok (n * size)); [|reflexivity].
  exfalso. apply Hno. by right.
Qed.

Lemma set_pcm_allocates (snd : VirtIOSound) :
  tables_allocate (snd_conf snd) → ∃ v, virtio_snd_set_pcm snd = Done v.
Proof.
  intros [Hs Hj]. unfold virtio_snd_set_pcm.
  destruct (g_new0_allocates (None : option VirtIOSoundPCMStream) _ _ Hs) as [str ->].
  destruct (g_new0_allocates (None : option VirtIOSoundPCMParams) _ _ Hs) as [par ->].
  simpl.
  match goal with |- context [g_new0 ?z sizeof_pointer (jacks _)] =>
    destruct (g_new0_allocates z _ _ Hj) as [jck ->] end.
  simpl. eauto.
Qed.

Lemma set_pcm_fails (snd : VirtIOSound) :
  ¬ tables_allocate (snd_conf snd) → virtio_snd_set_pcm snd = Fault AllocationFailed.
Proof.
  intros Hno. unfold virtio_snd_set_pcm.
  destruct (decide (allocates sizeof_pointer (streams (snd_conf snd)))) as [Hs|Hs].
  - destruct (g_new0_allocates (None : option VirtIOSoundPCMStream) _ _ Hs) as [str ->].
    destruct (g_new0_allocates (None : option VirtIOSoundPCMParams) _ _ Hs) as [par ->].
    simpl. rewrite g_new0_fails; [reflexivity|].
    intros Hj. apply Hno. by split.
  - rewrite (g_new0_fails (None : option VirtIOSoundPCMStream) _ _ Hs). reflexivity.
Qed.

(** The tables [virtio_snd_set_pcm] leaves when its allocations succeed:
    one NULL slot per configured stream. *)
Lemma set_pcm_Done (snd snd' : VirtIOSound) :
  virtio_snd_set_pcm snd = Done snd' →
  same_queues snd snd'
  ∧ params_table snd' = replicate (Z.to_nat (streams (snd_conf snd))) None
  ∧ streams_table snd' = replicate (Z.to_nat (streams (snd_conf snd))) None.
Proof.
  unfold virtio_snd_set_pcm. intros H.
  apply bind_Done in H as (str & Hstr & H).
  apply bind_Done in H as (par & Hpar & H).
  apply bind_Done in H as (jck & _ & H).
  injection H as <-.
  apply g_new0_Done in Hstr as [Hstr _]. apply g_new0_Done in Hpar as [Hpar _].
  split; [repeat split|]. unfold params_table, streams_table. simpl.
  destruct str, par; simpl in *; subst; done.
Qed.

(** A successful realization: the tables were allocated, the counts are
    in range and the loop over the streams ran to its end. *)
Lemma realize_Realized (vsnd s' : VirtIOSound) :
  virtio_snd_realize vsnd = Done (Realized s') →
  ∃ v, virtio_snd_set_pcm (with_pcm None vsnd) = Done v
       ∧ jacks (snd_conf vsnd) ≤ 8
       ∧ 1 ≤ streams (snd_conf vsnd) ≤ 10
       ∧ chmaps (snd_conf vsnd) ≤ VIRTIO_SND_CHMAP_MAX_SIZE
       ∧ realize_streams (Z.to_nat (streams (snd_conf vsnd))) 0
           (with_cmdq [] (with_ctrl_vq virtio_add_queue v))
         = Done (Realized s').
Proof.
  intros H. unfold virtio_snd_realize, virtio_snd_common_realize in H.
  apply bind_Done in H as (v & Hv & H).
  destruct (set_pcm_Done _ _ Hv) as ((Hconf & _) & _). simpl in Hconf.
  rewrite Hconf in H.
  case_bool_decide as Hj; [discriminate|].
  case_bool_decide as Hk; [discriminate|].
  case_bool_decide as Hc; [discriminate|].
  exists v. split; [exact Hv|]. repeat split; try lia.
  cbn [snd_conf with_cmdq with_ctrl_vq] in H. rewrite Hconf in H. exact H.
Qed.

(** With the tables allocated and the counts in range, realization is the
    loop over the streams. *)
Lemma realize_in_range_loop (vsnd v : VirtIOSound) :
  virtio_snd_set_pcm (with_pcm None vsnd) = Done v →
  jacks (snd_conf vsnd) ≤ 8 →
  1 ≤ streams (snd_conf vsnd) ≤ 10 →
  chmaps (snd_conf vsnd) ≤ VIRTIO_SND_CHMAP_MAX_SIZE →
  virtio_snd_realize vsnd
  = realize_streams (Z.to_nat (streams (snd_conf vsnd))) 0
      (with_cmdq [] (with_ctrl_vq virtio_add_queue v)).
Proof.
  intros Hv Hj Hk Hc. unfold virtio_snd_realize, virtio_snd_common_realize.
  rewrite Hv. simpl.
  destruct (set_pcm_Done _ _ Hv) as ((Hconf & _) & _). simpl in Hconf.
  rewrite Hconf. rewrite !bool_decide_false by lia. reflexivity.
Qed.

(** ** Realization *)

Lemma realize_streams_Realized (n : nat) :
  ∀ (i : Z) (v s' : VirtIOSound),
    0 ≤ i →
    realize_streams n i v = Done (Realized s') →
    same_queues v s'
    ∧ (∀ j, i ≤ j < i + Z.of_nat n →
         j < streams (snd_conf v)
         ∧ params_table s' !! Z.to_nat j = Some (Some default_stored)
         ∧ ∃ stream, streams_table s' !! Z.to_nat j = Some (Some stream)
                     ∧ st_id stream = j
                     ∧ st_buffer_bytes stream = 8192
                     ∧ st_period_bytes stream = 4096)
    ∧ (∀ j, 0 ≤ j < i →
         params_table s' !! Z.to_nat j = params_table v !! Z.to_nat j
         ∧ streams_table s' !! Z.to_nat j = streams_table v !! Z.to_nat j).
Proof.
  induction n as [|n IH]; intros i v s' Hi H.
  - simpl in H. inv_outcome. subst s'.
    split; [apply same_queues_refl|]. split; [intros j Hj; lia|]. done.
  - simpl in H.
    apply bind_Done in H as ([st1 v1] & Hset & H).
    case_bool_decide as Hst1; [discriminate|].
    subst st1.
    apply bind_Done in H as ([st2 v2] & Hprep & H).
    case_bool_decide as Hst2; [discriminate|].
    subst st2.
    apply set_params_impl_Done in Hset as (Hq1 & Hs1 & [[? _]|Hset]); [discriminate|].
    destruct Hset as (old & new & _ & Hid & Hold & Hp1 & Hf & Hb & Hpe & Hok & _).
    destruct (Hok eq_refl) as (Hc & Hfm & Hr). clear Hok.
    assert (new = default_stored) as ->.
    { destruct new. simpl in *. subst. reflexivity. }
    simpl in Hid, Hold, Hp1.
    apply prepare_impl_Done in Hprep as (Hq2 & Hp2 & [[? _]|Hprep]); [discriminate|].
    destruct Hprep as (params & stream & _ & _ & Hpar & Hlen & Hs2 & Hsid & Hsb & Hsp & _).
    assert (params = default_stored) as ->.
    { rewrite Hp1, list_lookup_insert_eq in Hpar; [congruence|].
      apply lookup_lt_Some in Hold. exact Hold. }
    apply IH in H as (Hq3 & Hnew & Hkeep); [|lia].
    assert (snd_conf v2 = snd_conf v) as Hconf.
    { destruct Hq1 as [? _], Hq2 as [? _]. congruence. }
    split; [eapply same_queues_trans; [|exact Hq3];
            eapply same_queues_trans; eassumption|].
    split.
    + intros j Hj. destruct (decide (j = i)) as [->|Hne].
      * split; [lia|].
        destruct (Hkeep i ltac:(lia)) as [-> ->].
        rewrite Hp2, Hp1, Hs2.
        rewrite !list_lookup_insert_eq; [|exact Hlen|by apply lookup_lt_Some in Hold].
        split; [reflexivity|]. exists stream. simpl in Hsb, Hsp. done.
      * rewrite <- Hconf. apply Hnew. lia.
    + intros j Hj. destruct (Hkeep j ltac:(lia)) as [-> ->].
      rewrite Hp2, Hp1, Hs2, Hs1.
      rewrite !list_lookup_insert_ne by lia. done.
Qed.

(** C5: when realization succeeds the configured stream count [k] is in
    [1,10], every stream id below [k] holds the default parameters (buffer
    8192 bytes, period 4096 bytes, two channels, S16, 44100 Hz) and has a
    Stream built from them; and at any iteration of the loop a default
    SET_PARAMS or PREPARE that returns a status other than OK makes
    realization fail. *)
Theorem realize_defaults (vsnd : VirtIOSound) :
  (∀ s', virtio_snd_realize vsnd = Done (Realized s') →
     snd_conf s' = snd_conf vsnd
     ∧ 1 ≤ streams (snd_conf vsnd) ≤ 10
     ∧ ∀ i, 0 ≤ i < streams (snd_conf vsnd) →
         virtio_snd_pcm_get_params s' i = Done (Some default_stored)
         ∧ ∃ stream, virtio_snd_pcm_get_stream s' i = Done (Some stream)
                     ∧ st_id stream = i
                     ∧ st_buffer_bytes stream = 8192
                     ∧ st_period_bytes stream = 4096)
  ∧ (∀ n i v status v',
       virtio_snd_pcm_set_params_impl v (default_params i) = Done (status, v') →
       status ≠ VIRTIO_SND_S_OK →
       ∃ msg, realize_streams (S n) i v = Done (RealizeError msg v'))
  ∧ (∀ n i v v' status v'',
       virtio_snd_pcm_set_params_impl v (default_params i) = Done (VIRTIO_SND_S_OK, v') →
       virtio_snd_pcm_prepare_impl v' i = Done (status, v'') →
       status ≠ VIRTIO_SND_S_OK →
       ∃ msg, realize_streams (S n) i v = Done (RealizeError msg v'')).
Proof.
  split; [|split].
  - intros s' H. apply realize_Realized in H as (v & Hv & Hj & Hk & Hc & H).
    apply set_pcm_Done in Hv as ((Hv & _) & _). simpl in Hv.
    apply realize_streams_Realized in H as (Hq & Hnew & _); [|lia].
    destruct Hq as (Hconf & _). simpl in Hconf. rewrite Hv in Hconf.
    split; [exact Hconf|]. split; [lia|].
    intros i Hi.
    destruct (Hnew i) as (_ & Hp & stream & Hs & Hfields).
    { simpl. lia. }
    split.
    + apply get_params_table; [rewrite Hconf; lia|exact Hp].
    + exists stream. split; [|exact Hfields].
      apply get_stream_table; [rewrite Hconf; lia|exact Hs].
  - intros n i v status v' Hset Hne. simpl. rewrite Hset. simpl.
    rewrite bool_decide_true by exact Hne. eauto.
  - intros n i v v' status v'' Hset Hprep Hne. simpl. rewrite Hset. simpl.
    rewrite Hprep. simpl. rewrite bool_decide_true by exact Hne. eauto.
Qed.

End Realize.

Section RealizeSucceeds.
Context {abi : virtio_snd_abi} {host : glib_host}.

(** ** Realization succeeds *)

Lemma shift_defined_below (c : Z) : 0 ≤ c < 64 → shift_defined c = Done ().
Proof. intros H. unfold shift_defined. by rewrite bool_decide_true. Qed.

Lemma BIT_testbit (c : Z) : 0 ≤ c < 64 → Z.testbit (BIT c) c = true.
Proof.
  intros Hc. unfold BIT. rewrite Z.shiftl_1_l, Z.testbit_mod_pow2 by lia.
  rewrite Z.pow2_bits_eqb by lia.
  rewrite Z.eqb_refl, andb_true_r. apply Z.ltb_lt. lia.
Qed.

Lemma land_BIT_nonzero (mask c : Z) :
  0 ≤ c < 64 → Z.testbit mask c = true → Z.land mask (BIT c) ≠ 0.
Proof.
  intros Hc Hm Hz.
  assert (Z.testbit (Z.land mask (BIT c)) c = true) as Ht.
  { rewrite Z.land_spec, Hm, BIT_testbit by lia. reflexivity. }
  rewrite Hz, Z.bits_0 in Ht. discriminate.
Qed.

Lemma supported_formats_S16 :
  0 ≤ VIRTIO_SND_PCM_FMT_S16 < 32 →
  Z.testbit supported_formats VIRTIO_SND_PCM_FMT_S16 = true.
Proof.
  intros Hc. unfold supported_formats, u32.
  rewrite Z.testbit_mod_pow2 by lia.
  rewrite !Z.lor_spec, BIT_testbit by lia.
  rewrite (proj2 (Z.ltb_lt _ _)) by lia.
  rewrite ?orb_true_r, ?orb_true_l. reflexivity.
Qed.

Lemma supported_rates_44100 :
  0 ≤ VIRTIO_SND_PCM_RATE_44100 < 32 →
  Z.testbit supported_rates VIRTIO_SND_PCM_RATE_44100 = true.
Proof.
  intros Hc. unfold supported_rates, u32.
  rewrite Z.testbit_mod_pow2 by lia.
  rewrite !Z.lor_spec, BIT_testbit by lia.
  rewrite (proj2 (Z.ltb_lt _ _)) by lia.
  rewrite ?orb_true_r, ?orb_true_l. reflexivity.
Qed.

Lemma params_table_lookup_pcm (s : VirtIOSound) (i : nat) (x : option VirtIOSoundPCMParams) :
  params_table s !! i = Some x →
  ∃ p a, pcm s = Some p ∧ pcm_params p = Some a ∧ a !! i = Some x.
Proof.
  unfold params_table. intros H.
  destruct (pcm s) as [p|]; simpl in H; [|discriminate].
  destruct (pcm_params p) as [a|] eqn:Ha; simpl in H; [|discriminate].
  eauto.
Qed.

Lemma streams_table_lookup_pcm (s : VirtIOSound) (i : nat) (x : option VirtIOSoundPCMStream) :
  streams_table s !! i = Some x →
  ∃ p a, pcm s = Some p ∧ pcm_streams p = Some a ∧ a !! i = Some x.
Proof.
  unfold streams_table. intros H.
  destruct (pcm s) as [p|]; simpl in H; [|discriminate].
  destruct (pcm_streams p) as [a|] eqn:Ha; simpl in H; [|discriminate].
  eauto.
Qed.

(** The default SET_PARAMS of realization is accepted wherever the table
    has a slot for the id. *)
Lemma set_params_default_accepted (s : VirtIOSound) (i : Z) :
  abi_supports_defaults →
  0 ≤ i < streams (snd_conf s) →
  (Z.to_nat i < length (params_table s))%nat →
  ∃ s', virtio_snd_pcm_set_params_impl s (default_params i) = Done (VIRTIO_SND_S_OK, s').
Proof.
  intros (Hch & Hfmt & Hrate) Hi Hlen.
  destruct (lookup_lt_is_Some_2 _ _ Hlen) as [slot Hslot].
  destruct (params_table_lookup_pcm _ _ _ Hslot) as (p & a & Hp & Ha & Hlook).
  unfold virtio_snd_pcm_set_params_impl. cbn [sp_stream_id default_params].
  rewrite bool_decide_false by lia. rewrite Hp. simpl. rewrite Ha.
  rewrite (proj2 (array_get_Done a i slot) (conj (proj1 Hi) Hlook)). simpl.
  set (s1 := match slot with
             | Some _ => s
             | None => store_params s i (Some zero_params)
             end).
  assert (∃ old, virtio_snd_pcm_get_params s1 i = Done (Some old)) as [old ->].
  { subst s1. destruct slot as [old|].
    - exists old. by apply get_params_table.
    - exists zero_params.
      destruct (store_params_tables s i (Some zero_params)) as (Ht & _ & Hc & _).
      apply get_params_table; [rewrite Hc; lia|].
      rewrite Ht. by apply list_lookup_insert_eq. }
  simpl. rewrite (bool_decide_false (_ ∨ _)) by lia.
  rewrite !shift_defined_below by lia. simpl.
  rewrite (bool_decide_false (Z.land supported_formats _ = 0)).
  2:{ apply land_BIT_nonzero; [lia|]. by apply supported_formats_S16. }
  rewrite (bool_decide_false (Z.land supported_rates _ = 0)).
  2:{ apply land_BIT_nonzero; [lia|]. by apply supported_rates_44100. }
  eauto.
Qed.

Lemma get_qemu_format_S16 :
  ∃ f, virtio_snd_get_qemu_format VIRTIO_SND_PCM_FMT_S16 = Done f.
Proof.
  unfold virtio_snd_get_qemu_format.
  repeat (case_bool_decide; [eauto|]). congruence.
Qed.

Lemma get_qemu_freq_44100 :
  ∃ f, virtio_snd_get_qemu_freq VIRTIO_SND_PCM_RATE_44100 = Done f.
Proof.
  unfold virtio_snd_get_qemu_freq.
  repeat (case_bool_decide; [eauto|]). congruence.
Qed.

(** PREPARE succeeds on an id that holds the default parameters and has a
    slot in the stream table. *)
Lemma prepare_default_accepted (s : VirtIOSound) (i : Z) :
  0 ≤ i < streams (snd_conf s) →
  params_table s !! Z.to_nat i = Some (Some default_stored) →
  (Z.to_nat i < length (streams_table s))%nat →
  ∃ s', virtio_snd_pcm_prepare_impl s i = Done (VIRTIO_SND_S_OK, s').
Proof.
  intros Hi Hpar Hlen.
  destruct (lookup_lt_is_Some_2 _ _ Hlen) as [old Hold].
  destruct (params_table_lookup_pcm _ _ _ Hpar) as (p & pa & Hp & Hpa & Hlook).
  destruct (streams_table_lookup_pcm _ _ _ Hold) as (p' & sa & Hp' & Hsa & Hlook').
  rewrite Hp in Hp'. injection Hp' as <-.
  unfold virtio_snd_pcm_prepare_impl. rewrite Hp. simpl. rewrite Hsa, Hpa.
  rewrite (proj2 (array_get_Done pa i _) (conj (proj1 Hi) Hlook)). simpl.
  rewrite (get_params_table s i _ Hi Hpar). simpl.
  unfold virtio_snd_get_qemu_audsettings. cbn [format rate default_stored].
  destruct get_qemu_format_S16 as [f ->]. simpl.
  destruct get_qemu_freq_44100 as [q ->]. simpl.
  rewrite (proj2 (array_get_Done sa i _) (conj (proj1 Hi) Hlook')). simpl.
  eauto.
Qed.

Lemma realize_streams_succeeds (n : nat) :
  abi_supports_defaults →
  ∀ (i : Z) (v : VirtIOSound),
    0 ≤ i →
    i + Z.of_nat n ≤ streams (snd_conf v) →
    i + Z.of_nat n ≤ Z.of_nat (length (params_table v)) →
    i + Z.of_nat n ≤ Z.of_nat (length (streams_table v)) →
    ∃ s', realize_streams n i v = Done (Realized s').
Proof.
  intros Habi. induction n as [|n IH]; intros i v Hi Hconf Hpar Hstr; simpl; [eauto|].
  destruct (set_params_default_accepted v i Habi) as [v1 Hset]; [lia|lia|].
  rewrite Hset. simpl.
  apply set_params_impl_Done in Hset as ((Hc1 & _) & Hs1 & [[? _]|Hset]); [discriminate|].
  destruct Hset as (old & new & _ & _ & Hold & Hp1 & Hf & Hb & Hpe & Hok & _).
  destruct (Hok eq_refl) as (Hch & Hfm & Hr). clear Hok.
  assert (new = default_stored) as ->.
  { destruct new. simpl in *. subst. reflexivity. }
  simpl in Hold, Hp1.
  destruct (prepare_default_accepted v1 i) as [v2 Hprep].
  { rewrite Hc1. lia. }
  { rewrite Hp1. apply list_lookup_insert_eq. lia. }
  { rewrite Hs1. lia. }
  rewrite Hprep. simpl.
  apply prepare_impl_Done in Hprep as ((Hc2 & _) & Hp2 & [[? _]|Hprep]); [discriminate|].
  destruct Hprep as (params & stream & _ & _ & _ & _ & Hs2 & _).
  apply IH; [lia| | |].
  - rewrite Hc2, Hc1. lia.
  - rewrite Hp2, Hp1, length_insert. lia.
  - rewrite Hs2, length_insert, Hs1. lia.
Qed.

(** Realization succeeds for every configuration within the bounds (up to
    eight jacks, one to ten streams, and no more channel maps than the
    maximum) whose tables the host provides. *)
Lemma realize_succeeds (vsnd : VirtIOSound) :
  abi_supports_defaults →
  0 ≤ jacks (snd_conf vsnd) ≤ 8 →
  1 ≤ streams (snd_conf vsnd) ≤ 10 →
  chmaps (snd_conf vsnd) ≤ VIRTIO_SND_CHMAP_MAX_SIZE →
  tables_allocate (snd_conf vsnd) →
  ∃ s', virtio_snd_realize vsnd = Done (Realized s').
Proof.
  intros Habi Hj Hk Hc Hmem.
  destruct (set_pcm_allocates (with_pcm None vsnd) Hmem) as [v Hv].
  rewrite (realize_in_range_loop vsnd v Hv) by lia.
  destruct (set_pcm_Done _ _ Hv) as ((Hconf & _) & Hp0 & Hs0). simpl in Hconf, Hp0, Hs0.
  apply realize_streams_succeeds;
    [exact Habi|lia|cbn [snd_conf with_cmdq with_ctrl_vq]; rewrite Hconf; lia| |].
  - change (params_table (with_cmdq [] (with_ctrl_vq virtio_add_queue v)))
      with (params_table v). rewrite Hp0, length_replicate. lia.
  - change (streams_table (with_cmdq [] (with_ctrl_vq virtio_add_queue v)))
      with (streams_table v). rewrite Hs0, length_replicate. lia.
Qed.

End RealizeSucceeds.

Section StartStop.
Context {abi : virtio_snd_abi} {host : glib_host}.

(** ** START, STOP and RELEASE *)

Lemma stream_exists_get (s : VirtIOSound) (id : Z) :
  stream_exists s id →
  ∃ stream, virtio_snd_pcm_get_stream s id = Done (Some stream).
Proof.
  intros (Hid & stream & H). exists stream. by apply get_stream_table.
Qed.

Lemma no_stream_get (s : VirtIOSound) (id : Z) :
  no_stream s id → virtio_snd_pcm_get_stream s id = Done None.
Proof.
  intros [Hge|[Hid H]].
  - by apply get_stream_beyond.
  - destruct (decide (streams (snd_conf s) ≤ id)).
    + by apply get_stream_beyond.
    + apply get_stream_table; [lia|exact H].
Qed.

(** On a device whose table covers the configured count every id either
    has a Stream or has none: the lookup never leaves the table. *)
Lemma stream_exists_or_not (s : VirtIOSound) (id : Z) :
  table_covers_config s → 0 ≤ id → stream_exists s id ∨ no_stream s id.
Proof.
  unfold table_covers_config, stream_exists, no_stream. intros Hcov Hid.
  destruct (decide (streams (snd_conf s) ≤ id)) as [|Hlt]; [by right; left|].
  destruct (streams_table s !! Z.to_nat id) as [[stream|]|] eqn:E.
  - left. split; [lia|eauto].
  - right. right. done.
  - apply lookup_ge_None in E. lia.
Qed.

Lemma iov_to_buf_full (iov : list byte) (n : nat) :
  (n ≤ length iov)%nat → length (iov_to_buf iov 0 n) = n.
Proof. intros H. unfold iov_to_buf. rewrite drop_0, length_take. lia. Qed.

Lemma field_take (buf : list byte) (n off len : nat) :
  (off + len ≤ n)%nat → field (take n buf) off len = field buf off len.
Proof.
  intros H. unfold field. f_equal.
  replace n with (off + (n - off))%nat by lia.
  rewrite <- take_drop_commute, take_take. f_equal. lia.
Qed.

Lemma start_stop_handler (s : VirtIOSound) (cmd : virtio_snd_ctrl_command) (start : bool) :
  (sizeof_virtio_snd_pcm_hdr ≤ length (out_sg (elem cmd)))%nat →
  virtio_snd_handle_pcm_start_stop s cmd start
  = (stream ← virtio_snd_pcm_get_stream s (field (out_sg (elem cmd)) 4 4);
     Done (with_resp_code
             (if stream is Some _ then VIRTIO_SND_S_OK else VIRTIO_SND_S_BAD_MSG) cmd)).
Proof.
  intros Hlen. unfold virtio_snd_handle_pcm_start_stop.
  rewrite iov_to_buf_full by exact Hlen.
  rewrite bool_decide_false by (intros Hx; apply Hx; reflexivity).
  unfold iov_to_buf. rewrite drop_0, field_take by (unfold sizeof_virtio_snd_pcm_hdr; lia).
  destruct (virtio_snd_pcm_get_stream s _) as [[stream|]|]; reflexivity.
Qed.

(** The [switch] reaches the START/STOP handler for these two codes. *)
Lemma dispatch_start_stop (s : VirtIOSound) (cmd : virtio_snd_ctrl_command) (start : bool) :
  ctrl_code cmd
    = request_code (if start then VIRTIO_SND_R_PCM_START else VIRTIO_SND_R_PCM_STOP) →
  dispatch s cmd
  = (cmd ← virtio_snd_handle_pcm_start_stop s cmd start; Done (cmd, s)).
Proof.
  intros Hcode. unfold dispatch. rewrite Hcode.
  pose proof (@request_code_inj abi) as Hinj.
  destruct start;
    repeat (case_bool_decide as Hc;
            [ first [ reflexivity
                    | exfalso; apply Hinj in Hc; discriminate Hc
                    | exfalso; destruct Hc as [Hc|Hc]; apply Hinj in Hc; discriminate Hc ]
            | first [ by (exfalso; apply Hc) | clear Hc ] ]).
Qed.

(** C10: on an id with a Stream both START and STOP answer OK and leave the
    device, hence the Stream, as it was, so START, STOP, START succeeds
    three times over; on an id without a Stream both answer BAD_MSG.  On a
    device whose stream table covers the configured count, as realization
    leaves it, every id is of one kind or the other. *)
Theorem start_stop_keeps_stream (s : VirtIOSound) (cmd : virtio_snd_ctrl_command)
    (start : bool) :
  (sizeof_virtio_snd_pcm_hdr ≤ length (out_sg (elem cmd)))%nat →
  ctrl_code cmd
    = request_code (if start then VIRTIO_SND_R_PCM_START else VIRTIO_SND_R_PCM_STOP) →
  (stream_exists s (field (out_sg (elem cmd)) 4 4) →
     dispatch s cmd = Done (with_resp_code VIRTIO_SND_S_OK cmd, s)
     ∧ ∀ stop again,
         (sizeof_virtio_snd_pcm_hdr ≤ length (out_sg (elem stop)))%nat →
         (sizeof_virtio_snd_pcm_hdr ≤ length (out_sg (elem again)))%nat →
         ctrl_code stop = request_code VIRTIO_SND_R_PCM_STOP →
         ctrl_code again = request_code VIRTIO_SND_R_PCM_START →
         field (out_sg (elem stop)) 4 4 = field (out_sg (elem cmd)) 4 4 →
         field (out_sg (elem again)) 4 4 = field (out_sg (elem cmd)) 4 4 →
         dispatch s stop = Done (with_resp_code VIRTIO_SND_S_OK stop, s)
         ∧ dispatch s again = Done (with_resp_code VIRTIO_SND_S_OK again, s))
  ∧ (no_stream s (field (out_sg (elem cmd)) 4 4) →
     dispatch s cmd = Done (with_resp_code VIRTIO_SND_S_BAD_MSG cmd, s))
  ∧ (table_covers_config s →
     stream_exists s (field (out_sg (elem cmd)) 4 4)
     ∨ no_stream s (field (out_sg (elem cmd)) 4 4)).
Proof.
  intros Hlen Hcode.
  assert (∀ (c : virtio_snd_ctrl_command) (b : bool),
    (sizeof_virtio_snd_pcm_hdr ≤ length (out_sg (elem c)))%nat →
    ctrl_code c
      = request_code (if b then VIRTIO_SND_R_PCM_START else VIRTIO_SND_R_PCM_STOP) →
    stream_exists s (field (out_sg (elem c)) 4 4) →
    dispatch s c = Done (with_resp_code VIRTIO_SND_S_OK c, s)) as Hok.
  { intros c b Hl Hc Hex. rewrite (dispatch_start_stop s c b Hc).
    rewrite start_stop_handler by exact Hl.
    apply stream_exists_get in Hex as [stream ->]. reflexivity. }
  split.
  - intros Hex. split; [by apply (Hok cmd start)|].
    intros stop again Hl1 Hl2 Hc1 Hc2 Hid1 Hid2. split.
    + apply (Hok stop false); [done..|]. by rewrite Hid1.
    + apply (Hok again true); [done..|]. by rewrite Hid2.
  - split.
    + intros Hno. rewrite (dispatch_start_stop s cmd start Hcode).
      rewrite start_stop_handler by exact Hlen.
      rewrite (no_stream_get _ _ Hno). reflexivity.
    + intros Hcov. apply stream_exists_or_not; [exact Hcov|].
      apply field_range.
Qed.

End StartStop.

Section CommandQueue.
Context {abi : virtio_snd_abi} {host : glib_host}.

(** ** The command queue *)

Lemma iov_from_buf_length (iov : list byte) (offset : nat) (buf : list byte) :
  length (iov_from_buf iov offset buf) = length iov.
Proof.
  unfold iov_from_buf. rewrite !length_app, !length_take, length_drop. lia.
Qed.

Lemma same_request_refl (e : VirtQueueElement) : same_request e e.
Proof. repeat split. Qed.

Lemma pcm_info_same_request (s : VirtIOSound) (cmd cmd' : virtio_snd_ctrl_command) :
  virtio_snd_handle_pcm_info s cmd = Done cmd' →
  same_request (elem cmd) (elem cmd').
Proof.
  unfold virtio_snd_handle_pcm_info. intros H.
  case_bool_decide; [injection H as <-; apply same_request_refl|].
  case_bool_decide; [injection H as <-; apply same_request_refl|].
  apply bind_Done in H as (a & _ & H).
  apply bind_Done in H as ([info|] & _ & H); injection H as <-;
    [|apply same_request_refl].
  repeat split. simpl. apply iov_from_buf_length.
Qed.

Lemma start_stop_same_elem (s : VirtIOSound) (cmd cmd' : virtio_snd_ctrl_command)
    (start : bool) :
  virtio_snd_handle_pcm_start_stop s cmd start = Done cmd' → elem cmd' = elem cmd.
Proof.
  unfold virtio_snd_handle_pcm_start_stop. intros H.
  case_bool_decide; [by inv_outcome; subst|].
  apply bind_Done in H as ([stream|] & _ & H); inv_outcome; by subst.
Qed.

Lemma release_same_elem (s : VirtIOSound) (cmd cmd' : virtio_snd_ctrl_command) :
  virtio_snd_handle_pcm_release s cmd = Done cmd' → elem cmd' = elem cmd.
Proof.
  unfold virtio_snd_handle_pcm_release. intros H.
  case_bool_decide; [by inv_outcome; subst|].
  apply bind_Done in H as ([stream|] & _ & H); inv_outcome; by subst.
Qed.

Lemma set_params_handler_frame (s s' : VirtIOSound) (cmd cmd' : virtio_snd_ctrl_command) :
  virtio_snd_handle_pcm_set_params s cmd = Done (cmd', s') →
  same_queues s s' ∧ elem cmd' = elem cmd.
Proof.
  unfold virtio_snd_handle_pcm_set_params. intros H.
  case_bool_decide.
  - inv_outcome. subst. split; [apply same_queues_refl|reflexivity].
  - apply bind_Done in H as ([st s1] & Hset & H). inv_outcome. subst.
    apply set_params_impl_Done in Hset as (Hq & _). by split.
Qed.

Lemma prepare_handler_frame (s s' : VirtIOSound) (cmd cmd' : virtio_snd_ctrl_command) :
  virtio_snd_handle_pcm_prepare s cmd = Done (cmd', s') →
  same_queues s s' ∧ elem cmd' = elem cmd.
Proof.
  unfold virtio_snd_handle_pcm_prepare. intros H.
  case_bool_decide.
  - apply bind_Done in H as ([st s1] & Hprep & H). inv_outcome. subst.
    apply prepare_impl_Done in Hprep as (Hq & _). by split.
  - inv_outcome. subst. split; [apply same_queues_refl|reflexivity].
Qed.

(** Whatever the request, the [switch] keeps the request's identity and
    both queues; only the tables and the reply change. *)
Lemma dispatch_frame (s s' : VirtIOSound) (cmd cmd' : virtio_snd_ctrl_command) :
  dispatch s cmd = Done (cmd', s') →
  same_queues s s' ∧ same_request (elem cmd) (elem cmd').
Proof.
  unfold dispatch. intros H.
  assert (∀ c : virtio_snd_ctrl_command, elem c = elem cmd → same_request (elem cmd) (elem c))
    as Hsame by (intros c ->; apply same_request_refl).
  repeat case_bool_decide;
    try (apply bind_Done in H as (c & Hh & H)); inv_outcome; subst;
    try (split; [apply same_queues_refl|apply same_request_refl]).
  - split; [apply same_queues_refl|]. by eapply pcm_info_same_request.
  - split; [apply same_queues_refl|]. apply Hsame. by eapply start_stop_same_elem.
  - split; [apply same_queues_refl|]. apply Hsame. by eapply start_stop_same_elem.
  - apply set_params_handler_frame in H as [? ?]. split; [done|by apply Hsame].
  - apply prepare_handler_frame in H as [? ?]. split; [done|by apply Hsame].
  - split; [apply same_queues_refl|]. apply Hsame. by eapply release_same_elem.
Qed.

Lemma header_complete_iov (e : VirtQueueElement) :
  length (iov_to_buf (out_sg e) 0 sizeof_virtio_snd_hdr) = sizeof_virtio_snd_hdr
  ↔ header_complete e.
Proof.
  unfold header_complete, iov_to_buf. rewrite drop_0, length_take. lia.
Qed.

(** One command: a request with a complete header is answered, its element
    returned to the queue exactly once and the guest notified; a request
    with a shorter header leaves no trace. *)
Lemma process_cmd_Done (s s' : VirtIOSound) (cmd : virtio_snd_ctrl_command) :
  process_cmd s cmd = Done s' →
  cmdq s' = cmdq s ∧ processing_cmdq s' = processing_cmdq s
  ∧ snd_conf s' = snd_conf s
  ∧ vq_ready (ctrl_vq s') = vq_ready (ctrl_vq s)
  ∧ vq_avail (ctrl_vq s') = vq_avail (ctrl_vq s)
  ∧ ((header_complete (elem cmd)
      ∧ ∃ e, same_request (elem cmd) e
             ∧ vq_used (ctrl_vq s') = vq_used (ctrl_vq s) ++ [(e, sizeof_pointer)]
             ∧ vq_notified (ctrl_vq s') = S (vq_notified (ctrl_vq s)))
     ∨ (¬ header_complete (elem cmd) ∧ s' = s)).
Proof.
  unfold process_cmd. intros H.
  case_bool_decide as Hhdr.
  { inv_outcome. subst s'. repeat split. right. split; [|reflexivity].
    intros Hc. apply Hhdr. by apply header_complete_iov. }
  apply bind_Done in H as ([cmd' s1] & Hd & H).
  apply dispatch_frame in Hd as ((Hc & Hv & Hq & Hp) & Hreq).
  simpl in Hreq. inv_outcome. subst s'. simpl.
  rewrite Hv. repeat split; try done.
  left. split; [by apply header_complete_iov|].
  eexists. split; [|split; reflexivity].
  destruct Hreq as (? & ? & ?). repeat split; simpl; try done.
  by rewrite iov_from_buf_length.
Qed.

Lemma same_request_of (e e' : VirtQueueElement) :
  same_request e e' → request_of e' = request_of e.
Proof. intros (Hi & Ho & _). unfold request_of. by rewrite Hi, Ho. Qed.

(** The drain loop answers the queued requests from head to tail. *)
Lemma process_cmdq_loop_Done (q : list virtio_snd_ctrl_command) :
  ∀ s s',
    process_cmdq_loop q s = Done s' →
    processing_cmdq s' = processing_cmdq s
    ∧ snd_conf s' = snd_conf s
    ∧ vq_ready (ctrl_vq s') = vq_ready (ctrl_vq s)
    ∧ vq_avail (ctrl_vq s') = vq_avail (ctrl_vq s)
    ∧ cmdq s' = (if q is [] then cmdq s else [])
    ∧ (request_of ∘ fst) <$> vq_used (ctrl_vq s')
      = ((request_of ∘ fst) <$> vq_used (ctrl_vq s))
          ++ (request_of <$> filter header_complete (elem <$> q))
    ∧ vq_notified (ctrl_vq s')
      = (vq_notified (ctrl_vq s) + length (filter header_complete (elem <$> q)))%nat.
Proof.
  induction q as [|cmd rest IH]; intros s s' H; simpl in H.
  - inv_outcome. subst s'. repeat split; [|simpl; lia].
    simpl. by rewrite app_nil_r.
  - apply bind_Done in H as (s1 & H1 & H).
    apply process_cmd_Done in H1 as (Hq1 & Hp1 & Hc1 & Hr1 & Ha1 & Hused).
    apply IH in H as (Hp & Hc & Hr & Ha & Hq & Hu & Hn). simpl in Hp, Hc, Hr, Ha, Hq, Hu, Hn.
    split; [congruence|]. split; [congruence|]. split; [congruence|].
    split; [congruence|]. split; [by destruct rest|].
    rewrite fmap_cons, filter_cons.
    destruct Hused as [(Hh & e & Hreq & Hus & Hnt)|(Hh & ->)].
    + rewrite decide_True by exact Hh.
      rewrite Hu, Hn, Hus, Hnt, fmap_app, <- app_assoc. simpl.
      rewrite (same_request_of _ _ Hreq). split; [reflexivity|lia].
    + rewrite decide_False by exact Hh. by split.
Qed.

Lemma pop_all_app (avail : list VirtQueueElement) :
  ∀ q, elem <$> pop_all avail q = (elem <$> q) ++ avail.
Proof.
  induction avail as [|e avail IH]; intros q; simpl.
  - by rewrite app_nil_r.
  - rewrite IH, fmap_app, <- app_assoc. reflexivity.
Qed.

(** C7: one notification of the control queue moves the available
    requests behind those already pending and drains the queue from the
    head: the elements returned to the guest are, in arrival order, the
    requests that carry a complete header, each returned once, so requests
    that arrive as A, B, C are answered as A, B, C. *)
Theorem responses_in_arrival_order (s s' : VirtIOSound) :
  vq_ready (ctrl_vq s) = true →
  processing_cmdq s = false →
  virtio_snd_handle_ctrl s = Done s' →
  (request_of ∘ fst) <$> vq_used (ctrl_vq s')
  = ((request_of ∘ fst) <$> vq_used (ctrl_vq s))
      ++ (request_of <$> filter header_complete ((elem <$> cmdq s) ++ vq_avail (ctrl_vq s)))
  ∧ (Forall header_complete ((elem <$> cmdq s) ++ vq_avail (ctrl_vq s)) →
     (request_of ∘ fst) <$> vq_used (ctrl_vq s')
     = ((request_of ∘ fst) <$> vq_used (ctrl_vq s))
         ++ (request_of <$> ((elem <$> cmdq s) ++ vq_avail (ctrl_vq s))))
  ∧ cmdq s' = [] ∧ vq_avail (ctrl_vq s') = [] ∧ processing_cmdq s' = false.
Proof.
  intros Hready Hproc H. unfold virtio_snd_handle_ctrl in H.
  rewrite Hready in H. simpl in H.
  unfold virtio_snd_process_cmdq in H. simpl in H. rewrite Hproc in H.
  apply bind_Done in H as (s1 & Hloop & H). inv_outcome. subst s'.
  apply process_cmdq_loop_Done in Hloop as (_ & _ & _ & Ha & Hq & Hu & _).
  simpl in Ha, Hq, Hu. rewrite pop_all_app in Hu.
  assert ((request_of ∘ fst) <$> vq_used (ctrl_vq (with_processing_cmdq false s1))
          = ((request_of ∘ fst) <$> vq_used (ctrl_vq s))
              ++ (request_of <$> filter header_complete
                    ((elem <$> cmdq s) ++ vq_avail (ctrl_vq s)))) as Hu'.
  { exact Hu. }
  split; [exact Hu'|]. split.
  { intros Hall. rewrite Hu'. do 2 f_equal.
    clear -Hall. induction Hall as [|e l He _ IH]; [reflexivity|].
    rewrite filter_cons, decide_True by exact He. by rewrite IH. }
  split; [|split; [exact Ha|reflexivity]].
  simpl. rewrite Hq. by destruct (pop_all _ _).
Qed.

End CommandQueue.

Section Invariant.
Context {abi : virtio_snd_abi} {host : glib_host}.

(** ** The stream table covers the configured count

    Realization establishes it and no request breaks it; only a
    configuration write that raises [streams] does. *)

Lemma realize_covers_config (vsnd s' : VirtIOSound) :
  virtio_snd_realize vsnd = Done (Realized s') → table_covers_config s'.
Proof.
  intros H. apply realize_Realized in H as (v & Hv & Hj & Hk & Hc & H).
  apply set_pcm_Done in Hv as ((Hv & _) & _). simpl in Hv.
  apply realize_streams_Realized in H as ((Hconf & _) & Hnew & _); [|lia].
  simpl in Hconf. unfold table_covers_config. rewrite Hconf, Hv.
  destruct (Hnew (streams (snd_conf vsnd) - 1)) as (_ & _ & stream & Hs & _).
  { simpl. lia. }
  apply lookup_lt_Some in Hs. lia.
Qed.

Lemma dispatch_tables_length (s s' : VirtIOSound) (cmd cmd' : virtio_snd_ctrl_command) :
  dispatch s cmd = Done (cmd', s') →
  length (streams_table s') = length (streams_table s)
  ∧ length (params_table s') = length (params_table s).
Proof.
  unfold dispatch. intros H.
  repeat case_bool_decide;
    try (apply bind_Done in H as (c & Hh & H)); inv_outcome; subst; try done.
  - unfold virtio_snd_handle_pcm_set_params in H.
    case_bool_decide; [by inv_outcome; subst|].
    apply bind_Done in H as ([st s1] & Hset & H). inv_outcome. subst.
    apply set_params_impl_Done in Hset as (_ & -> & [[_ ->]|Hset]); [done|].
    destruct Hset as (old & new & _ & _ & _ & -> & _).
    by rewrite length_insert.
  - unfold virtio_snd_handle_pcm_prepare in H.
    case_bool_decide; [|by inv_outcome; subst].
    apply bind_Done in H as ([st s1] & Hprep & H). inv_outcome. subst.
    apply prepare_impl_Done in Hprep as (_ & -> & [[_ ->]|Hprep]); [done|].
    destruct Hprep as (params & stream & _ & _ & _ & _ & -> & _).
    by rewrite length_insert.
Qed.

Lemma process_cmd_covers_config (s s' : VirtIOSound) (cmd : virtio_snd_ctrl_command) :
  process_cmd s cmd = Done s' → table_covers_config s → table_covers_config s'.
Proof.
  unfold process_cmd, table_covers_config. intros H Hcov.
  case_bool_decide; [by inv_outcome; subst|].
  apply bind_Done in H as ([cmd' s1] & Hd & H). inv_outcome. subst s'.
  destruct (dispatch_tables_length _ _ _ _ Hd) as [Hl _].
  apply dispatch_frame in Hd as ((Hc & _) & _).
  change (streams (snd_conf s1) ≤ Z.of_nat (length (streams_table s1))).
  rewrite Hc, Hl. exact Hcov.
Qed.

Lemma process_cmdq_loop_covers_config (q : list virtio_snd_ctrl_command) :
  ∀ s s',
    process_cmdq_loop q s = Done s' → table_covers_config s → table_covers_config s'.
Proof.
  induction q as [|cmd rest IH]; intros s s' H Hcov; simpl in H.
  - by inv_outcome; subst.
  - apply bind_Done in H as (s1 & H1 & H).
    apply (IH _ _ H). eapply process_cmd_covers_config in H1; [|exact Hcov].
    exact H1.
Qed.

Lemma handle_ctrl_covers_config (s s' : VirtIOSound) :
  virtio_snd_handle_ctrl s = Done s' → table_covers_config s → table_covers_config s'.
Proof.
  unfold virtio_snd_handle_ctrl, virtio_snd_process_cmdq. intros H Hcov.
  destruct (vq_ready (ctrl_vq s)); simpl in H; [|by inv_outcome; subst].
  destruct (processing_cmdq s); [by inv_outcome; subst|].
  apply bind_Done in H as (s1 & Hloop & H). inv_outcome. subst s'.
  apply process_cmdq_loop_covers_config in Hloop; [exact Hloop|exact Hcov].
Qed.

End Invariant.

Section PcmInfo.
Context {abi : virtio_snd_abi} {host : glib_host}.

(** ** PCM_INFO *)

Lemma get_stream_None_no_stream (s : VirtIOSound) (i : Z) :
  virtio_snd_pcm_get_stream s i = Done None → no_stream s i.
Proof.
  intros H. apply get_stream_Done in H as [[? _]|[? ?]]; [by left|right]. split; [lia|done].
Qed.

(** A loop that ran to its end found a Stream at every id it visited and
    left the stream's record at the id's offset from [start_id]. *)
Lemma pcm_info_loop_Some (s : VirtIOSound) (req : virtio_snd_query_info) (n : nat) :
  ∀ (i : Z) (a a' : list virtio_snd_pcm_info),
    start_id req ≤ i →
    pcm_info_loop n s req i a = Done (Some a') →
    length a' = length a
    ∧ (∀ k, 0 ≤ k < Z.of_nat n →
         ∃ stream, virtio_snd_pcm_get_stream s (i + k) = Done (Some stream)
                   ∧ a' !! Z.to_nat (i + k - start_id req) = Some (info_of_stream stream))
    ∧ (∀ j, (j < Z.to_nat (i - start_id req))%nat → a' !! j = a !! j).
Proof.
  induction n as [|n IH]; intros i a a' Hi H; simpl in H.
  - inv_outcome. subst a'. split; [reflexivity|]. split; [intros k Hk; lia|done].
  - apply bind_Done in H as ([stream|] & Hget & H); [|discriminate].
    apply bind_Done in H as (a1 & Hset & H).
    apply array_set_Done in Hset as (_ & Hlt & ->).
    apply bind_Done in H as (x & _ & H).
    apply IH in H as (Hlen & Hvis & Hkeep); [|lia].
    rewrite length_insert in Hlen.
    split; [exact Hlen|]. split.
    + intros k Hk. destruct (decide (k = 0)) as [->|Hne].
      * exists stream. rewrite Z.add_0_r. split; [exact Hget|].
        rewrite Hkeep by lia. apply list_lookup_insert_eq. exact Hlt.
      * destruct (Hvis (k - 1) ltac:(lia)) as (st & Hg & Ha).
        exists st. replace (i + k) with (i + 1 + (k - 1)) by lia. by split.
    + intros j Hj. rewrite Hkeep by lia. apply list_lookup_insert_ne. lia.
Qed.

(** A loop that returned early met an id without a Stream. *)
Lemma pcm_info_loop_None (s : VirtIOSound) (req : virtio_snd_query_info) (n : nat) :
  ∀ (i : Z) (a : list virtio_snd_pcm_info),
    pcm_info_loop n s req i a = Done None →
    ∃ k, 0 ≤ k < Z.of_nat n ∧ virtio_snd_pcm_get_stream s (i + k) = Done None.
Proof.
  induction n as [|n IH]; intros i a H; simpl in H; [discriminate|].
  apply bind_Done in H as ([stream|] & Hget & H).
  - apply bind_Done in H as (a1 & _ & H). apply bind_Done in H as (x & _ & H).
    apply IH in H as (k & Hk & Hg). exists (k + 1). split; [lia|].
    by replace (i + (k + 1)) with (i + 1 + k) by lia.
  - exists 0. split; [lia|]. by rewrite Z.add_0_r.
Qed.

(** From [start_id = 0] the loop never leaves its array. *)
Lemma pcm_info_loop_total (s : VirtIOSound) (req : virtio_snd_query_info) (n : nat) :
  table_covers_config s →
  start_id req = 0 →
  ∀ (i : Z) (a : list virtio_snd_pcm_info),
    0 ≤ i → i + Z.of_nat n ≤ Z.of_nat (length a) →
    ∃ r, pcm_info_loop n s req i a = Done r.
Proof.
  intros Hcov Hstart. induction n as [|n IH]; intros i a Hi Hlen; simpl; [eauto|].
  destruct (stream_exists_or_not s i Hcov Hi) as [Hex|Hno].
  - apply stream_exists_get in Hex as [stream ->]. simpl.
    unfold array_set. rewrite bool_decide_true by lia. simpl.
    unfold array_get. rewrite bool_decide_true by lia.
    match goal with
    | |- context [<[?j := ?x]> a] => set (a1 := <[j := x]> a)
    end.
    assert (length a1 = length a) as Hl by (subst a1; apply length_insert).
    destruct (lookup_lt_is_Some_2 a1 (Z.to_nat i)) as [x Hx]; [lia|].
    rewrite Hx. simpl. apply IH; lia.
  - rewrite (no_stream_get _ _ Hno). simpl. eauto.
Qed.

Lemma encode_pcm_info_length (r : virtio_snd_pcm_info) :
  length (encode_pcm_info r) = sizeof_virtio_snd_pcm_info.
Proof.
  unfold encode_pcm_info. rewrite !length_app, !le_encode_length, length_replicate.
  reflexivity.
Qed.

Lemma encode_records_length (records : list virtio_snd_pcm_info) :
  length (concat (encode_pcm_info <$> records))
  = (sizeof_virtio_snd_pcm_info * length records)%nat.
Proof.
  induction records as [|r records IH]; [simpl; lia|].
  rewrite fmap_cons. cbn [concat length].
  rewrite length_app, encode_pcm_info_length, IH. lia.
Qed.

(** A write that fits is read back whole. *)
Lemma iov_from_buf_fits (iov : list byte) (offset : nat) (buf : list byte) :
  (offset + length buf ≤ length iov)%nat →
  take (length buf) (drop offset (iov_from_buf iov offset buf)) = buf.
Proof.
  intros H. unfold iov_from_buf.
  rewrite drop_app_length'; [|rewrite length_take; lia].
  rewrite (take_ge buf) by lia.
  rewrite take_app_length. reflexivity.
Qed.

End PcmInfo.

Section PcmInfoReply.
Context {abi : virtio_snd_abi} {host : glib_host}.

Lemma decode_query_info_take (out : list byte) :
  decode_query_info (take sizeof_virtio_snd_query_info out) = decode_query_info out.
Proof.
  unfold decode_query_info, sizeof_virtio_snd_query_info.
  rewrite !field_take by lia. reflexivity.
Qed.

(** PCM_INFO on a request that carries the whole query structure: the
    guard on the reply buffer, the allocation of [count] records, the loop. *)
Lemma pcm_info_long_request (s : VirtIOSound) (cmd : virtio_snd_ctrl_command) :
  (sizeof_virtio_snd_query_info ≤ length (out_sg (elem cmd)))%nat →
  let req := decode_query_info (out_sg (elem cmd)) in
  virtio_snd_handle_pcm_info s cmd
  = if bool_decide (iov_size (in_sg (elem cmd))
                    < Z.of_nat sizeof_virtio_snd_hdr + u32 (size req * count req))
    then Done (with_resp_code VIRTIO_SND_S_BAD_MSG cmd)
    else
      pcm_info ← g_new0 zero_pcm_info (Z.of_nat sizeof_virtio_snd_pcm_info) (count req);
      r ← pcm_info_loop (Z.to_nat (u32 (start_id req + count req) - start_id req)) s req
             (start_id req) (default [] pcm_info);
      match r with
      | None => Done (with_resp_code VIRTIO_SND_S_BAD_MSG cmd)
      | Some pcm_info =>
        Done (with_elem
                (with_in_sg
                   (iov_from_buf (in_sg (elem cmd)) sizeof_virtio_snd_hdr
                      (concat (encode_pcm_info <$> pcm_info)))
                   (elem cmd)) (with_resp_code VIRTIO_SND_S_OK cmd))
      end.
Proof.
  intros Hlong req. unfold virtio_snd_handle_pcm_info.
  rewrite bool_decide_false
    by (rewrite iov_to_buf_full by exact Hlong; intros Hx; by apply Hx).
  unfold iov_to_buf. rewrite drop_0, decode_query_info_take. reflexivity.
Qed.

(** C8, as amended: the reply of PCM_INFO.  A request shorter than the
    query structure is answered BAD_MSG.  For a request that carries the
    whole structure and declares a record size with [size * count] below
    2^32: a reply buffer smaller than the header plus [size * count] bytes
    is answered BAD_MSG with the buffer untouched; otherwise the handler
    allocates [count] records (and the process aborts when the host cannot
    provide them), and, the id range not wrapping, a run that completes
    answers BAD_MSG with the buffer untouched when an id of the range has
    no Stream, and otherwise OK with the [count] records of the streams, in
    id order, copied behind the header as far as the buffer holds them.
    From [start_id = 0], on a device whose table covers the configured
    streams and a host that provides the records, the handler completes. *)
Theorem pcm_info_reply (s : VirtIOSound) (cmd : virtio_snd_ctrl_command) :
  let req := decode_query_info (out_sg (elem cmd)) in
  let room := iov_size (in_sg (elem cmd)) in
  let needed := Z.of_nat sizeof_virtio_snd_hdr + size req * count req in
  let missing := ∃ i, start_id req ≤ i < start_id req + count req ∧ no_stream s i in
  let provided := allocates (Z.of_nat sizeof_virtio_snd_pcm_info) (count req) in
  ((length (out_sg (elem cmd)) < sizeof_virtio_snd_query_info)%nat →
     virtio_snd_handle_pcm_info s cmd = Done (with_resp_code VIRTIO_SND_S_BAD_MSG cmd))
  ∧ ((sizeof_virtio_snd_query_info ≤ length (out_sg (elem cmd)))%nat →
     size req * count req < 2 ^ 32 →
     (room < needed →
        virtio_snd_handle_pcm_info s cmd = Done (with_resp_code VIRTIO_SND_S_BAD_MSG cmd))
     ∧ (needed ≤ room → ¬ provided →
        virtio_snd_handle_pcm_info s cmd = Fault AllocationFailed)
     ∧ (needed ≤ room → start_id req + count req < 2 ^ 32 →
        ∀ cmd', virtio_snd_handle_pcm_info s cmd = Done cmd' →
          (missing → cmd' = with_resp_code VIRTIO_SND_S_BAD_MSG cmd)
          ∧ (¬ missing →
             resp_code cmd' = VIRTIO_SND_S_OK
             ∧ ∃ records,
                 Z.of_nat (length records) = count req
                 ∧ (∀ k, 0 ≤ k < count req →
                      ∃ stream,
                        streams_table s !! Z.to_nat (start_id req + k) = Some (Some stream)
                        ∧ records !! Z.to_nat k = Some (info_of_stream stream))
                 ∧ elem cmd'
                   = with_in_sg
                       (iov_from_buf (in_sg (elem cmd)) sizeof_virtio_snd_hdr
                          (concat (encode_pcm_info <$> records))) (elem cmd)
                 ∧ (Z.of_nat sizeof_virtio_snd_hdr
                      + Z.of_nat sizeof_virtio_snd_pcm_info * count req ≤ room →
                    take (sizeof_virtio_snd_pcm_info * length records)
                      (drop sizeof_virtio_snd_hdr (in_sg (elem cmd')))
                    = concat (encode_pcm_info <$> records))))
     ∧ (needed ≤ room → start_id req = 0 → table_covers_config s → provided →
        ∃ cmd', virtio_snd_handle_pcm_info s cmd = Done cmd')).
Proof.
  intros req room needed missing provided.
  assert (0 ≤ start_id req < 2 ^ 32 ∧ 0 ≤ count req < 2 ^ 32 ∧ 0 ≤ size req < 2 ^ 32)
    as (Hs & Hc & Hz).
  { repeat split; apply (field_range (out_sg (elem cmd)) _ 4). }
  split.
  { intros Hshort. unfold virtio_snd_handle_pcm_info.
    rewrite bool_decide_true; [reflexivity|].
    unfold iov_to_buf. rewrite drop_0, length_take. lia. }
  intros Hlong Hprod.
  rewrite (pcm_info_long_request s cmd Hlong). fold req. fold room.
  assert (u32 (size req * count req) = size req * count req) as ->.
  { unfold u32. apply Z.mod_small. nia. }
  fold needed.
  split; [|split; [|split]].
  - intros Hroom. by rewrite bool_decide_true.
  - intros Hroom Hno. rewrite bool_decide_false by lia.
    rewrite g_new0_fails by exact Hno. reflexivity.
  - intros Hroom Hwrap cmd' H. rewrite bool_decide_false in H by lia.
    apply bind_Done in H as (a & Ha & H).
    apply g_new0_Done in Ha as [Ha _]. rewrite Ha in H. clear a Ha.
    unfold u32 in H. rewrite (Z.mod_small (start_id req + count req)) in H by lia.
    replace (start_id req + count req - start_id req) with (count req) in H by lia.
    apply bind_Done in H as ([a'|] & Hloop & H); injection H as <-.
    + apply pcm_info_loop_Some in Hloop as (Hlen & Hvis & _); [|lia].
      rewrite length_replicate in Hlen.
      split.
      { intros (i & Hi & Hno). exfalso.
        destruct (Hvis (i - start_id req) ltac:(lia)) as (stream & Hget & _).
        replace (start_id req + (i - start_id req)) with i in Hget by lia.
        rewrite (no_stream_get _ _ Hno) in Hget. discriminate. }
      intros _. split; [reflexivity|].
      exists a'. split; [lia|]. split.
      { intros k Hk. destruct (Hvis k ltac:(lia)) as (stream & Hget & Hrec).
        exists stream. split.
        - apply get_stream_Done in Hget as [[_ ?]|[_ ?]]; [discriminate|done].
        - by replace (start_id req + k - start_id req) with k in Hrec by lia. }
      split; [reflexivity|].
      intros Hfit. unfold with_elem, with_in_sg, with_resp_code. cbn [elem in_sg].
      rewrite <- encode_records_length. apply iov_from_buf_fits.
      rewrite encode_records_length. unfold room, iov_size in Hfit.
      unfold sizeof_virtio_snd_hdr, sizeof_virtio_snd_pcm_info in *. lia.
    + split; [done|]. intros Hnone. exfalso. apply Hnone.
      apply pcm_info_loop_None in Hloop as (k & Hk & Hget).
      exists (start_id req + k). split; [lia|].
      by apply get_stream_None_no_stream.
  - intros Hroom Hstart Hcov Hmem. rewrite bool_decide_false by lia.
    rewrite Hstart. unfold u32. rewrite Z.add_0_l, Z.sub_0_r, Z.mod_small by lia.
    destruct (g_new0_allocates zero_pcm_info _ _ Hmem) as [a Ha]. rewrite Ha.
    apply g_new0_Done in Ha as [Ha _]. cbn [mbind outcome_bind]. rewrite Ha.
    destruct (pcm_info_loop_total s req (Z.to_nat (count req)) Hcov Hstart 0
                (replicate (Z.to_nat (count req)) zero_pcm_info)) as [r Hr].
    { lia. }
    { rewrite length_replicate. lia. }
    rewrite Hr. simpl. destruct r; eauto.
Qed.

End PcmInfoReply.

Section Divergences.
Context {abi : virtio_snd_abi} {host : glib_host}.

(** ** Where the handlers leave the stated behaviour *)

(** SET_PARAMS: an id above the configured count is refused. *)
Lemma set_params_impl_beyond (s : VirtIOSound) (params : virtio_snd_pcm_set_params) :
  streams (snd_conf s) < sp_stream_id params →
  virtio_snd_pcm_set_params_impl s params = Done (VIRTIO_SND_S_BAD_MSG, s).
Proof.
  intros H. unfold virtio_snd_pcm_set_params_impl.
  rewrite bool_decide_true by exact H. reflexivity.
Qed.

(** SET_PARAMS: the id equal to the configured count passes the guard
    ([>] where the lookups use [>=]); with the tables allocated the run
    then leaves the array or writes through the NULL that
    [virtio_snd_pcm_get_params] returns. *)
Lemma set_params_impl_at_count (s : VirtIOSound) (params : virtio_snd_pcm_set_params)
    (p : VirtIOSoundPCM) (a : list (option VirtIOSoundPCMParams)) :
  sp_stream_id params = streams (snd_conf s) →
  pcm s = Some p → pcm_params p = Some a →
  ∃ f, virtio_snd_pcm_set_params_impl s params = Fault f.
Proof.
  intros Hid Hp Ha. unfold virtio_snd_pcm_set_params_impl.
  rewrite bool_decide_false by lia. rewrite Hp. simpl. rewrite Ha.
  destruct (array_get a (sp_stream_id params)) as [slot|f]; simpl; [|eauto].
  unfold virtio_snd_pcm_get_params.
  rewrite (bool_decide_true (_ ≤ _)); [simpl; eauto|].
  destruct slot; [lia|].
  destruct (store_params_tables s (sp_stream_id params) (Some zero_params))
    as (_ & _ & -> & _). lia.
Qed.

(** SET_PARAMS: a channel count out of range is answered NOT_SUPP after
    [features], [buffer_bytes] and [period_bytes] have been stored. *)
Lemma set_params_impl_bad_channels (s : VirtIOSound) (params : virtio_snd_pcm_set_params)
    (old : VirtIOSoundPCMParams) :
  0 ≤ sp_stream_id params < streams (snd_conf s) →
  params_table s !! Z.to_nat (sp_stream_id params) = Some (Some old) →
  sp_channels params < 1 ∨ AUDIO_MAX_CHANNELS < sp_channels params →
  virtio_snd_pcm_set_params_impl s params
  = Done (VIRTIO_SND_S_NOT_SUPP,
          store_params s (sp_stream_id params)
            (Some {| features := sp_features params;
                     buffer_bytes := sp_buffer_bytes params;
                     period_bytes := sp_period_bytes params;
                     channels := channels old;
                     format := format old;
                     rate := rate old |})).
Proof.
  intros Hid Hold Hch. unfold virtio_snd_pcm_set_params_impl.
  rewrite bool_decide_false by lia.
  unfold params_table in Hold.
  destruct (pcm s) as [p|] eqn:Hp; simpl in Hold; [|discriminate].
  destruct (pcm_params p) as [a|] eqn:Ha; simpl in Hold; [|discriminate].
  simpl. rewrite Ha.
  rewrite (proj2 (array_get_Done a _ (Some old)) (conj (proj1 Hid) Hold)). simpl.
  rewrite (get_params_table s _ (Some old)); [|lia|].
  - simpl. rewrite bool_decide_true by exact Hch. reflexivity.
  - unfold params_table. rewrite Hp. simpl. rewrite Ha. exact Hold.
Qed.

(** The [switch] reaches the RELEASE handler for its code. *)
Lemma dispatch_release (s : VirtIOSound) (cmd : virtio_snd_ctrl_command) :
  ctrl_code cmd = request_code VIRTIO_SND_R_PCM_RELEASE →
  dispatch s cmd = (cmd ← virtio_snd_handle_pcm_release s cmd; Done (cmd, s)).
Proof.
  intros Hcode. unfold dispatch. rewrite Hcode.
  pose proof (@request_code_inj abi) as Hinj.
  repeat (case_bool_decide as Hc;
          [ first [ reflexivity
                  | exfalso; apply Hinj in Hc; discriminate Hc
                  | exfalso; destruct Hc as [Hc|Hc]; apply Hinj in Hc; discriminate Hc ]
          | first [ by (exfalso; apply Hc) | clear Hc ] ]).
Qed.

(** RELEASE on an id with a Stream answers OK and changes nothing: the
    Stream is still there for the next request. *)
Lemma release_keeps_stream (s : VirtIOSound) (cmd : virtio_snd_ctrl_command) :
  (sizeof_virtio_snd_pcm_hdr ≤ length (out_sg (elem cmd)))%nat →
  ctrl_code cmd = request_code VIRTIO_SND_R_PCM_RELEASE →
  stream_exists s (field (out_sg (elem cmd)) 4 4) →
  dispatch s cmd = Done (with_resp_code VIRTIO_SND_S_OK cmd, s).
Proof.
  intros Hlen Hcode Hex. rewrite (dispatch_release s cmd Hcode).
  unfold virtio_snd_handle_pcm_release.
  assert (iov_to_buf (out_sg (elem cmd)) sizeof_virtio_snd_hdr sizeof_uint32_t
          = take 4 (drop 4 (out_sg (elem cmd)))) as -> by reflexivity.
  rewrite bool_decide_false.
  - change (le_decode (take 4 (drop 4 (out_sg (elem cmd)))))
      with (field (out_sg (elem cmd)) 4 4).
    apply stream_exists_get in Hex as [stream ->]. reflexivity.
  - rewrite length_take, length_drop.
    unfold sizeof_virtio_snd_pcm_hdr, sizeof_uint32_t in *. lia.
Qed.

(** A request whose header is incomplete is taken off the queue without a
    reply: nothing is written, pushed or notified. *)
Lemma process_cmd_short_header (s : VirtIOSound) (cmd : virtio_snd_ctrl_command) :
  ¬ header_complete (elem cmd) → process_cmd s cmd = Done s.
Proof.
  intros H. unfold process_cmd. rewrite bool_decide_true; [reflexivity|].
  intros Hc. apply H. by apply header_complete_iov.
Qed.

End Divergences.

(** ** The device at work *)

Section Runs.
#[local] Existing Instance virtio_v1_2.
#[local] Existing Instance roomy_host.

(** Closes a comparison of evaluated integers. *)
Ltac evaluated :=
  vm_compute; repeat split;
  first [ reflexivity | let H := fresh in intros H; discriminate H ].

Lemma realized_is_realized :
  virtio_snd_realize (instance (config_of 1)) = Done (Realized (realized 1))
  ∧ virtio_snd_realize (instance (config_of 2)) = Done (Realized (realized 2))
  ∧ virtio_snd_realize (instance (config_of 3)) = Done (Realized (realized 3))
  ∧ virtio_snd_realize (instance (config_of 5)) = Done (Realized (realized 5)).
Proof. split; [|split; [|split]]; vm_compute; reflexivity. Qed.

(** C1: on a device realized with one stream, SET_PARAMS for stream id 1,
    which is no index of the table, is not answered BAD_MSG: the guard
    lets the id through and the handler reads [pcm_params[1]], one slot
    behind the end of the array. *)
Theorem set_params_at_stream_count :
  virtio_snd_realize (instance (config_of 1)) = Done (Realized (realized 1))
  ∧ streams (snd_conf (realized 1)) = 1
  ∧ length (params_table (realized 1)) = 1%nat
  ∧ virtio_snd_pcm_set_params_impl (realized 1) (default_params 1) = Fault OutOfBounds.
Proof. split; [|split; [|split]]; vm_compute; reflexivity. Qed.

(** C2: on the same device SET_PARAMS for stream 0 with zero channels is
    answered NOT_SUPP, and the stored parameters of stream 0 are no longer
    the ones realization stored: [features], [buffer_bytes] and
    [period_bytes] hold the values of the rejected request. *)
Theorem set_params_zero_channels_overwrites :
  virtio_snd_realize (instance (config_of 1)) = Done (Realized (realized 1))
  ∧ virtio_snd_pcm_get_params (realized 1) 0 = Done (Some default_stored)
  ∧ ∃ s',
      virtio_snd_pcm_set_params_impl (realized 1) zero_channels
      = Done (VIRTIO_SND_S_NOT_SUPP, s')
      ∧ virtio_snd_pcm_get_params s' 0
        = Done (Some {| features := 7; buffer_bytes := 1; period_bytes := 1;
                        channels := 2; format := VIRTIO_SND_PCM_FMT_S16;
                        rate := VIRTIO_SND_PCM_RATE_44100 |}).
Proof.
  split; [vm_compute; reflexivity|].
  split; [vm_compute; reflexivity|].
  exists (store_params (realized 1) 0
            (Some {| features := 7; buffer_bytes := 1; period_bytes := 1;
                     channels := 2; format := VIRTIO_SND_PCM_FMT_S16;
                     rate := VIRTIO_SND_PCM_RATE_44100 |})).
  split; vm_compute; reflexivity.
Qed.

(** C3: two RELEASE requests for stream 0 in a row are both answered OK:
    the first leaves the Stream in place, so the second finds it. *)
Theorem release_twice_ok :
  let release := request 0 (pcm_hdr VIRTIO_SND_R_PCM_RELEASE 0) 4 in
  virtio_snd_realize (instance (config_of 1)) = Done (Realized (realized 1))
  ∧ dispatch (realized 1) (command release)
  = Done (with_resp_code VIRTIO_SND_S_OK (command release), realized 1)
  ∧ stream_exists (realized 1) 0
  ∧ ∃ s',
      virtio_snd_handle_ctrl (driver_offers [release; release] (realized 1)) = Done s'
      ∧ (in_sg ∘ fst) <$> vq_used (ctrl_vq s')
        = [le_encode 4 (status_code VIRTIO_SND_S_OK);
           le_encode 4 (status_code VIRTIO_SND_S_OK)].
Proof.
  intros release. split; [vm_compute; reflexivity|].
  split; [vm_compute; reflexivity|]. split.
  - split; [evaluated|]. eexists. vm_compute. reflexivity.
  - assert (∃ s', virtio_snd_handle_ctrl (driver_offers [release; release] (realized 1))
                  = Done s') as [s' H] by (vm_compute; eexists; reflexivity).
    exists s'. split; [exact H|].
    vm_compute in H. injection H as <-. vm_compute. reflexivity.
Qed.

(** C4: a request of two bytes, less than the four of the header, is
    popped, taken off the command queue and never answered: no element is
    returned to the guest and no notification is sent. *)
Theorem short_header_unanswered :
  let short := request 7 [x04; x01] 4 in
  virtio_snd_realize (instance (config_of 1)) = Done (Realized (realized 1))
  ∧ ¬ header_complete short
  ∧ ∃ s',
    virtio_snd_handle_ctrl (driver_offers [short] (realized 1)) = Done s'
    ∧ cmdq s' = [] ∧ vq_avail (ctrl_vq s') = []
    ∧ vq_used (ctrl_vq s') = [] ∧ vq_notified (ctrl_vq s') = 0%nat.
Proof.
  intros short. split; [vm_compute; reflexivity|].
  split; [unfold header_complete, short, sizeof_virtio_snd_hdr; simpl; lia|].
  assert (∃ s', virtio_snd_handle_ctrl (driver_offers [short] (realized 1)) = Done s')
    as [s' H] by (vm_compute; eexists; reflexivity).
  exists s'. split; [exact H|].
  vm_compute in H. injection H as <-. repeat split.
Qed.

(** C8 as stated fails: PCM_INFO with a declared record size of zero and a
    reply buffer that holds the header alone.  The buffer is smaller than
    the header plus one record, and the answer is OK. *)
Lemma pcm_info_small_buffer_ok :
  let cmd := command (request 0 (query_info 0 1 0) 4) in
  virtio_snd_realize (instance (config_of 1)) = Done (Realized (realized 1))
  ∧ iov_size (in_sg (elem cmd))
    < Z.of_nat sizeof_virtio_snd_hdr + 1 * Z.of_nat sizeof_virtio_snd_pcm_info
  ∧ virtio_snd_handle_pcm_info (realized 1) cmd
    = Done (with_resp_code VIRTIO_SND_S_OK cmd)
  ∧ VIRTIO_SND_S_OK ≠ VIRTIO_SND_S_BAD_MSG.
Proof.
  intros cmd. split; [vm_compute; reflexivity|].
  split; [vm_compute; reflexivity|]. split; [vm_compute; reflexivity|].
  discriminate.
Qed.

(** PCM_INFO for the second of two streams: the [memset] of the padding
    addresses [pcm_info[1]] in an array of one record. *)
Lemma pcm_info_from_second_stream_faults :
  virtio_snd_handle_pcm_info (realized 2) (command (request 0 (query_info 1 1 32) 36))
  = Fault OutOfBounds.
Proof. vm_compute. reflexivity. Qed.

(** A configuration write that raises [streams] above the size of the
    tables is accepted like any other; the lookup of the new id then reads
    behind the stream table. *)
Lemma config_write_uncovers_table :
  let b := le_encode 4 0 ++ le_encode 4 2 ++ le_encode 4 0 in
  table_covers_config (realized 1)
  ∧ ¬ table_covers_config (virtio_snd_set_config (realized 1) b)
  ∧ virtio_snd_pcm_get_stream (virtio_snd_set_config (realized 1) b) 1
    = Fault OutOfBounds.
Proof.
  intros b. split; [|split].
  - apply (realize_covers_config (instance (config_of 1))). vm_compute. reflexivity.
  - unfold table_covers_config. vm_compute. intros H. apply H. reflexivity.
  - vm_compute. reflexivity.
Qed.

End Runs.

Section Witnesses.
#[local] Existing Instance virtio_v1_2.
#[local] Existing Instance roomy_host.

(** C5 at work: the second of two streams after realization; a default
    SET_PARAMS that is refused (id 5 of one stream); a PREPARE that is
    refused (no stream table). *)
Lemma realize_defaults_witness :
  (virtio_snd_pcm_get_params (realized 2) 1 = Done (Some default_stored)
   ∧ ∃ stream, virtio_snd_pcm_get_stream (realized 2) 1 = Done (Some stream)
               ∧ st_id stream = 1
               ∧ st_buffer_bytes stream = 8192
               ∧ st_period_bytes stream = 4096)
  ∧ (∃ msg, realize_streams 1 5 (realized 1) = Done (RealizeError msg (realized 1)))
  ∧ (∃ msg, realize_streams 1 0 without_stream_table
            = Done (RealizeError msg
                      (store_params without_stream_table 0 (Some default_stored)))).
Proof.
  destruct (realize_defaults (instance (config_of 2))) as (Hok & Hset & Hprep).
  split; [|split].
  - destruct (Hok (realized 2)) as (_ & _ & Hall); [vm_compute; reflexivity|].
    apply Hall. simpl. lia.
  - apply (Hset 0%nat 5 (realized 1) VIRTIO_SND_S_BAD_MSG (realized 1));
      [vm_compute; reflexivity|discriminate].
  - apply (Hprep 0%nat 0 without_stream_table
             (store_params without_stream_table 0 (Some default_stored))
             VIRTIO_SND_S_BAD_MSG);
      [vm_compute; reflexivity|vm_compute; reflexivity|discriminate].
Defined.

(** C6 at work: stream 3 of five captures. *)
Lemma prepare_direction_witness :
  virtio_snd_pcm_prepare_impl (realized 5) 3 = Done (VIRTIO_SND_S_OK, realized 5)
  ∧ ∃ stream, virtio_snd_pcm_get_stream (realized 5) 3 = Done (Some stream)
              ∧ st_direction stream = VIRTIO_SND_D_INPUT.
Proof.
  assert (virtio_snd_pcm_prepare_impl (realized 5) 3
          = Done (VIRTIO_SND_S_OK, realized 5)) as H by (vm_compute; reflexivity).
  split; [exact H|].
  destruct (prepare_direction (realized 5) (realized 5) 3 H)
    as (stream & Hget & _ & Hfive & _).
  exists stream. split; [exact Hget|].
  apply Hfive; [vm_compute; reflexivity|lia].
Defined.

(** C7 at work: START on stream 0, STOP on stream 1 and RELEASE on stream 2
    arrive in this order and are returned in this order. *)
Lemma responses_in_arrival_order_witness :
  let a := request 10 (pcm_hdr VIRTIO_SND_R_PCM_START 0) 4 in
  let b := request 11 (pcm_hdr VIRTIO_SND_R_PCM_STOP 1) 4 in
  let c := request 12 (pcm_hdr VIRTIO_SND_R_PCM_RELEASE 2) 4 in
  ∃ s', virtio_snd_handle_ctrl (driver_offers [a; b; c] (realized 3)) = Done s'
        ∧ (request_of ∘ fst) <$> vq_used (ctrl_vq s') = request_of <$> [a; b; c].
Proof.
  intros a b c.
  assert (∃ s', virtio_snd_handle_ctrl (driver_offers [a; b; c] (realized 3)) = Done s')
    as [s' H] by (vm_compute; eexists; reflexivity).
  exists s'. split; [exact H|].
  destruct (responses_in_arrival_order (driver_offers [a; b; c] (realized 3)) s'
              eq_refl eq_refl H) as (_ & Hall & _).
  apply Hall. repeat constructor; unfold header_complete; simpl; lia.
Defined.

(** C8 at work: both records of a two-stream device, in a reply buffer
    that holds the header and two records; a query of eight bytes; and a
    query for 4294967295 records of declared size zero, which passes the
    guard with a header-only reply buffer and asks a host that provides a
    GiB for 128 GiB. *)
Lemma pcm_info_reply_witness :
  let cmd := command (request 0 (query_info 0 2 32) 68) in
  let short := command (request 1 (pcm_hdr VIRTIO_SND_R_PCM_INFO 0) 68) in
  let huge := command (request 2 (query_info 0 4294967295 0) 4) in
  (∃ cmd' records,
     virtio_snd_handle_pcm_info (realized 2) cmd = Done cmd'
     ∧ resp_code cmd' = VIRTIO_SND_S_OK
     ∧ length records = 2%nat
     ∧ take (sizeof_virtio_snd_pcm_info * length records)
         (drop sizeof_virtio_snd_hdr (in_sg (elem cmd')))
       = concat (encode_pcm_info <$> records))
  ∧ virtio_snd_handle_pcm_info (realized 2) short
    = Done (with_resp_code VIRTIO_SND_S_BAD_MSG short)
  ∧ virtio_snd_handle_pcm_info (realized 2) huge = Fault AllocationFailed.
Proof.
  intros cmd short huge. split; [|split].
  - assert (start_id (decode_query_info (out_sg (elem cmd))) = 0) as Hs
      by (vm_compute; reflexivity).
    assert (count (decode_query_info (out_sg (elem cmd))) = 2) as Hc
      by (vm_compute; reflexivity).
    assert (size (decode_query_info (out_sg (elem cmd))) = 32) as Hz
      by (vm_compute; reflexivity).
    destruct (pcm_info_reply (realized 2) cmd) as (_ & Hlong).
    destruct Hlong as (_ & _ & Hrun & Htotal).
    { vm_compute. lia. }
    { rewrite Hc, Hz. lia. }
    rewrite Hs, Hc, Hz in Hrun, Htotal.
    destruct Htotal as [cmd' H].
    { vm_compute. intros Hx. discriminate Hx. }
    { reflexivity. }
    { unfold table_covers_config. vm_compute. intros Hx. discriminate Hx. }
    { right. vm_compute. reflexivity. }
    destruct (Hrun ltac:(vm_compute; intros Hx; discriminate Hx) ltac:(lia) cmd' H)
      as (_ & Hok).
    destruct Hok as (Hresp & records & Hlen & _ & _ & Hfit).
    { intros (i & Hi & Hno).
      assert (streams (snd_conf (realized 2)) = 2) as Hn by (vm_compute; reflexivity).
      destruct Hno as [Hge|[_ Hnone]]; [lia|].
      assert (i = 0 ∨ i = 1) as [->| ->] by lia; vm_compute in Hnone; discriminate Hnone. }
    exists cmd', records. split; [exact H|]. split; [exact Hresp|]. split; [lia|].
    apply Hfit. vm_compute. intros Hx. discriminate Hx.
  - destruct (pcm_info_reply (realized 2) short) as (Hshort & _).
    apply Hshort. vm_compute. lia.
  - assert (count (decode_query_info (out_sg (elem huge))) = 4294967295) as Hc
      by (vm_compute; reflexivity).
    assert (size (decode_query_info (out_sg (elem huge))) = 0) as Hz
      by (vm_compute; reflexivity).
    destruct (pcm_info_reply (realized 2) huge) as (_ & Hlong).
    destruct Hlong as (_ & Hfail & _).
    { vm_compute. lia. }
    { rewrite Hc, Hz. lia. }
    apply Hfail.
    + rewrite Hc, Hz. vm_compute. intros Hx. discriminate Hx.
    + rewrite Hc. intros [Hle|Hok]; [lia|vm_compute in Hok; discriminate Hok].
Defined.

(** C9 at work: a block with nine jacks, no stream and 99 channel maps,
    each outside the bounds realization enforces, is stored and read back. *)
Lemma config_write_then_read_witness :
  let b := le_encode 4 9 ++ le_encode 4 0 ++ le_encode 4 99 in
  virtio_snd_get_config (virtio_snd_set_config (realized 1) b) = b
  ∧ snd_conf (virtio_snd_set_config (realized 1) b)
    = {| jacks := 9; streams := 0; chmaps := 99 |}.
Proof.
  intros b. exact (config_write_then_read (realized 1) b eq_refl).
Defined.

(** C10 at work: START on the one stream of the device, STOP on id 5. *)
Lemma start_stop_keeps_stream_witness :
  let start := command (request 0 (pcm_hdr VIRTIO_SND_R_PCM_START 0) 4) in
  let stray := command (request 1 (pcm_hdr VIRTIO_SND_R_PCM_STOP 5) 4) in
  dispatch (realized 1) start = Done (with_resp_code VIRTIO_SND_S_OK start, realized 1)
  ∧ dispatch (realized 1) stray
    = Done (with_resp_code VIRTIO_SND_S_BAD_MSG stray, realized 1).
Proof.
  intros start stray. split.
  - destruct (start_stop_keeps_stream (realized 1) start true) as (Hex & _ & _).
    { vm_compute. lia. }
    { vm_compute. reflexivity. }
    apply Hex. split.
    + vm_compute. split; [intros Hx; discriminate Hx|reflexivity].
    + eexists. vm_compute. reflexivity.
  - destruct (start_stop_keeps_stream (realized 1) stray false) as (_ & Hno & _).
    { vm_compute. lia. }
    { vm_compute. reflexivity. }
    apply Hno. left. vm_compute. intros Hx. discriminate Hx.
Defined.

End Witnesses.

(** ** The masks and the codes they hold *)

Section Masks.
Context {abi : virtio_snd_abi} {host : glib_host}.

Lemma testbit_1 (n : Z) : Z.testbit 1 n = true → n = 0.
Proof.
  intros H. destruct n as [|p|p]; [reflexivity| |].
  - destruct p; discriminate H.
  - discriminate H.
Qed.

Lemma BIT_testbit_inv (c f : Z) : 0 ≤ f → Z.testbit (BIT c) f = true → c = f.
Proof.
  intros Hf H. unfold BIT in H.
  rewrite Z.testbit_mod_pow2 in H by lia.
  apply andb_true_iff in H as [_ H].
  rewrite Z.shiftl_spec in H by lia.
  apply testbit_1 in H. lia.
Qed.

Lemma land_BIT_testbit (mask f : Z) :
  0 ≤ f < 64 → Z.land mask (BIT f) ≠ 0 → Z.testbit mask f = true.
Proof.
  intros Hf Hne. destruct (Z.testbit mask f) eqn:Hb; [reflexivity|].
  exfalso. apply Hne. apply Z.bits_inj'. intros n Hn.
  rewrite Z.land_spec, Z.bits_0.
  destruct (Z.testbit (BIT f) n) eqn:Hn'; [|apply andb_false_r].
  apply BIT_testbit_inv in Hn'; [|lia]. subst n. rewrite Hb. reflexivity.
Qed.

Lemma mask_of_member (codes : list Z) (f : Z) :
  0 ≤ f → Z.testbit (mask_of codes) f = true → f ∈ codes.
Proof.
  intros Hf. induction codes as [|c codes IH]; simpl.
  - rewrite Z.bits_0. discriminate.
  - rewrite Z.lor_spec. intros [H|H]%orb_true_iff.
    + apply BIT_testbit_inv in H; [|exact Hf]. subst c. apply list_elem_of_here.
    + apply list_elem_of_further, IH, H.
Qed.

Lemma supported_formats_mask :
  supported_formats = u32 (mask_of supported_format_codes).
Proof.
  unfold supported_formats, supported_format_codes, mask_of. simpl.
  rewrite Z.lor_0_r. reflexivity.
Qed.

Lemma supported_rates_mask :
  supported_rates = u32 (mask_of supported_rate_codes).
Proof.
  unfold supported_rates, supported_rate_codes, mask_of. simpl.
  rewrite Z.lor_0_r. reflexivity.
Qed.

Lemma u32_mask_member (codes : list Z) (f : Z) :
  0 ≤ f < 64 → Z.land (u32 (mask_of codes)) (BIT f) ≠ 0 → f ∈ codes.
Proof.
  intros Hf Hne. apply land_BIT_testbit in Hne; [|exact Hf].
  unfold u32 in Hne. rewrite Z.testbit_mod_pow2 in Hne by lia.
  apply andb_true_iff in Hne as [_ Hne].
  apply mask_of_member in Hne; [exact Hne|lia].
Qed.

Lemma supported_formats_member (f : Z) :
  0 ≤ f < 64 → Z.land supported_formats (BIT f) ≠ 0 → f ∈ supported_format_codes.
Proof. rewrite supported_formats_mask. apply u32_mask_member. Qed.

Lemma supported_rates_member (r : Z) :
  0 ≤ r < 64 → Z.land supported_rates (BIT r) ≠ 0 → r ∈ supported_rate_codes.
Proof. rewrite supported_rates_mask. apply u32_mask_member. Qed.
End Masks.

(** ** What SET_PARAMS stores *)

Section StoredParams.
Context {abi : virtio_snd_abi} {host : glib_host}.

Lemma shift_defined_Done (c : Z) (u : unit) : shift_defined c = Done u → 0 ≤ c < 64.
Proof. unfold shift_defined. case_bool_decide; [lia|discriminate]. Qed.

Lemma set_params_impl_stored (s s' : VirtIOSound) (params : virtio_snd_pcm_set_params)
    (st : virtio_snd_status) :
  virtio_snd_pcm_set_params_impl s params = Done (st, s') →
  st ≠ VIRTIO_SND_S_BAD_MSG →
  ∃ old new,
    params_table s !! Z.to_nat (sp_stream_id params) = Some old
    ∧ params_table s' = <[Z.to_nat (sp_stream_id params) := Some new]> (params_table s)
    ∧ (channels new = channels (default zero_params old)
       ∨ channels new = sp_channels params
         ∧ 1 ≤ sp_channels params ≤ AUDIO_MAX_CHANNELS)
    ∧ (format new = format (default zero_params old)
       ∨ format new = sp_format params
         ∧ sp_format params ∈ supported_format_codes)
    ∧ (rate new = rate (default zero_params old)
       ∨ rate new = sp_rate params
         ∧ sp_rate params ∈ supported_rate_codes)
    ∧ (st = VIRTIO_SND_S_OK →
       1 ≤ sp_channels params ≤ AUDIO_MAX_CHANNELS
       ∧ sp_format params ∈ supported_format_codes
       ∧ sp_rate params ∈ supported_rate_codes).
Proof.
  unfold virtio_snd_pcm_set_params_impl. intros H Hne.
  case_bool_decide as Hgt.
  { inv_outcome. by subst. }
  apply bind_Done in H as (p & Hp & H). apply deref_Done in Hp.
  destruct (pcm_params p) as [a|] eqn:Ha.
  2:{ inv_outcome. by subst. }
  apply bind_Done in H as (slot & Hslot & H).
  apply array_get_Done in Hslot as [Hi Hslot].
  set (s1 := match slot with
             | Some _ => s
             | None => store_params s (sp_stream_id params) (Some zero_params)
             end) in *.
  assert (params_table s !! Z.to_nat (sp_stream_id params) = Some slot) as Htab.
  { unfold params_table. rewrite Hp. simpl. rewrite Ha. exact Hslot. }
  assert (params_table s1
          = <[Z.to_nat (sp_stream_id params) := Some (default zero_params slot)]>
              (params_table s)) as Hp1.
  { subst s1. destruct slot as [old|]; simpl.
    - symmetry. apply list_insert_id. exact Htab.
    - apply store_params_tables. }
  apply bind_Done in H as (stp & Hstp & H).
  apply bind_Done in H as (stp' & Hstp' & H). apply deref_Done in Hstp'. subst stp.
  apply get_params_Done in Hstp as [[_ ?]|[Hlt Hstp]]; [discriminate|].
  assert (stp' = default zero_params slot) as ->.
  { rewrite Hp1 in Hstp. rewrite list_lookup_insert_eq in Hstp; [congruence|].
    apply lookup_lt_Some in Htab. exact Htab. }
  assert (∀ (new : VirtIOSoundPCMParams) (st0 : virtio_snd_status),
    Done (st0, store_params s1 (sp_stream_id params) (Some new)) = Done (st, s') →
    st0 = st
    ∧ params_table s' = <[Z.to_nat (sp_stream_id params) := Some new]> (params_table s))
    as Hret.
  { intros new st0 Heq. inv_outcome. subst st0 s'. split; [reflexivity|].
    destruct (store_params_tables s1 (sp_stream_id params) (Some new)) as (Ht & _ & _).
    rewrite Ht, Hp1. apply list_insert_insert_eq. }
  clear Hstp.
  case_bool_decide as Hch.
  { apply Hret in H as [<- Hs']. eexists slot, _. split; [exact Htab|].
    split; [exact Hs'|]. simpl. split; [by left|]. split; [by left|]. split; [by left|]. intros [=]. }
  apply bind_Done in H as ([] & Hsf & H).
  apply shift_defined_Done in Hsf as Hfr.
  case_bool_decide as Hfmt.
  { apply Hret in H as [<- Hs']. eexists slot, _. split; [exact Htab|].
    split; [exact Hs'|]. simpl.
    split; [right; split; [reflexivity|lia]|].
    split; [by left|]. split; [by left|]. intros [=]. }
  apply supported_formats_member in Hfmt; [|exact Hfr].
  apply bind_Done in H as ([] & Hsr & H).
  apply shift_defined_Done in Hsr as Hrr.
  case_bool_decide as Hrate.
  { apply Hret in H as [<- Hs']. eexists slot, _. split; [exact Htab|].
    split; [exact Hs'|]. simpl.
    split; [right; split; [reflexivity|lia]|].
    split; [right; split; [reflexivity|exact Hfmt]|].
    split; [by left|]. intros [=]. }
  apply supported_rates_member in Hrate; [|exact Hrr].
  apply Hret in H as [<- Hs']. eexists slot, _. split; [exact Htab|].
  split; [exact Hs'|]. simpl.
  split; [right; split; [reflexivity|lia]|].
  split; [right; split; [reflexivity|exact Hfmt]|].
  split; [right; split; [reflexivity|exact Hrate]|].
  intros _. split; [lia|]. split; assumption.
Qed.
End StoredParams.

(** ** The invariant of the control path *)

Section DeviceOk.
Context {abi : virtio_snd_abi} {host : glib_host}.

Lemma set_params_impl_ok (s s' : VirtIOSound) (params : virtio_snd_pcm_set_params)
    (st : virtio_snd_status) :
  virtio_snd_pcm_set_params_impl s params = Done (st, s') →
  device_ok s → device_ok s'.
Proof.
  intros H (Hone & Hlp & Hls & Hok).
  destruct (set_params_impl_Done _ _ _ _ H) as ((Hc & _) & Hst & Hcase).
  destruct (decide (st = VIRTIO_SND_S_BAD_MSG)) as [Hbad|Hne].
  { destruct Hcase as [[_ ->]|(? & ? & Hne & _)]; [done|contradiction]. }
  destruct (set_params_impl_stored _ _ _ _ H Hne)
    as (old & new & Hold & Hnew & Hch & Hfmt & Hrate & _).
  destruct Hcase as [[? _]|(? & ? & _ & Hid & _)]; [contradiction|].
  unfold device_ok. rewrite Hc, Hst, Hnew, length_insert.
  split; [exact Hone|]. split; [exact Hlp|]. split; [exact Hls|].
  intros i Hi. destruct (Hok i Hi) as [(p & Hp & Hv) Hs]. split; [|exact Hs].
  destruct (decide (i = sp_stream_id params)) as [->|Hdiff].
  - exists new. split; [apply list_lookup_insert_eq; by eapply lookup_lt_Some|].
    rewrite Hp in Hold. injection Hold as <-. simpl in *.
    destruct Hv as (Hv1 & Hv2 & Hv3). unfold params_valid.
    destruct Hch as [->|[-> ?]], Hfmt as [->|[-> ?]], Hrate as [->|[-> ?]]; done.
  - exists p. split; [|exact Hv].
    rewrite list_lookup_insert_ne; [exact Hp|]. lia.
Qed.

Lemma prepare_impl_ok (s s' : VirtIOSound) (i : Z) (st : virtio_snd_status) :
  virtio_snd_pcm_prepare_impl s i = Done (st, s') →
  device_ok s → device_ok s'.
Proof.
  intros H (Hone & Hlp & Hls & Hok).
  destruct (prepare_impl_Done _ _ _ _ H) as ((Hc & _) & Hpar & Hcase).
  destruct Hcase as [[_ ->]|(params & stream & _ & Hi & _ & _ & Hnew & _)]; [done|].
  unfold device_ok. rewrite Hc, Hpar, Hnew, length_insert.
  split; [exact Hone|]. split; [exact Hlp|]. split; [exact Hls|].
  intros j Hj. destruct (Hok j Hj) as [Hp (str & Hs)]. split; [exact Hp|].
  destruct (decide (j = i)) as [->|Hdiff].
  - exists stream. apply list_lookup_insert_eq. by eapply lookup_lt_Some.
  - exists str. rewrite list_lookup_insert_ne; [exact Hs|]. lia.
Qed.

Lemma dispatch_ok (s s' : VirtIOSound) (cmd cmd' : virtio_snd_ctrl_command) :
  dispatch s cmd = Done (cmd', s') → device_ok s → device_ok s'.
Proof.
  unfold dispatch. intros H Hok.
  repeat case_bool_decide;
    try (apply bind_Done in H as (c & Hh & H)); inv_outcome; subst; try done.
  - unfold virtio_snd_handle_pcm_set_params in H.
    case_bool_decide; [by inv_outcome; subst|].
    apply bind_Done in H as ([st s1] & Hset & H). inv_outcome. subst.
    eapply set_params_impl_ok; eassumption.
  - unfold virtio_snd_handle_pcm_prepare in H.
    case_bool_decide; [|by inv_outcome; subst].
    apply bind_Done in H as ([st s1] & Hprep & H). inv_outcome. subst.
    eapply prepare_impl_ok; eassumption.
Qed.

Lemma device_ok_queues (s s' : VirtIOSound) :
  snd_conf s' = snd_conf s → pcm s' = pcm s → device_ok s → device_ok s'.
Proof.
  unfold device_ok, params_table, streams_table. intros -> ->. done.
Qed.

Lemma process_cmd_ok (s s' : VirtIOSound) (cmd : virtio_snd_ctrl_command) :
  process_cmd s cmd = Done s' → device_ok s → device_ok s'.
Proof.
  unfold process_cmd. intros H Hok.
  case_bool_decide; [by inv_outcome; subst|].
  apply bind_Done in H as ([cmd' s1] & Hd & H). inv_outcome. subst s'.
  apply dispatch_ok in Hd; [|exact Hok].
  eapply device_ok_queues; [| |exact Hd]; by destruct s1.
Qed.

Lemma process_cmdq_loop_ok (q : list virtio_snd_ctrl_command) :
  ∀ s s', process_cmdq_loop q s = Done s' → device_ok s → device_ok s'.
Proof.
  induction q as [|cmd rest IH]; intros s s' H Hok; simpl in H.
  - by inv_outcome; subst.
  - apply bind_Done in H as (s1 & H1 & H).
    apply (IH _ _ H). apply process_cmd_ok in H1; [|exact Hok].
    eapply device_ok_queues; [| |exact H1]; by destruct s1.
Qed.

Lemma handle_ctrl_ok (s s' : VirtIOSound) :
  virtio_snd_handle_ctrl s = Done s' → device_ok s → device_ok s'.
Proof.
  unfold virtio_snd_handle_ctrl, virtio_snd_process_cmdq. intros H Hok.
  destruct (vq_ready (ctrl_vq s)); simpl in H; [|by inv_outcome; subst].
  destruct (processing_cmdq s) eqn:Hflag.
  - inv_outcome. subst s'. eapply device_ok_queues; [| |exact Hok]; by destruct s.
  - apply bind_Done in H as (s1 & Hloop & H). inv_outcome. subst s'.
    apply process_cmdq_loop_ok in Hloop.
    + eapply device_ok_queues; [| |exact Hloop]; by destruct s1.
    + eapply device_ok_queues; [| |exact Hok]; by destruct s.
Qed.

End DeviceOk.

Section RealizeOk.
Context {abi : virtio_snd_abi} {host : glib_host}.

Lemma realize_streams_lengths (n : nat) :
  ∀ (i : Z) (v s' : VirtIOSound),
    realize_streams n i v = Done (Realized s') →
    length (params_table s') = length (params_table v)
    ∧ length (streams_table s') = length (streams_table v).
Proof.
  induction n as [|n IH]; intros i v s' H; simpl in H.
  - by inv_outcome; subst.
  - apply bind_Done in H as ([st1 v1] & Hset & H).
    case_bool_decide as Hst1; [discriminate|].
    apply bind_Done in H as ([st2 v2] & Hprep & H).
    case_bool_decide as Hst2; [discriminate|].
    apply IH in H as [-> ->].
    apply set_params_impl_Done in Hset as (_ & Hs1 & Hset).
    apply prepare_impl_Done in Hprep as (_ & Hp2 & Hprep).
    rewrite Hp2.
    assert (length (streams_table v2) = length (streams_table v1)) as ->.
    { destruct Hprep as [[_ ->]|(? & ? & _ & _ & _ & _ & -> & _)]; [done|].
      by rewrite length_insert. }
    rewrite Hs1. split; [|reflexivity].
    destruct Hset as [[_ ->]|(? & ? & _ & _ & _ & -> & _)]; [done|].
    by rewrite length_insert.
Qed.

Lemma realize_streams_channels (n : nat) (i : Z) (v s' : VirtIOSound) :
  realize_streams (S n) i v = Done (Realized s') → 2 ≤ AUDIO_MAX_CHANNELS.
Proof.
  simpl. intros H.
  apply bind_Done in H as ([st1 v1] & Hset & H).
  case_bool_decide as Hst1; [discriminate|]. subst st1.
  apply set_params_impl_stored in Hset as (? & ? & _ & _ & _ & _ & _ & Hok); [|done].
  destruct (Hok eq_refl) as [Hch _]. simpl in Hch. lia.
Qed.

Lemma default_stored_valid : 2 ≤ AUDIO_MAX_CHANNELS → params_valid default_stored.
Proof.
  intros H. unfold params_valid, default_stored. simpl.
  split; [lia|]. split; apply list_elem_of_In; simpl; tauto.
Qed.

(** The state the loop of a successful realization starts from. *)
Lemma realize_Realized_start (vsnd s' : VirtIOSound) :
  virtio_snd_realize vsnd = Done (Realized s') →
  ∃ v0, 1 ≤ streams (snd_conf vsnd) ≤ 10
        ∧ snd_conf v0 = snd_conf vsnd
        ∧ params_table v0 = replicate (Z.to_nat (streams (snd_conf vsnd))) None
        ∧ streams_table v0 = replicate (Z.to_nat (streams (snd_conf vsnd))) None
        ∧ realize_streams (Z.to_nat (streams (snd_conf vsnd))) 0 v0
          = Done (Realized s').
Proof.
  intros H. apply realize_Realized in H as (v & Hv & _ & Hk & _ & H).
  apply set_pcm_Done in Hv as ((Hconf & _) & Hp & Hs). simpl in Hconf, Hp, Hs.
  eexists. split; [exact Hk|]. split; [|split; [|split; [|exact H]]].
  - exact Hconf.
  - exact Hp.
  - exact Hs.
Qed.

Lemma realize_device_ok (vsnd s' : VirtIOSound) :
  virtio_snd_realize vsnd = Done (Realized s') → device_ok s'.
Proof.
  intros H. apply realize_Realized_start in H as (v0 & Hk & Hc0 & Hp0 & Hs0 & H).
  destruct (realize_streams_lengths _ _ _ _ H) as [Hlp Hls].
  assert (2 ≤ AUDIO_MAX_CHANNELS) as Hmax.
  { destruct (Z.to_nat (streams (snd_conf vsnd))) eqn:E; [lia|].
    eapply realize_streams_channels. exact H. }
  apply realize_streams_Realized in H as ((Hconf & _) & Hnew & _); [|lia].
  rewrite Hc0 in Hconf.
  unfold device_ok. rewrite Hlp, Hls, Hp0, Hs0, !length_replicate, Hconf.
  split; [lia|]. split; [reflexivity|]. split; [reflexivity|].
  intros i Hi. destruct (Hnew i) as (_ & Hp & stream & Hs & _); [lia|].
  split; [|by exists stream].
  exists default_stored. split; [exact Hp|]. by apply default_stored_valid.
Qed.

End RealizeOk.

(** ** PREPARE on checked parameters *)

Section PrepareValid.
Context {abi : virtio_snd_abi} {host : glib_host}.

Lemma get_qemu_format_supported (f : Z) :
  f ∈ supported_format_codes → ∃ a, virtio_snd_get_qemu_format f = Done a.
Proof.
  intros H. unfold virtio_snd_get_qemu_format.
  repeat (case_bool_decide; [by eexists|]).
  exfalso. apply list_elem_of_In in H. simpl in H. intuition congruence.
Qed.

Lemma get_qemu_freq_supported (r : Z) :
  r ∈ supported_rate_codes → ∃ f, virtio_snd_get_qemu_freq r = Done f.
Proof.
  intros H. unfold virtio_snd_get_qemu_freq.
  repeat (case_bool_decide; [by eexists|]).
  exfalso. apply list_elem_of_In in H. simpl in H. intuition congruence.
Qed.

Lemma get_qemu_audsettings_valid (p : VirtIOSoundPCMParams) :
  params_valid p →
  ∃ as_, virtio_snd_get_qemu_audsettings p = Done as_
         ∧ nchannels as_ = channels p.
Proof.
  intros (Hch & Hf & Hr). unfold virtio_snd_get_qemu_audsettings.
  destruct (get_qemu_format_supported _ Hf) as [a ->].
  destruct (get_qemu_freq_supported _ Hr) as [f ->]. simpl.
  eexists. split; [reflexivity|]. cbn [nchannels]. apply Z.min_r. lia.
Qed.

(** PREPARE on a slot that holds checked parameters builds the Stream. *)
Lemma prepare_impl_valid (s : VirtIOSound) (i : Z) (p : VirtIOSoundPCMParams) :
  0 ≤ i < streams (snd_conf s) →
  params_table s !! Z.to_nat i = Some (Some p) →
  (Z.to_nat i < length (streams_table s))%nat →
  params_valid p →
  ∃ stream,
    virtio_snd_pcm_prepare_impl s i
    = Done (VIRTIO_SND_S_OK, store_stream s i (Some stream))
    ∧ st_id stream = i
    ∧ st_buffer_bytes stream = buffer_bytes p
    ∧ st_period_bytes stream = period_bytes p
    ∧ st_channels_min stream = 1
    ∧ st_channels_max stream = u8 (channels p)
    ∧ st_formats stream = supported_formats
    ∧ st_rates stream = supported_rates
    ∧ st_direction stream
      = (if bool_decide (i < streams (snd_conf s) `div` 2
                             + Z.land (streams (snd_conf s)) 1)
         then VIRTIO_SND_D_OUTPUT else VIRTIO_SND_D_INPUT).
Proof.
  intros Hi Hpar Hlen Hv.
  destruct (lookup_lt_is_Some_2 _ _ Hlen) as [old Hold].
  destruct (params_table_lookup_pcm _ _ _ Hpar) as (pc & pa & Hp & Hpa & Hlook).
  destruct (streams_table_lookup_pcm _ _ _ Hold) as (p' & sa & Hp' & Hsa & Hlook').
  rewrite Hp in Hp'. injection Hp' as <-.
  destruct (get_qemu_audsettings_valid p Hv) as (as_ & Has & Hn).
  unfold virtio_snd_pcm_prepare_impl. rewrite Hp. simpl. rewrite Hsa, Hpa.
  rewrite (proj2 (array_get_Done pa i _) (conj (proj1 Hi) Hlook)). simpl.
  rewrite (get_params_table s i _ Hi Hpar). simpl.
  rewrite Has. simpl.
  rewrite (proj2 (array_get_Done sa i _) (conj (proj1 Hi) Hlook')). simpl.
  eexists. split; [reflexivity|]. simpl. rewrite Hn. done.
Qed.

Lemma array_get_beyond {A : Type} (a : list A) (i : Z) :
  Z.of_nat (length a) ≤ i → array_get a i = Fault OutOfBounds.
Proof.
  intros Hi. unfold array_get. case_bool_decide; [|reflexivity].
  rewrite lookup_ge_None_2 by lia. reflexivity.
Qed.

(** PREPARE indexes [pcm_params] before any comparison with the configured
    count: an id that is no index of the table is read out of bounds. *)
Lemma prepare_impl_beyond (s : VirtIOSound) (i : Z) :
  (0 < length (streams_table s))%nat →
  (0 < length (params_table s))%nat →
  Z.of_nat (length (params_table s)) ≤ i →
  virtio_snd_pcm_prepare_impl s i = Fault OutOfBounds.
Proof.
  intros Hs Hp Hi.
  destruct (lookup_lt_is_Some_2 _ _ Hp) as [x Hx].
  destruct (lookup_lt_is_Some_2 _ _ Hs) as [y Hy].
  destruct (params_table_lookup_pcm _ _ _ Hx) as (pc & pa & Hpc & Hpa & _).
  destruct (streams_table_lookup_pcm _ _ _ Hy) as (p' & sa & Hp' & Hsa & _).
  rewrite Hpc in Hp'. injection Hp' as <-.
  assert (params_table s = pa) as Htab.
  { unfold params_table. rewrite Hpc. simpl. by rewrite Hpa. }
  rewrite Htab in Hi.
  unfold virtio_snd_pcm_prepare_impl. rewrite Hpc. simpl. rewrite Hsa, Hpa.
  rewrite (array_get_beyond pa i Hi). reflexivity.
Qed.

End PrepareValid.

(** ** Realization, SET_PARAMS and PREPARE *)

Section MoreRealize.
Context {abi : virtio_snd_abi} {host : glib_host}.

(** X1: realization allocates its tables from the configured counts
    before it checks them.  When the host provides the tables, realization
    returns, and it succeeds exactly when there are at most 8 jacks,
    between 1 and 10 streams and at most [VIRTIO_SND_CHMAP_MAX_SIZE]
    channel maps, reporting an error otherwise; when the host does not
    provide them, [g_new0] aborts the process, whether or not the counts
    are in range. *)
Theorem realize_iff_config_in_range (vsnd : VirtIOSound) :
  abi_supports_defaults →
  (tables_allocate (snd_conf vsnd) →
     ∃ r, virtio_snd_realize vsnd = Done r
          ∧ ((∃ s', r = Realized s')
             ↔ jacks (snd_conf vsnd) ≤ 8
               ∧ 1 ≤ streams (snd_conf vsnd) ≤ 10
               ∧ chmaps (snd_conf vsnd) ≤ VIRTIO_SND_CHMAP_MAX_SIZE))
  ∧ (¬ tables_allocate (snd_conf vsnd) →
     virtio_snd_realize vsnd = Fault AllocationFailed).
Proof.
  intros Habi. split.
  - intros Hmem.
    destruct (set_pcm_allocates (with_pcm None vsnd) Hmem) as [v Hv].
    destruct (set_pcm_Done _ _ Hv) as ((Hconf & _) & Hp0 & Hs0).
    simpl in Hconf, Hp0, Hs0.
    destruct (decide (jacks (snd_conf vsnd) ≤ 8
                      ∧ 1 ≤ streams (snd_conf vsnd) ≤ 10
                      ∧ chmaps (snd_conf vsnd) ≤ VIRTIO_SND_CHMAP_MAX_SIZE))
      as [Hin|Hout].
    + destruct Hin as (Hj & Hk & Hc).
      rewrite (realize_in_range_loop vsnd v Hv) by assumption.
      destruct (realize_streams_succeeds (Z.to_nat (streams (snd_conf vsnd))) Habi 0
                  (with_cmdq [] (with_ctrl_vq virtio_add_queue v))) as [s' Hs'].
      * lia.
      * cbn [snd_conf with_cmdq with_ctrl_vq]. rewrite Hconf. lia.
      * change (params_table (with_cmdq [] (with_ctrl_vq virtio_add_queue v)))
          with (params_table v). rewrite Hp0, length_replicate. lia.
      * change (streams_table (with_cmdq [] (with_ctrl_vq virtio_add_queue v)))
          with (streams_table v). rewrite Hs0, length_replicate. lia.
      * rewrite Hs'. eexists. split; [reflexivity|]. split; [done|by eauto].
    + unfold virtio_snd_realize, virtio_snd_common_realize.
      rewrite Hv. cbn [mbind outcome_bind]. rewrite Hconf.
      repeat (case_bool_decide;
              [eexists; split; [reflexivity|];
               split; [intros [? [=]]|intros ?; exfalso; lia]|]).
      exfalso. lia.
  - intros Hno. unfold virtio_snd_realize, virtio_snd_common_realize.
    rewrite (set_pcm_fails (with_pcm None vsnd)) by exact Hno. reflexivity.
Qed.

End MoreRealize.

Section MoreSetParams.
Context {abi : virtio_snd_abi} {host : glib_host}.

(** X2: a SET_PARAMS that is answered OK stores exactly the six values of the
    request at its stream id, where [virtio_snd_pcm_get_params] finds them;
    the parameters of every other id, the stream table, the configuration
    and the queues are as before. *)
Theorem set_params_then_get_params (s s' : VirtIOSound)
    (params : virtio_snd_pcm_set_params) :
  virtio_snd_pcm_set_params_impl s params = Done (VIRTIO_SND_S_OK, s') →
  virtio_snd_pcm_get_params s' (sp_stream_id params)
  = Done (Some {| features := sp_features params;
                  buffer_bytes := sp_buffer_bytes params;
                  period_bytes := sp_period_bytes params;
                  channels := sp_channels params;
                  format := sp_format params;
                  rate := sp_rate params |})
  ∧ (∀ j, j ≠ Z.to_nat (sp_stream_id params) →
       params_table s' !! j = params_table s !! j)
  ∧ streams_table s' = streams_table s
  ∧ same_queues s s'.
Proof.
  intros H.
  apply set_params_impl_Done in H as (Hq & Hs & [[? _]|H]); [discriminate|].
  destruct H as (old & new & _ & Hid & Hold & Hnew & Hf & Hb & Hp & Hok & _).
  destruct (Hok eq_refl) as (Hc & Hfm & Hr).
  split; [|split; [|split; [exact Hs|exact Hq]]].
  - apply get_params_table; [destruct Hq as [-> _]; exact Hid|].
    rewrite Hnew, list_lookup_insert_eq by (by eapply lookup_lt_Some).
    destruct new. simpl in *. by subst.
  - intros j Hj. rewrite Hnew. by apply list_lookup_insert_ne.
Qed.

(** X3: for format and rate codes below 64, the width of the one that the
    mask test shifts (X8 is about the codes from 64 on), the checks of
    SET_PARAMS are sound for the conversion that PREPARE runs on the stored
    values: a request with such codes that is answered OK has between 1 and
    [AUDIO_MAX_CHANNELS] channels, one of the seven supported format codes
    and one of the fourteen supported rate codes, so that
    [virtio_snd_get_qemu_format] and [virtio_snd_get_qemu_freq] return for
    them and do not reach their [g_assert_not_reached]. *)
Theorem set_params_ok_is_convertible (s s' : VirtIOSound)
    (params : virtio_snd_pcm_set_params) :
  0 ≤ sp_format params < 64 →
  0 ≤ sp_rate params < 64 →
  virtio_snd_pcm_set_params_impl s params = Done (VIRTIO_SND_S_OK, s') →
  1 ≤ sp_channels params ≤ AUDIO_MAX_CHANNELS
  ∧ sp_format params ∈ supported_format_codes
  ∧ sp_rate params ∈ supported_rate_codes
  ∧ (∃ f, virtio_snd_get_qemu_format (sp_format params) = Done f)
  ∧ (∃ r, virtio_snd_get_qemu_freq (sp_rate params) = Done r).
Proof.
  intros _ _ H.
  apply set_params_impl_stored in H as (? & ? & _ & _ & _ & _ & _ & Hok); [|done].
  destruct (Hok eq_refl) as (Hc & Hf & Hr).
  split; [exact Hc|]. split; [exact Hf|]. split; [exact Hr|].
  split; [by apply get_qemu_format_supported|by apply get_qemu_freq_supported].
Qed.

(** X4: a SET_PARAMS with format and rate codes below 64 (the width of
    the one that the mask test shifts; X8 is about the codes from 64 on)
    that is answered OK, followed by PREPARE for the same id, on a device
    whose stream table has a slot for the id: PREPARE is answered OK and the
    Stream it stores carries the request's buffer and period sizes, between
    1 and the requested number of channels, and the device's format and
    rate masks; the stored parameters stay. *)
Theorem prepare_after_set_params (s s1 : VirtIOSound)
    (params : virtio_snd_pcm_set_params) :
  0 ≤ sp_format params < 64 →
  0 ≤ sp_rate params < 64 →
  virtio_snd_pcm_set_params_impl s params = Done (VIRTIO_SND_S_OK, s1) →
  (Z.to_nat (sp_stream_id params) < length (streams_table s))%nat →
  ∃ s2 stream,
    virtio_snd_pcm_prepare_impl s1 (sp_stream_id params) = Done (VIRTIO_SND_S_OK, s2)
    ∧ virtio_snd_pcm_get_stream s2 (sp_stream_id params) = Done (Some stream)
    ∧ st_id stream = sp_stream_id params
    ∧ st_buffer_bytes stream = sp_buffer_bytes params
    ∧ st_period_bytes stream = sp_period_bytes params
    ∧ st_channels_min stream = 1
    ∧ st_channels_max stream = u8 (sp_channels params)
    ∧ st_formats stream = supported_formats
    ∧ st_rates stream = supported_rates
    ∧ params_table s2 = params_table s1.
Proof.
  intros _ _ H Hlen.
  destruct (set_params_impl_stored _ _ _ _ H) as (? & ? & _ & _ & _ & _ & _ & Hok); [done|].
  destruct (Hok eq_refl) as (Hc & Hf & Hr). clear Hok.
  apply set_params_impl_Done in H as ((Hconf & _) & Hs & [[? _]|H]); [discriminate|].
  destruct H as (old & new & _ & Hid & Hold & Hnew & Hfe & Hb & Hp & Hok & _).
  destruct (Hok eq_refl) as (Hc' & Hfm' & Hr').
  destruct (prepare_impl_valid s1 (sp_stream_id params) new)
    as (stream & Hprep & Hsid & Hsb & Hsp & Hmin & Hmax & Hfs & Hrs & _).
  { rewrite Hconf. exact Hid. }
  { rewrite Hnew. apply list_lookup_insert_eq. by eapply lookup_lt_Some. }
  { rewrite Hs. exact Hlen. }
  { unfold params_valid. rewrite Hc', Hfm', Hr'. done. }
  destruct (store_stream_tables s1 (sp_stream_id params) (Some stream))
    as (Hst & Hpt & (Hconf2 & _)).
  eexists _, stream. split; [exact Hprep|].
  split.
  { apply get_stream_table; [rewrite Hconf2, Hconf; exact Hid|].
    rewrite Hst. apply list_lookup_insert_eq. rewrite Hs. exact Hlen. }
  rewrite Hsb, Hsp, Hmax, Hb, Hp, Hc'. done.
Qed.

(** X5: PREPARE is idempotent: repeating a PREPARE that was answered OK is
    answered OK again and leaves the device exactly as the first one did. *)
Theorem prepare_idempotent (s s1 : VirtIOSound) (stream_id : Z) :
  virtio_snd_pcm_prepare_impl s stream_id = Done (VIRTIO_SND_S_OK, s1) →
  virtio_snd_pcm_prepare_impl s1 stream_id = Done (VIRTIO_SND_S_OK, s1).
Proof.
  unfold virtio_snd_pcm_prepare_impl. intros H.
  apply bind_Done in H as (p & Hp & H). apply deref_Done in Hp.
  destruct (pcm_streams p) as [str|] eqn:Hstr; [|discriminate].
  destruct (pcm_params p) as [par|] eqn:Hpar; [|discriminate].
  apply bind_Done in H as (slot & Hslot & H).
  destruct slot as [slot|]; [|discriminate].
  apply bind_Done in H as (params & Hget & H).
  destruct params as [params|]; [|discriminate].
  apply bind_Done in H as (as_ & Has & H).
  apply bind_Done in H as (old & Hold & H).
  injection H as <-.
  apply array_get_Done in Hold as [Hi Hold].
  assert (virtio_snd_pcm_get_params
            (store_stream s stream_id
               (Some {| st_hda_fn_nid := VIRTIO_SOUND_HDA_FN_NID;
                        st_id := stream_id;
                        st_buffer_bytes := buffer_bytes params;
                        st_period_bytes := period_bytes params;
                        st_positions := default_positions;
                        st_features := 0;
                        st_formats := supported_formats;
                        st_rates := supported_rates;
                        st_direction :=
                          if bool_decide (stream_id < streams (snd_conf s) `div` 2
                                                      + Z.land (streams (snd_conf s)) 1)
                          then VIRTIO_SND_D_OUTPUT else VIRTIO_SND_D_INPUT;
                        st_channels_min := 1;
                        st_channels_max := u8 (nchannels as_);
                        st_flushing := false;
                        st_as := as_;
                        st_desired_as := as_ |})) stream_id
          = Done (Some params)) as Hget'.
  { match goal with |- virtio_snd_pcm_get_params (store_stream _ _ ?v) _ = _ =>
      destruct (store_stream_tables s stream_id v) as (_ & Hpt & (Hc & _)) end.
    apply get_params_Done in Hget as [[_ ?]|[Hlt Hget]]; [discriminate|].
    apply get_params_table; [rewrite Hc; exact Hlt|]. rewrite Hpt. exact Hget. }
  revert Hget'. unfold store_stream. rewrite Hp. simpl. rewrite Hstr, Hpar. simpl.
  intros Hget'. rewrite Hslot. simpl. rewrite Hget'. simpl. rewrite Has. simpl.
  rewrite (proj2 (array_get_Done (<[Z.to_nat stream_id := _]> str) stream_id _)
             (conj Hi (list_lookup_insert_eq _ _ _ (lookup_lt_Some _ _ _ Hold)))).
  simpl. rewrite list_insert_insert_eq. destruct s, p. simpl in *. subst. reflexivity.
Qed.

End MoreSetParams.

(** ** The realized device under control traffic *)

Section OkDevice.
Context {abi : virtio_snd_abi} {host : glib_host}.

Lemma device_ok_slot (s : VirtIOSound) (i : Z) :
  device_ok s → 0 ≤ i < streams (snd_conf s) →
  ∃ p stream,
    params_table s !! Z.to_nat i = Some (Some p) ∧ params_valid p
    ∧ streams_table s !! Z.to_nat i = Some (Some stream).
Proof.
  intros (_ & _ & _ & Hok) Hi. destruct (Hok i Hi) as [(p & Hp & Hv) (stream & Hs)].
  by exists p, stream.
Qed.

(** X6: on a device in the state realization leaves, PREPARE for a
    configured stream id always succeeds and keeps that state; for any
    other id it is not answered BAD_MSG: [pcm_params] is indexed with the
    id before the id is compared with anything, one or more slots behind
    the end of the array. *)
Theorem prepare_on_ok_device (s : VirtIOSound) (stream_id : Z) :
  device_ok s →
  0 ≤ stream_id →
  (stream_id < streams (snd_conf s) →
     ∃ s', virtio_snd_pcm_prepare_impl s stream_id = Done (VIRTIO_SND_S_OK, s')
           ∧ device_ok s')
  ∧ (streams (snd_conf s) ≤ stream_id →
     virtio_snd_pcm_prepare_impl s stream_id = Fault OutOfBounds).
Proof.
  intros Hok Hi. split; intros Hlt.
  - destruct (device_ok_slot s stream_id Hok) as (p & stream & Hp & Hv & Hs); [lia|].
    destruct (prepare_impl_valid s stream_id p) as (st & Hprep & _);
      [lia|exact Hp|by eapply lookup_lt_Some|exact Hv|].
    eexists. split; [exact Hprep|]. eapply prepare_impl_ok; eassumption.
  - destruct Hok as (Hone & Hlp & Hls & _).
    apply prepare_impl_beyond; lia.
Qed.

(** X7: on such a device SET_PARAMS for a configured stream id whose
    format and rate codes are below 64 always returns, with OK or NOT_SUPP
    and never BAD_MSG; it is OK exactly when the channel count is between 1
    and [AUDIO_MAX_CHANNELS] and the bits of the format and of the rate are
    set in the supported masks; the device keeps its state invariant
    either way. *)
Theorem set_params_on_ok_device (s : VirtIOSound) (params : virtio_snd_pcm_set_params) :
  device_ok s →
  0 ≤ sp_stream_id params < streams (snd_conf s) →
  0 ≤ sp_format params < 64 →
  0 ≤ sp_rate params < 64 →
  ∃ st s',
    virtio_snd_pcm_set_params_impl s params = Done (st, s')
    ∧ (st = VIRTIO_SND_S_OK ∨ st = VIRTIO_SND_S_NOT_SUPP)
    ∧ (st = VIRTIO_SND_S_OK
       ↔ 1 ≤ sp_channels params ≤ AUDIO_MAX_CHANNELS
         ∧ Z.land supported_formats (BIT (sp_format params)) ≠ 0
         ∧ Z.land supported_rates (BIT (sp_rate params)) ≠ 0)
    ∧ device_ok s'.
Proof.
  intros Hok Hid Hf Hr.
  destruct (device_ok_slot s _ Hok Hid) as (p & stream & Hp & Hv & Hs).
  destruct (params_table_lookup_pcm _ _ _ Hp) as (pc & pa & Hpc & Hpa & Hlook).
  assert (∃ st s',
    virtio_snd_pcm_set_params_impl s params = Done (st, s')
    ∧ (st = VIRTIO_SND_S_OK ∨ st = VIRTIO_SND_S_NOT_SUPP)
    ∧ (st = VIRTIO_SND_S_OK
       ↔ 1 ≤ sp_channels params ≤ AUDIO_MAX_CHANNELS
         ∧ Z.land supported_formats (BIT (sp_format params)) ≠ 0
         ∧ Z.land supported_rates (BIT (sp_rate params)) ≠ 0)) as (st & s' & H & Hst & Hiff).
  { unfold virtio_snd_pcm_set_params_impl.
    rewrite (bool_decide_false (streams (snd_conf s) < sp_stream_id params)) by lia.
    rewrite Hpc. simpl. rewrite Hpa.
    rewrite (proj2 (array_get_Done pa (sp_stream_id params) _) (conj (proj1 Hid) Hlook)).
    simpl. rewrite (get_params_table s _ _ Hid Hp). simpl.
    rewrite (shift_defined_below _ Hf), (shift_defined_below _ Hr). simpl.
    case_bool_decide as Hch.
    { eexists _, _. split; [reflexivity|]. split; [by right|].
      split; [intros [=]|intros (? & _); lia]. }
    case_bool_decide as Hfmt.
    { eexists _, _. split; [reflexivity|]. split; [by right|].
      split; [intros [=]|intros (_ & ? & _); contradiction]. }
    case_bool_decide as Hrate.
    { eexists _, _. split; [reflexivity|]. split; [by right|].
      split; [intros [=]|intros (_ & _ & ?); contradiction]. }
    eexists _, _. split; [reflexivity|]. split; [by left|].
    split; [intros _; split; [lia|done]|done]. }
  exists st, s'. split; [exact H|]. split; [exact Hst|]. split; [exact Hiff|].
  eapply set_params_impl_ok; eassumption.
Qed.

Lemma shift_defined_above (c : Z) : 64 ≤ c → shift_defined c = Fault ShiftCount.
Proof. intros H. unfold shift_defined. by rewrite bool_decide_false by lia. Qed.

(** X8: the format and rate codes travel as bytes and reach the mask test
    unchecked: on such a device a SET_PARAMS for a configured id with a
    valid channel count and a format code of 64 or more shifts a 64-bit one
    by at least its width. *)
Theorem set_params_format_shift_overflow (s : VirtIOSound)
    (params : virtio_snd_pcm_set_params) :
  device_ok s →
  0 ≤ sp_stream_id params < streams (snd_conf s) →
  1 ≤ sp_channels params ≤ AUDIO_MAX_CHANNELS →
  64 ≤ sp_format params →
  virtio_snd_pcm_set_params_impl s params = Fault ShiftCount.
Proof.
  intros Hok Hid Hch Hf.
  destruct (device_ok_slot s _ Hok Hid) as (p & stream & Hp & Hv & Hs).
  destruct (params_table_lookup_pcm _ _ _ Hp) as (pc & pa & Hpc & Hpa & Hlook).
  unfold virtio_snd_pcm_set_params_impl.
  rewrite (bool_decide_false (streams (snd_conf s) < sp_stream_id params)) by lia.
  rewrite Hpc. simpl. rewrite Hpa.
  rewrite (proj2 (array_get_Done pa (sp_stream_id params) _) (conj (proj1 Hid) Hlook)).
  simpl. rewrite (get_params_table s _ _ Hid Hp). simpl.
  rewrite (bool_decide_false (sp_channels params < 1 ∨ _)) by lia.
  rewrite (shift_defined_above _ Hf). reflexivity.
Qed.

(** X10: on a device in the state realization leaves, START, STOP and
    RELEASE with a complete stream header are answered OK exactly for the
    ids below the configured stream count and BAD_MSG for every other id,
    and change nothing. *)
Theorem lifecycle_status_on_ok_device (s : VirtIOSound) (cmd : virtio_snd_ctrl_command)
    (start : bool) :
  device_ok s →
  (sizeof_virtio_snd_pcm_hdr ≤ length (out_sg (elem cmd)))%nat →
  let status :=
    if bool_decide (field (out_sg (elem cmd)) 4 4 < streams (snd_conf s))
    then VIRTIO_SND_S_OK else VIRTIO_SND_S_BAD_MSG in
  virtio_snd_handle_pcm_start_stop s cmd start = Done (with_resp_code status cmd)
  ∧ virtio_snd_handle_pcm_release s cmd = Done (with_resp_code status cmd).
Proof.
  intros Hok Hlen status.
  pose proof (field_range (out_sg (elem cmd)) 4 4) as Hrange.
  set (id := field (out_sg (elem cmd)) 4 4) in *.
  assert (virtio_snd_handle_pcm_release s cmd
          = (stream ← virtio_snd_pcm_get_stream s id;
             Done (with_resp_code
                     (if stream is Some _ then VIRTIO_SND_S_OK else VIRTIO_SND_S_BAD_MSG)
                     cmd))) as Hrel.
  { unfold virtio_snd_handle_pcm_release.
    assert (iov_to_buf (out_sg (elem cmd)) sizeof_virtio_snd_hdr sizeof_uint32_t
            = take 4 (drop 4 (out_sg (elem cmd)))) as -> by reflexivity.
    rewrite bool_decide_false.
    2:{ intros Hne. apply Hne. rewrite length_take, length_drop.
        unfold sizeof_virtio_snd_pcm_hdr, sizeof_uint32_t in *. lia. }
    change (le_decode (take 4 (drop 4 (out_sg (elem cmd))))) with id.
    destruct (virtio_snd_pcm_get_stream s id) as [[x|]|]; reflexivity. }
  rewrite Hrel, start_stop_handler by exact Hlen. fold id.
  subst status. case_bool_decide as Hlt.
  - destruct (device_ok_slot s id Hok) as (p & stream & _ & _ & Hs); [lia|].
    rewrite (get_stream_table s id (Some stream)) by (lia || exact Hs). done.
  - unfold virtio_snd_pcm_get_stream.
    rewrite bool_decide_true by lia. done.
Qed.

End OkDevice.

(** ** Replies *)

Section Replies.
Context {abi : virtio_snd_abi} {host : glib_host}.

Lemma bool_decide_request_code (a b : virtio_snd_request) :
  bool_decide (request_code a = request_code b) = bool_decide (a = b).
Proof.
  apply bool_decide_ext. split; [apply request_code_inj|by intros ->].
Qed.

(** The [switch] of [process_cmd], by request. *)
Lemma dispatch_request (s : VirtIOSound) (cmd : virtio_snd_ctrl_command)
    (r : virtio_snd_request) :
  ctrl_code cmd = request_code r →
  dispatch s cmd
  = match r with
    | VIRTIO_SND_R_JACK_INFO | VIRTIO_SND_R_JACK_REMAP | VIRTIO_SND_R_CHMAP_INFO =>
        Done (with_resp_code VIRTIO_SND_S_NOT_SUPP cmd, s)
    | VIRTIO_SND_R_PCM_INFO =>
        cmd ← virtio_snd_handle_pcm_info s cmd; Done (cmd, s)
    | VIRTIO_SND_R_PCM_SET_PARAMS => virtio_snd_handle_pcm_set_params s cmd
    | VIRTIO_SND_R_PCM_PREPARE => virtio_snd_handle_pcm_prepare s cmd
    | VIRTIO_SND_R_PCM_RELEASE =>
        cmd ← virtio_snd_handle_pcm_release s cmd; Done (cmd, s)
    | VIRTIO_SND_R_PCM_START =>
        cmd ← virtio_snd_handle_pcm_start_stop s cmd true; Done (cmd, s)
    | VIRTIO_SND_R_PCM_STOP =>
        cmd ← virtio_snd_handle_pcm_start_stop s cmd false; Done (cmd, s)
    end.
Proof.
  intros H. unfold dispatch. rewrite H, bool_decide_or, !bool_decide_request_code.
  destruct r; reflexivity.
Qed.

Lemma dispatch_unknown (s : VirtIOSound) (cmd : virtio_snd_ctrl_command) :
  (∀ r, ctrl_code cmd ≠ request_code r) →
  dispatch s cmd = Done (with_resp_code VIRTIO_SND_S_BAD_MSG cmd, s).
Proof.
  intros H. unfold dispatch. rewrite bool_decide_or.
  rewrite !bool_decide_false by apply H. reflexivity.
Qed.

(** A request with a complete header is dispatched on its code and then
    returned with the handler's status. *)
Lemma process_cmd_answered (s : VirtIOSound) (cmd : virtio_snd_ctrl_command) :
  header_complete (elem cmd) →
  process_cmd s cmd
  = ('(cmd', s1) ← dispatch s (with_ctrl_code (field (out_sg (elem cmd)) 0 4) cmd);
     Done (answered s1 (elem cmd') (resp_code cmd'))).
Proof.
  intros H. unfold process_cmd.
  rewrite bool_decide_false; [reflexivity|].
  intros Hne. apply Hne. by apply header_complete_iov.
Qed.

(** X11: a request with a complete header is returned to the guest exactly
    once, with one notification: the element pushed is the request's own
    (same descriptor, same request bytes, same reply length); when the
    reply buffer holds at least four bytes its first four are the status
    of the handler the request code selects, and the bytes behind them are
    those the handler left. *)
Theorem reply_carries_status (s s' : VirtIOSound) (cmd : virtio_snd_ctrl_command) :
  header_complete (elem cmd) →
  process_cmd s cmd = Done s' →
  ∃ cmd' s1 e,
    dispatch s (with_ctrl_code (field (out_sg (elem cmd)) 0 4) cmd) = Done (cmd', s1)
    ∧ vq_used (ctrl_vq s') = vq_used (ctrl_vq s) ++ [(e, sizeof_pointer)]
    ∧ vq_notified (ctrl_vq s') = S (vq_notified (ctrl_vq s))
    ∧ same_request (elem cmd) e
    ∧ drop 4 (in_sg e) = drop 4 (in_sg (elem cmd'))
    ∧ ((4 ≤ length (in_sg (elem cmd)))%nat →
       field (in_sg e) 0 4 = status_code (resp_code cmd') mod 2 ^ 32).
Proof.
  intros Hc H. rewrite process_cmd_answered in H by exact Hc.
  apply bind_Done in H as ([cmd' s1] & Hd & H). injection H as <-.
  destruct (dispatch_frame _ _ _ _ Hd) as ((_ & Hvq & _) & Hi & Ho & Hl).
  simpl in Hi, Ho, Hl.
  eexists cmd', s1, _. split; [exact Hd|].
  unfold answered.
  cbn [ctrl_vq with_ctrl_vq virtio_notify virtqueue_push vq_used vq_notified].
  rewrite Hvq.
  split; [reflexivity|]. split; [reflexivity|].
  unfold same_request. cbn [with_in_sg index out_sg in_sg].
  split; [split; [exact Hi|]; split; [exact Ho|];
          by rewrite iov_from_buf_length|].
  rewrite <- Hl.
  unfold iov_from_buf. rewrite take_0, app_nil_l, le_encode_length, Nat.sub_0_r.
  split.
  - destruct (decide (4 ≤ length (in_sg (elem cmd')))%nat) as [Hge|Hlt].
    + rewrite take_ge by (rewrite le_encode_length; lia).
      rewrite drop_app_length'; [reflexivity|by rewrite le_encode_length].
    + transitivity (@nil byte); [apply drop_ge|symmetry; apply drop_ge];
        rewrite ?length_app, ?length_take, ?length_drop, ?le_encode_length; lia.
  - intros Hge. rewrite take_ge by (rewrite le_encode_length; lia).
    unfold field. rewrite drop_0, take_app_length'; [|by rewrite le_encode_length].
    apply le_decode_encode.
Qed.

(** X12: with a complete header, the three requests the device does not
    implement (JACK_INFO, JACK_REMAP, CHMAP_INFO) are answered NOT_SUPP and
    a code that is none of the nine request codes is answered BAD_MSG; in
    both cases nothing but the reply changes. *)
Theorem unsupported_and_unknown_requests (s : VirtIOSound)
    (cmd : virtio_snd_ctrl_command) :
  header_complete (elem cmd) →
  (∀ r, r ∈ [VIRTIO_SND_R_JACK_INFO; VIRTIO_SND_R_JACK_REMAP; VIRTIO_SND_R_CHMAP_INFO] →
        field (out_sg (elem cmd)) 0 4 = request_code r →
        process_cmd s cmd = Done (answered s (elem cmd) VIRTIO_SND_S_NOT_SUPP))
  ∧ ((∀ r, field (out_sg (elem cmd)) 0 4 ≠ request_code r) →
     process_cmd s cmd = Done (answered s (elem cmd) VIRTIO_SND_S_BAD_MSG)).
Proof.
  intros Hc. split.
  - intros r Hr Hcode. rewrite process_cmd_answered by exact Hc.
    rewrite (dispatch_request _ _ r) by exact Hcode.
    apply list_elem_of_In in Hr. simpl in Hr.
    destruct Hr as [<-|[<-|[<-|[]]]]; reflexivity.
  - intros Hnone. rewrite process_cmd_answered by exact Hc.
    rewrite dispatch_unknown by exact Hnone. reflexivity.
Qed.

(** X13: a PCM request whose header is complete but whose bytes end before
    the structure its handler reads (16 bytes for PCM_INFO, 24 for
    SET_PARAMS, 8 for PREPARE, RELEASE, START and STOP) is answered BAD_MSG
    and changes nothing else. *)
Theorem truncated_request_bad_msg (s : VirtIOSound) (cmd : virtio_snd_ctrl_command)
    (r : virtio_snd_request) :
  header_complete (elem cmd) →
  field (out_sg (elem cmd)) 0 4 = request_code r →
  (length (out_sg (elem cmd)) < request_size r)%nat →
  process_cmd s cmd = Done (answered s (elem cmd) VIRTIO_SND_S_BAD_MSG).
Proof.
  intros Hc Hcode Hshort. rewrite process_cmd_answered by exact Hc.
  rewrite (dispatch_request _ _ r) by exact Hcode.
  unfold header_complete in Hc.
  destruct r; simpl in Hshort;
    unfold sizeof_virtio_snd_hdr, sizeof_virtio_snd_query_info,
      sizeof_virtio_snd_pcm_set_params, sizeof_virtio_snd_pcm_hdr,
      sizeof_uint32_t in *; try lia.
  - unfold virtio_snd_handle_pcm_info.
    rewrite bool_decide_true; [reflexivity|].
    unfold iov_to_buf, sizeof_virtio_snd_query_info.
    rewrite length_take, length_drop. cbn [elem with_ctrl_code]. lia.
  - unfold virtio_snd_handle_pcm_set_params.
    rewrite bool_decide_true; [reflexivity|].
    unfold iov_to_buf, sizeof_virtio_snd_pcm_set_params.
    rewrite length_take, length_drop. cbn [elem with_ctrl_code]. lia.
  - unfold virtio_snd_handle_pcm_prepare.
    rewrite bool_decide_false; [reflexivity|].
    unfold iov_to_buf, sizeof_virtio_snd_hdr, sizeof_uint32_t.
    rewrite length_take, length_drop. cbn [elem with_ctrl_code]. lia.
  - unfold virtio_snd_handle_pcm_release.
    rewrite bool_decide_true; [reflexivity|].
    unfold iov_to_buf, sizeof_virtio_snd_hdr, sizeof_uint32_t.
    rewrite length_take, length_drop. cbn [elem with_ctrl_code]. lia.
  - unfold virtio_snd_handle_pcm_start_stop.
    rewrite bool_decide_true; [reflexivity|].
    unfold iov_to_buf, sizeof_virtio_snd_pcm_hdr.
    rewrite length_take, length_drop. cbn [elem with_ctrl_code]. lia.
  - unfold virtio_snd_handle_pcm_start_stop.
    rewrite bool_decide_true; [reflexivity|].
    unfold iov_to_buf, sizeof_virtio_snd_pcm_hdr.
    rewrite length_take, length_drop. cbn [elem with_ctrl_code]. lia.
Qed.

End Replies.

Section QueueEdges.
Context {abi : virtio_snd_abi} {host : glib_host}.

(** X14: a notification for a control queue that is not ready does
    nothing, and one that arrives while the command queue is being drained
    only moves the available requests behind the pending ones, in order:
    nothing is dispatched, returned or notified, and the tables stay. *)
Theorem busy_or_unready_queue_answers_nothing (s : VirtIOSound) :
  (vq_ready (ctrl_vq s) = false → virtio_snd_handle_ctrl s = Done s)
  ∧ (vq_ready (ctrl_vq s) = true → processing_cmdq s = true →
     ∃ s', virtio_snd_handle_ctrl s = Done s'
           ∧ elem <$> cmdq s' = (elem <$> cmdq s) ++ vq_avail (ctrl_vq s)
           ∧ vq_avail (ctrl_vq s') = []
           ∧ vq_used (ctrl_vq s') = vq_used (ctrl_vq s)
           ∧ vq_notified (ctrl_vq s') = vq_notified (ctrl_vq s)
           ∧ pcm s' = pcm s ∧ snd_conf s' = snd_conf s
           ∧ processing_cmdq s' = true).
Proof.
  unfold virtio_snd_handle_ctrl, virtio_snd_process_cmdq. split.
  - intros ->. reflexivity.
  - intros -> Hbusy. simpl. rewrite Hbusy.
    eexists. split; [reflexivity|]. simpl. rewrite pop_all_app. done.
Qed.

Lemma reset_loop_empties (q : list virtio_snd_ctrl_command) :
  ∀ s, reset_loop q (with_cmdq q s) = with_cmdq [] s.
Proof.
  induction q as [|c rest IH]; intros s; simpl; [reflexivity|].
  apply (IH s).
Qed.

(** X15: reset frees the pending requests without answering any of them
    and touches nothing else: the command queue is empty afterwards, the
    used ring and the notification count are as before, and the stored
    parameters and Streams survive the reset. *)
Theorem reset_discards_pending (s : VirtIOSound) :
  cmdq (virtio_snd_reset s) = []
  ∧ ctrl_vq (virtio_snd_reset s) = ctrl_vq s
  ∧ params_table (virtio_snd_reset s) = params_table s
  ∧ streams_table (virtio_snd_reset s) = streams_table s
  ∧ snd_conf (virtio_snd_reset s) = snd_conf s
  ∧ processing_cmdq (virtio_snd_reset s) = processing_cmdq s.
Proof.
  assert (virtio_snd_reset s = with_cmdq [] s) as ->.
  { unfold virtio_snd_reset. rewrite <- (reset_loop_empties (cmdq s) s).
    f_equal. by destruct s. }
  done.
Qed.

End QueueEdges.

(** ** The first revision *)

Section FirstRevision.
Context {abi : virtio_snd_abi} {host : glib_host}.

Lemma first_realize_streams_Realized (n : nat) :
  ∀ (i : Z) (v s' : VirtIOSound),
    0 ≤ i →
    first_revision.realize_streams n i v = Done (Realized s') →
    same_queues v s'
    ∧ streams_table s' = streams_table v
    ∧ length (params_table s') = length (params_table v)
    ∧ (∀ j, i ≤ j < i + Z.of_nat n →
         params_table s' !! Z.to_nat j = Some (Some default_stored))
    ∧ (∀ j, 0 ≤ j < i →
         params_table s' !! Z.to_nat j = params_table v !! Z.to_nat j).
Proof.
  induction n as [|n IH]; intros i v s' Hi H; simpl in H.
  - inv_outcome. subst s'. split; [apply same_queues_refl|].
    split; [reflexivity|]. split; [reflexivity|]. split; [intros j Hj; lia|done].
  - apply bind_Done in H as ([st1 v1] & Hset & H).
    case_bool_decide as Hst1; [discriminate|]. subst st1.
    apply set_params_impl_Done in Hset as (Hq1 & Hs1 & [[? _]|Hset]); [discriminate|].
    destruct Hset as (old & new & _ & Hid & Hold & Hp1 & Hf & Hb & Hpe & Hok & _).
    destruct (Hok eq_refl) as (Hc & Hfm & Hr). clear Hok.
    assert (new = default_stored) as ->.
    { destruct new. simpl in *. subst. reflexivity. }
    simpl in Hid, Hold, Hp1.
    apply IH in H as (Hq2 & Hs2 & Hl2 & Hnew & Hkeep); [|lia].
    split; [eapply same_queues_trans; eassumption|].
    split; [congruence|].
    split; [by rewrite Hl2, Hp1, length_insert|].
    split.
    + intros j Hj. destruct (decide (j = i)) as [->|Hne].
      * rewrite (Hkeep i) by lia. rewrite Hp1.
        apply list_lookup_insert_eq. by eapply lookup_lt_Some.
      * apply Hnew. lia.
    + intros j Hj. rewrite (Hkeep j) by lia. rewrite Hp1.
      apply list_lookup_insert_ne. lia.
Qed.

(** The state the loop of a successful realization starts from. *)
Lemma first_realize_start (vsnd s' : VirtIOSound) :
  first_revision.virtio_snd_realize vsnd = Done (Realized s') →
  ∃ v0, 1 ≤ streams (snd_conf vsnd) ≤ 10
        ∧ snd_conf v0 = snd_conf vsnd
        ∧ params_table v0 = replicate (Z.to_nat (streams (snd_conf vsnd))) None
        ∧ streams_table v0 = replicate (Z.to_nat (streams (snd_conf vsnd))) None
        ∧ first_revision.realize_streams (Z.to_nat (streams (snd_conf vsnd))) 0 v0
          = Done (Realized s').
Proof.
  intros H.
  unfold first_revision.virtio_snd_realize, first_revision.virtio_snd_common_realize in H.
  apply bind_Done in H as (v & Hv & H).
  apply set_pcm_Done in Hv as ((Hconf & _) & Hp & Hs). simpl in Hconf, Hp, Hs.
  rewrite Hconf in H.
  case_bool_decide as Hj; [discriminate|].
  case_bool_decide as Hk; [discriminate|].
  case_bool_decide as Hc; [discriminate|].
  cbn [snd_conf with_cmdq with_ctrl_vq] in H. rewrite Hconf in H.
  eexists. split; [lia|]. split; [|split; [|split; [|exact H]]].
  - exact Hconf.
  - exact Hp.
  - exact Hs.
Qed.

(** X16: in the first revision a successful realization stores the default
    parameters (8192 and 4096 bytes, two channels, S16, 44100 Hz) for every
    configured stream id and creates no Stream: every slot of the stream
    table is NULL. *)
Theorem first_revision_realize (vsnd s' : VirtIOSound) :
  first_revision.virtio_snd_realize vsnd = Done (Realized s') →
  snd_conf s' = snd_conf vsnd
  ∧ ∀ i, 0 ≤ i < streams (snd_conf vsnd) →
      virtio_snd_pcm_get_params s' i = Done (Some default_stored)
      ∧ virtio_snd_pcm_get_stream s' i = Done None.
Proof.
  intros H. apply first_realize_start in H as (v0 & Hk & Hc0 & Hp0 & Hs0 & H).
  apply first_realize_streams_Realized in H as ((Hconf & _) & Hs & _ & Hnew & _); [|lia].
  rewrite Hc0 in Hconf. split; [exact Hconf|].
  intros i Hi. split.
  - apply get_params_table; [rewrite Hconf; exact Hi|]. apply Hnew. lia.
  - apply get_stream_table; [rewrite Hconf; exact Hi|].
    rewrite Hs, Hs0. apply lookup_replicate_2. lia.
Qed.

(** X17: in the first revision unrealizing a realized device never
    completes: the loop of [virtio_snd_unrealize] hands the NULL it finds in
    the first slot of the stream table to [virtio_snd_pcm_close], which
    reads [stream->s] through it. *)
Theorem first_revision_unrealize_null (vsnd s' : VirtIOSound) :
  first_revision.virtio_snd_realize vsnd = Done (Realized s') →
  first_revision.virtio_snd_unrealize s' = Fault NullPointer.
Proof.
  intros H. apply first_realize_start in H as (v0 & Hk & Hc0 & Hp0 & Hs0 & H).
  apply first_realize_streams_Realized in H as ((Hconf & _) & Hs & _); [|lia].
  rewrite Hc0 in Hconf.
  assert (streams_table s' !! 0%nat = Some None) as Hslot.
  { rewrite Hs, Hs0. apply lookup_replicate_2. lia. }
  destruct (streams_table_lookup_pcm _ _ _ Hslot) as (p & a & Hp & Ha & Hlook).
  unfold first_revision.virtio_snd_unrealize. rewrite Hconf.
  destruct (Z.to_nat (streams (snd_conf vsnd))) as [|n] eqn:E; [lia|].
  simpl. rewrite Hp. simpl. rewrite Ha. simpl.
  rewrite (proj2 (array_get_Done a 0 None) (conj (Z.le_refl 0) Hlook)).
  reflexivity.
Qed.

End FirstRevision.

Section Revisions.
Context {abi : virtio_snd_abi} {host : glib_host}.

Lemma first_dispatch_request (cmd : virtio_snd_ctrl_command) (r : virtio_snd_request) :
  ctrl_code cmd = request_code r →
  first_revision.dispatch cmd = with_resp_code VIRTIO_SND_S_NOT_SUPP cmd.
Proof.
  intros H. unfold first_revision.dispatch. rewrite H.
  rewrite !bool_decide_or, !bool_decide_request_code.
  destruct r; reflexivity.
Qed.

Lemma first_dispatch_unknown (cmd : virtio_snd_ctrl_command) :
  (∀ r, ctrl_code cmd ≠ request_code r) →
  first_revision.dispatch cmd = with_resp_code VIRTIO_SND_S_BAD_MSG cmd.
Proof.
  intros H. unfold first_revision.dispatch. rewrite !bool_decide_or.
  rewrite !bool_decide_false by apply H. reflexivity.
Qed.

Lemma first_process_cmd_answered (s : VirtIOSound) (cmd : virtio_snd_ctrl_command) :
  header_complete (elem cmd) →
  first_revision.process_cmd s cmd
  = (let cmd' :=
       first_revision.dispatch (with_ctrl_code (field (out_sg (elem cmd)) 0 4) cmd) in
     answered s (elem cmd') (resp_code cmd')).
Proof.
  intros H. unfold first_revision.process_cmd.
  rewrite bool_decide_false; [reflexivity|].
  intros Hne. apply Hne. by apply header_complete_iov.
Qed.

(** Every code is the code of a request or of none. *)
Lemma request_code_cases (code : Z) :
  (∃ r, code = request_code r) ∨ (∀ r, code ≠ request_code r).
Proof.
  destruct (decide (Exists (λ r, code = request_code r)
                      [VIRTIO_SND_R_JACK_INFO; VIRTIO_SND_R_JACK_REMAP;
                       VIRTIO_SND_R_PCM_INFO; VIRTIO_SND_R_PCM_SET_PARAMS;
                       VIRTIO_SND_R_PCM_PREPARE; VIRTIO_SND_R_PCM_RELEASE;
                       VIRTIO_SND_R_PCM_START; VIRTIO_SND_R_PCM_STOP;
                       VIRTIO_SND_R_CHMAP_INFO])) as [He|Hn].
  - left. apply Exists_exists in He as (r & _ & Hr). by exists r.
  - right. intros r Hr. apply Hn. apply Exists_exists. exists r. split; [|exact Hr].
    destruct r; simpl; tauto.
Qed.

(** X18: the first revision answers each of the nine request codes
    NOT_SUPP, the PCM requests included; the second revision differs from
    it only on requests that carry a complete header and one of the six PCM
    codes.  A request with an incomplete header is dropped unanswered by
    both revisions, whatever its bytes decode to, and leaves the device as
    it was; a request with any code other than the six leaves both
    revisions in the same state with the same reply. *)
Theorem revisions_agree_outside_pcm (s : VirtIOSound) (cmd : virtio_snd_ctrl_command) :
  (∀ r, header_complete (elem cmd) →
        field (out_sg (elem cmd)) 0 4 = request_code r →
        first_revision.process_cmd s cmd
        = answered s (elem cmd) VIRTIO_SND_S_NOT_SUPP)
  ∧ (¬ header_complete (elem cmd) →
     process_cmd s cmd = Done s ∧ first_revision.process_cmd s cmd = s)
  ∧ ((∀ r, r ∈ [VIRTIO_SND_R_PCM_INFO; VIRTIO_SND_R_PCM_SET_PARAMS;
               VIRTIO_SND_R_PCM_PREPARE; VIRTIO_SND_R_PCM_RELEASE;
               VIRTIO_SND_R_PCM_START; VIRTIO_SND_R_PCM_STOP] →
           field (out_sg (elem cmd)) 0 4 ≠ request_code r) →
     process_cmd s cmd = Done (first_revision.process_cmd s cmd)).
Proof.
  assert (¬ header_complete (elem cmd) →
          process_cmd s cmd = Done s ∧ first_revision.process_cmd s cmd = s) as Hdrop.
  { intros Hc. split; [by apply process_cmd_short_header|].
    unfold first_revision.process_cmd. rewrite bool_decide_true; [reflexivity|].
    intros Hl. apply Hc. by apply header_complete_iov. }
  split; [|split; [exact Hdrop|]].
  - intros r Hc Hcode. rewrite first_process_cmd_answered by exact Hc.
    rewrite (first_dispatch_request _ r) by exact Hcode. reflexivity.
  - intros Hpcm. destruct (decide (header_complete (elem cmd))) as [Hc|Hc].
    + rewrite process_cmd_answered, first_process_cmd_answered by exact Hc.
      destruct (request_code_cases (field (out_sg (elem cmd)) 0 4)) as [[r Hr]|Hno].
      * rewrite (dispatch_request _ _ r), (first_dispatch_request _ r) by exact Hr.
        destruct r; try reflexivity;
          exfalso; (eapply Hpcm; [|exact Hr]); apply list_elem_of_In; simpl; tauto.
      * rewrite dispatch_unknown, first_dispatch_unknown by exact Hno. reflexivity.
    + destruct (Hdrop Hc) as [-> ->]. reflexivity.
Qed.

End Revisions.

(** ** Traffic within defined behaviour *)

Section DefinedTraffic.
Context {abi : virtio_snd_abi} {host : glib_host}.

Lemma get_stream_returns (s : VirtIOSound) (id : Z) :
  device_ok s → 0 ≤ id → ∃ r, virtio_snd_pcm_get_stream s id = Done r.
Proof.
  intros Hok Hid. destruct (decide (id < streams (snd_conf s))) as [Hlt|Hge].
  - destruct (device_ok_slot s id Hok) as (p & stream & _ & _ & Hs); [lia|].
    exists (Some stream). by apply get_stream_table.
  - exists None. unfold virtio_snd_pcm_get_stream.
    by rewrite bool_decide_true by lia.
Qed.

Lemma set_params_impl_returns (s : VirtIOSound) (params : virtio_snd_pcm_set_params) :
  device_ok s →
  0 ≤ sp_stream_id params →
  sp_stream_id params ≠ streams (snd_conf s) →
  0 ≤ sp_format params < 64 →
  0 ≤ sp_rate params < 64 →
  ∃ st s', virtio_snd_pcm_set_params_impl s params = Done (st, s').
Proof.
  intros Hok Hid Hne Hf Hr.
  destruct (decide (streams (snd_conf s) < sp_stream_id params)) as [Hgt|Hle].
  { rewrite set_params_impl_beyond by exact Hgt. eauto. }
  assert (0 ≤ sp_stream_id params < streams (snd_conf s)) as Hin by lia.
  destruct (device_ok_slot s _ Hok Hin) as (p & stream & Hp & Hv & Hs).
  destruct (params_table_lookup_pcm _ _ _ Hp) as (pc & pa & Hpc & Hpa & Hlook).
  unfold virtio_snd_pcm_set_params_impl.
  rewrite (bool_decide_false (streams (snd_conf s) < sp_stream_id params)) by lia.
  rewrite Hpc. simpl. rewrite Hpa.
  rewrite (proj2 (array_get_Done pa (sp_stream_id params) _) (conj Hid Hlook)).
  simpl. rewrite (get_params_table s _ _ Hin Hp). simpl.
  rewrite (shift_defined_below _ Hf), (shift_defined_below _ Hr). simpl.
  repeat case_bool_decide; eauto.
Qed.

Lemma decode_pcm_set_params_take (out : list byte) :
  decode_pcm_set_params (take sizeof_virtio_snd_pcm_set_params out)
  = decode_pcm_set_params out.
Proof.
  unfold decode_pcm_set_params, sizeof_virtio_snd_pcm_set_params.
  rewrite !field_take by lia. reflexivity.
Qed.

Lemma pcm_info_from_zero_returns (s : VirtIOSound) (cmd : virtio_snd_ctrl_command) :
  table_covers_config s →
  ((sizeof_virtio_snd_query_info ≤ length (out_sg (elem cmd)))%nat →
   start_id (decode_query_info (out_sg (elem cmd))) = 0
   ∧ allocates (Z.of_nat sizeof_virtio_snd_pcm_info)
       (count (decode_query_info (out_sg (elem cmd))))) →
  ∃ cmd', virtio_snd_handle_pcm_info s cmd = Done cmd'.
Proof.
  intros Hcov Hreq.
  destruct (decide (sizeof_virtio_snd_query_info ≤ length (out_sg (elem cmd)))%nat)
    as [Hlong|Hshort].
  - destruct (Hreq Hlong) as [Hstart Hmem].
    rewrite (pcm_info_long_request s cmd Hlong).
    set (req := decode_query_info (out_sg (elem cmd))) in *.
    assert (0 ≤ count req < 2 ^ 32) as Hc
      by apply (field_range (out_sg (elem cmd)) _ 4).
    case_bool_decide; [eauto|].
    rewrite Hstart. unfold u32. rewrite Z.add_0_l, Z.sub_0_r, Z.mod_small by lia.
    destruct (g_new0_allocates zero_pcm_info _ _ Hmem) as [a Ha]. rewrite Ha.
    apply g_new0_Done in Ha as [Ha _]. cbn [mbind outcome_bind]. rewrite Ha.
    destruct (pcm_info_loop_total s req (Z.to_nat (count req)) Hcov Hstart 0
                (replicate (Z.to_nat (count req)) zero_pcm_info)) as [r Hr].
    { lia. }
    { rewrite length_replicate. lia. }
    rewrite Hr. simpl. destruct r; eauto.
  - unfold virtio_snd_handle_pcm_info.
    rewrite bool_decide_true; [eauto|].
    unfold iov_to_buf. rewrite drop_0, length_take. lia.
Qed.

Lemma device_ok_covers (s : VirtIOSound) : device_ok s → table_covers_config s.
Proof. intros (Hone & _ & Hls & _). unfold table_covers_config. lia. Qed.

(** The [switch] returns on every request within defined behaviour. *)
Lemma dispatch_defined (s : VirtIOSound) (cmd : virtio_snd_ctrl_command) :
  device_ok s →
  request_defined (streams (snd_conf s)) (elem cmd) →
  ctrl_code cmd = field (out_sg (elem cmd)) 0 4 →
  ∃ cmd' s', dispatch s cmd = Done (cmd', s').
Proof.
  intros Hok (Hset & Hprep & Hinfo) Hcode.
  destruct (request_code_cases (ctrl_code cmd)) as [[r Hr]|Hno].
  2:{ rewrite dispatch_unknown by exact Hno. eauto. }
  rewrite (dispatch_request s cmd r Hr). rewrite Hcode in Hr.
  destruct r; eauto.
  - destruct (pcm_info_from_zero_returns s cmd (device_ok_covers s Hok)) as [c ->].
    { intros Hlong. apply (Hinfo Hlong Hr). }
    simpl. eauto.
  - unfold virtio_snd_handle_pcm_set_params.
    case_bool_decide as Hlen; [eauto|].
    assert (sizeof_virtio_snd_pcm_set_params ≤ length (out_sg (elem cmd)))%nat as Hlong.
    { unfold iov_to_buf in Hlen. rewrite drop_0, length_take in Hlen. lia. }
    destruct (Hset Hlong Hr) as (Hid & Hf & Hrt).
    unfold iov_to_buf. rewrite drop_0, decode_pcm_set_params_take.
    destruct (set_params_impl_returns s (decode_pcm_set_params (out_sg (elem cmd))) Hok)
      as (st & s' & ->); simpl;
      try apply (field_range (out_sg (elem cmd)));
      [lia| | |eauto].
    + split; [apply (field_range (out_sg (elem cmd)))|exact Hf].
    + split; [apply (field_range (out_sg (elem cmd)))|exact Hrt].
  - unfold virtio_snd_handle_pcm_prepare.
    case_bool_decide as Hlen; [|eauto].
    assert (sizeof_virtio_snd_pcm_hdr ≤ length (out_sg (elem cmd)))%nat as Hlong.
    { unfold iov_to_buf in Hlen. rewrite length_take, length_drop in Hlen.
      unfold sizeof_virtio_snd_hdr, sizeof_uint32_t, sizeof_virtio_snd_pcm_hdr in *. lia. }
    pose proof (Hprep Hlong Hr) as Hid.
    change (le_decode (iov_to_buf (out_sg (elem cmd)) sizeof_virtio_snd_hdr
                         sizeof_uint32_t))
      with (field (out_sg (elem cmd)) 4 4).
    pose proof (field_range (out_sg (elem cmd)) 4 4) as Hrange.
    destruct (device_ok_slot s (field (out_sg (elem cmd)) 4 4) Hok)
      as (p & stream & Hp & Hv & Hs); [lia|].
    destruct (prepare_impl_valid s (field (out_sg (elem cmd)) 4 4) p)
      as (st & -> & _); [lia|exact Hp|by eapply lookup_lt_Some|exact Hv|].
    simpl. eauto.
  - unfold virtio_snd_handle_pcm_release.
    case_bool_decide; [simpl; eauto|].
    destruct (get_stream_returns s
                (le_decode (iov_to_buf (out_sg (elem cmd)) sizeof_virtio_snd_hdr
                              sizeof_uint32_t)) Hok) as [r ->].
    { apply (field_range (out_sg (elem cmd)) 4 4). }
    simpl. destruct r; simpl; eauto.
  - unfold virtio_snd_handle_pcm_start_stop.
    case_bool_decide; [simpl; eauto|].
    destruct (get_stream_returns s
                (field (iov_to_buf (out_sg (elem cmd)) 0 sizeof_virtio_snd_pcm_hdr) 4 4)
                Hok) as [r ->].
    { apply field_range. }
    simpl. destruct r; simpl; eauto.
  - unfold virtio_snd_handle_pcm_start_stop.
    case_bool_decide; [simpl; eauto|].
    destruct (get_stream_returns s
                (field (iov_to_buf (out_sg (elem cmd)) 0 sizeof_virtio_snd_pcm_hdr) 4 4)
                Hok) as [r ->].
    { apply field_range. }
    simpl. destruct r; simpl; eauto.
Qed.

Lemma process_cmd_defined (s : VirtIOSound) (cmd : virtio_snd_ctrl_command) :
  device_ok s →
  request_defined (streams (snd_conf s)) (elem cmd) →
  ∃ s', process_cmd s cmd = Done s'.
Proof.
  intros Hok Hdef.
  destruct (decide (header_complete (elem cmd))) as [Hc|Hc].
  - rewrite process_cmd_answered by exact Hc.
    destruct (dispatch_defined s (with_ctrl_code (field (out_sg (elem cmd)) 0 4) cmd))
      as (cmd' & s' & ->); [exact Hok|exact Hdef|reflexivity|].
    simpl. eauto.
  - rewrite process_cmd_short_header by exact Hc. eauto.
Qed.

Lemma process_cmdq_loop_defined (q : list virtio_snd_ctrl_command) :
  ∀ s, device_ok s →
       Forall (request_defined (streams (snd_conf s))) (elem <$> q) →
       ∃ s', process_cmdq_loop q s = Done s'.
Proof.
  induction q as [|cmd rest IH]; intros s Hok Hall; simpl; [eauto|].
  rewrite fmap_cons in Hall. apply Forall_cons_1 in Hall as [Hcmd Hrest].
  destruct (process_cmd_defined s cmd Hok Hcmd) as [s1 H1]. rewrite H1. simpl.
  pose proof (process_cmd_ok _ _ _ H1 Hok) as Hok1.
  apply process_cmd_Done in H1 as (_ & _ & Hconf & _).
  apply IH.
  - eapply device_ok_queues; [| |exact Hok1]; reflexivity.
  - cbn [snd_conf with_cmdq]. rewrite Hconf. exact Hrest.
Qed.

(** One notification with a batch of such requests returns and leaves the
    device realized and idle. *)
Lemma handle_ctrl_defined (s : VirtIOSound) (batch : list VirtQueueElement) :
  device_ok s → idle s →
  Forall (request_defined (streams (snd_conf s))) batch →
  ∃ s', virtio_snd_handle_ctrl (driver_offers batch s) = Done s'
        ∧ device_ok s' ∧ idle s' ∧ snd_conf s' = snd_conf s.
Proof.
  intros Hok (Hq & Ha & Hp) Hall.
  unfold virtio_snd_handle_ctrl, virtio_snd_process_cmdq, driver_offers.
  cbn [ctrl_vq with_ctrl_vq vq_ready vq_avail vq_used vq_notified negb cmdq
       processing_cmdq with_cmdq].
  rewrite Hq, Ha, Hp. cbn [app].
  match goal with |- context [process_cmdq_loop ?q ?s0] =>
    destruct (process_cmdq_loop_defined q s0) as [s1 H1] end.
  { eapply device_ok_queues; [| |exact Hok]; reflexivity. }
  { rewrite pop_all_app. exact Hall. }
  rewrite H1. cbn [mbind outcome_bind].
  eexists. split; [reflexivity|].
  pose proof (process_cmdq_loop_ok _ _ _ H1) as Hok1.
  apply process_cmdq_loop_Done in H1 as (_ & Hconf & _ & Hav & Hcq & _).
  split; [|split].
  - eapply device_ok_queues; [| |apply Hok1]; try reflexivity.
    eapply device_ok_queues; [| |exact Hok]; reflexivity.
  - unfold idle. cbn [cmdq ctrl_vq processing_cmdq with_processing_cmdq].
    split; [|split; [exact Hav|reflexivity]].
    rewrite Hcq. by destruct (pop_all batch []).
  - exact Hconf.
Qed.

Lemma control_traffic_defined (batches : list (list VirtQueueElement)) :
  ∀ s, device_ok s → idle s →
       Forall (Forall (request_defined (streams (snd_conf s)))) batches →
       ∃ s', control_traffic batches s = Done s'
             ∧ device_ok s' ∧ snd_conf s' = snd_conf s.
Proof.
  induction batches as [|b rest IH]; intros s Hok Hidle Hall; simpl; [eauto|].
  apply Forall_cons_1 in Hall as [Hb Hrest].
  destruct (handle_ctrl_defined s b Hok Hidle Hb) as (s1 & -> & Hok1 & Hidle1 & Hconf1).
  simpl. rewrite <- Hconf1 in Hrest.
  destruct (IH s1 Hok1 Hidle1 Hrest) as (s' & H & Hok' & Hconf').
  exists s'. split; [exact H|]. split; [exact Hok'|]. congruence.
Qed.

(** X9: after a successful realization, control traffic that stays within
    defined behaviour never fails and never damages a stream.  If every
    SET_PARAMS names a configured stream id and format and rate codes
    below 64, every PREPARE names a configured stream id, and every
    PCM_INFO starts at id 0 and asks for a number of records the host
    provides (requests too short to carry these fields, and all other
    requests, are unrestricted), then every notification returns, the
    configured counts stay, and every configured stream id keeps checked
    parameters and a Stream. *)
Theorem realized_device_stays_ok (vsnd s0 : VirtIOSound)
    (batches : list (list VirtQueueElement)) :
  virtio_snd_realize vsnd = Done (Realized s0) →
  processing_cmdq vsnd = false →
  Forall (Forall (request_defined (streams (snd_conf vsnd)))) batches →
  ∃ s, control_traffic batches s0 = Done s
       ∧ snd_conf s = snd_conf vsnd
       ∧ device_ok s
       ∧ ∀ i, 0 ≤ i < streams (snd_conf vsnd) →
           stream_exists s i
           ∧ ∃ p, virtio_snd_pcm_get_params s i = Done (Some p) ∧ params_valid p.
Proof.
  intros Hreal Hflag Hall.
  pose proof (realize_device_ok _ _ Hreal) as Hok0.
  apply realize_Realized in Hreal as (v & Hv & _ & Hk & _ & Hreal).
  apply set_pcm_Done in Hv as ((Hcv & _ & _ & Hfv) & _). simpl in Hcv, Hfv.
  apply realize_streams_Realized in Hreal as ((Hconf0 & Hvq0 & Hq0 & Hf0) & _); [|lia].
  cbn [snd_conf ctrl_vq cmdq processing_cmdq with_cmdq with_ctrl_vq] in Hconf0, Hvq0, Hq0, Hf0.
  assert (snd_conf s0 = snd_conf vsnd) as Hc0 by congruence.
  assert (idle s0) as Hidle.
  { unfold idle. rewrite Hq0, Hvq0, Hf0, Hfv. done. }
  rewrite <- Hc0 in Hall.
  destruct (control_traffic_defined batches s0 Hok0 Hidle Hall) as (s & Hrun & Hok & Hconf).
  assert (snd_conf s = snd_conf vsnd) as Heq by congruence.
  exists s. split; [exact Hrun|]. split; [exact Heq|]. split; [exact Hok|].
  intros i Hi. rewrite <- Heq in Hi.
  destruct (device_ok_slot s i Hok Hi) as (p & stream & Hp & Hv & Hs).
  split; [split; [exact Hi|by exists stream]|].
  exists p. split; [by apply get_params_table|exact Hv].
Qed.

End DefinedTraffic.

(** ** Further runs *)

Section MoreWitnesses.
#[local] Existing Instance virtio_v1_2.
#[local] Existing Instance roomy_host.

Lemma v1_2_supports_defaults : abi_supports_defaults.
Proof. unfold abi_supports_defaults. simpl. lia. Qed.

Lemma realized_2_ok : device_ok (realized 2).
Proof. apply (realize_device_ok (instance (config_of 2))). vm_compute. reflexivity. Qed.

(** X1 at work: two streams are accepted; with 4294967295 streams the
    tables of the count cannot be had from a host that provides a GiB. *)
Lemma realize_iff_config_in_range_witness :
  (∃ r, virtio_snd_realize (instance (config_of 2)) = Done r
        ∧ ((∃ s', r = Realized s')
           ↔ jacks (snd_conf (instance (config_of 2))) ≤ 8
             ∧ 1 ≤ streams (snd_conf (instance (config_of 2))) ≤ 10
             ∧ chmaps (snd_conf (instance (config_of 2))) ≤ VIRTIO_SND_CHMAP_MAX_SIZE))
  ∧ virtio_snd_realize (instance (config_of 4294967295)) = Fault AllocationFailed.
Proof.
  split.
  - apply (realize_iff_config_in_range (instance (config_of 2)) v1_2_supports_defaults).
    split; [right; vm_compute; reflexivity|left; simpl; lia].
  - apply (realize_iff_config_in_range (instance (config_of 4294967295))
             v1_2_supports_defaults).
    intros [[Hs|Hs] _]; [simpl in Hs; lia|vm_compute in Hs; discriminate Hs].
Defined.

(** X2 at work: stream 1 of two is set to mono, unsigned 8 bit, 48 kHz. *)
Lemma set_params_then_get_params_witness :
  ∃ s', virtio_snd_pcm_set_params_impl (realized 2) mono_u8_48k
        = Done (VIRTIO_SND_S_OK, s')
        ∧ virtio_snd_pcm_get_params s' 1
          = Done (Some {| features := 0; buffer_bytes := 16384; period_bytes := 2048;
                          channels := 1; format := VIRTIO_SND_PCM_FMT_U8;
                          rate := VIRTIO_SND_PCM_RATE_48000 |})
        ∧ streams_table s' = streams_table (realized 2).
Proof.
  assert (∃ s', virtio_snd_pcm_set_params_impl (realized 2) mono_u8_48k
                = Done (VIRTIO_SND_S_OK, s')) as [s' H]
    by (vm_compute; eexists; reflexivity).
  exists s'. split; [exact H|].
  destruct (set_params_then_get_params (realized 2) s' mono_u8_48k H)
    as (Hget & _ & Hs & _).
  split; [exact Hget|exact Hs].
Defined.

(** X3 at work: the same request converts. *)
Lemma set_params_ok_is_convertible_witness :
  (∃ f, virtio_snd_get_qemu_format (sp_format mono_u8_48k) = Done f)
  ∧ (∃ r, virtio_snd_get_qemu_freq (sp_rate mono_u8_48k) = Done r).
Proof.
  assert (∃ s', virtio_snd_pcm_set_params_impl (realized 2) mono_u8_48k
                = Done (VIRTIO_SND_S_OK, s')) as [s' H]
    by (vm_compute; eexists; reflexivity).
  destruct (set_params_ok_is_convertible (realized 2) s' mono_u8_48k)
    as (_ & _ & _ & Hf & Hr);
    [vm_compute; split; [intros Hx; discriminate Hx|reflexivity]|vm_compute; split; [intros Hx; discriminate Hx|reflexivity]|exact H|].
  split; [exact Hf|exact Hr].
Defined.

(** X4 at work: the same request, then PREPARE for stream 1. *)
Lemma prepare_after_set_params_witness :
  ∃ s1 s2 stream,
    virtio_snd_pcm_set_params_impl (realized 2) mono_u8_48k = Done (VIRTIO_SND_S_OK, s1)
    ∧ virtio_snd_pcm_prepare_impl s1 1 = Done (VIRTIO_SND_S_OK, s2)
    ∧ virtio_snd_pcm_get_stream s2 1 = Done (Some stream)
    ∧ st_buffer_bytes stream = 16384
    ∧ st_period_bytes stream = 2048
    ∧ st_channels_max stream = 1.
Proof.
  assert (∃ s1, virtio_snd_pcm_set_params_impl (realized 2) mono_u8_48k
                = Done (VIRTIO_SND_S_OK, s1)) as [s1 H]
    by (vm_compute; eexists; reflexivity).
  destruct (prepare_after_set_params (realized 2) s1 mono_u8_48k)
    as (s2 & stream & Hprep & Hget & _ & Hb & Hp & _ & Hmax & _).
  { vm_compute; split; [intros Hx; discriminate Hx|reflexivity]. }
  { vm_compute; split; [intros Hx; discriminate Hx|reflexivity]. }
  { exact H. }
  { vm_compute. lia. }
  exists s1, s2, stream. split; [exact H|]. split; [exact Hprep|].
  split; [exact Hget|]. split; [exact Hb|]. split; [exact Hp|exact Hmax].
Defined.

(** X5 at work: PREPARE twice for stream 1 after the same request. *)
Lemma prepare_idempotent_witness :
  ∃ s1 s2,
    virtio_snd_pcm_set_params_impl (realized 2) mono_u8_48k = Done (VIRTIO_SND_S_OK, s1)
    ∧ virtio_snd_pcm_prepare_impl s1 1 = Done (VIRTIO_SND_S_OK, s2)
    ∧ virtio_snd_pcm_prepare_impl s2 1 = Done (VIRTIO_SND_S_OK, s2).
Proof.
  assert (∃ s1 s2,
    virtio_snd_pcm_set_params_impl (realized 2) mono_u8_48k = Done (VIRTIO_SND_S_OK, s1)
    ∧ virtio_snd_pcm_prepare_impl s1 1 = Done (VIRTIO_SND_S_OK, s2))
    as (s1 & s2 & H1 & H2) by (vm_compute; eexists _, _; split; reflexivity).
  exists s1, s2. split; [exact H1|]. split; [exact H2|].
  exact (prepare_idempotent s1 s2 1 H2).
Defined.

(** X6 at work: PREPARE for stream 1 and for id 2 of a device with two
    streams. *)
Lemma prepare_on_ok_device_witness :
  (∃ s', virtio_snd_pcm_prepare_impl (realized 2) 1 = Done (VIRTIO_SND_S_OK, s')
         ∧ device_ok s')
  ∧ virtio_snd_pcm_prepare_impl (realized 2) 2 = Fault OutOfBounds.
Proof.
  split.
  - apply (prepare_on_ok_device (realized 2) 1 realized_2_ok); [lia|].
    vm_compute. reflexivity.
  - apply (prepare_on_ok_device (realized 2) 2 realized_2_ok); [lia|].
    vm_compute. intros Hx. discriminate Hx.
Defined.

(** X7 at work: the mono request on the realized device. *)
Lemma set_params_on_ok_device_witness :
  ∃ st s',
    virtio_snd_pcm_set_params_impl (realized 2) mono_u8_48k = Done (st, s')
    ∧ (st = VIRTIO_SND_S_OK ∨ st = VIRTIO_SND_S_NOT_SUPP)
    ∧ (st = VIRTIO_SND_S_OK
       ↔ 1 ≤ sp_channels mono_u8_48k ≤ AUDIO_MAX_CHANNELS
         ∧ Z.land supported_formats (BIT (sp_format mono_u8_48k)) ≠ 0
         ∧ Z.land supported_rates (BIT (sp_rate mono_u8_48k)) ≠ 0)
    ∧ device_ok s'.
Proof.
  apply (set_params_on_ok_device (realized 2) mono_u8_48k realized_2_ok).
  - vm_compute. split; [intros Hx; discriminate Hx|reflexivity].
  - vm_compute. split; [intros Hx; discriminate Hx|reflexivity].
  - vm_compute. split; [intros Hx; discriminate Hx|reflexivity].
Defined.

(** X8 at work: format code 64 for stream 0. *)
Lemma set_params_format_shift_overflow_witness :
  virtio_snd_pcm_set_params_impl (realized 2) format_64 = Fault ShiftCount.
Proof.
  apply (set_params_format_shift_overflow (realized 2) format_64 realized_2_ok).
  - vm_compute. split; [intros Hx; discriminate Hx|reflexivity].
  - vm_compute. split; intros Hx; discriminate Hx.
  - vm_compute. intros Hx. discriminate Hx.
Defined.

(** X9 at work: a SET_PARAMS for stream 0 that is refused for its channel
    count of zero and a PCM_INFO for both streams, then a RELEASE, a
    truncated PREPARE and a SET_PARAMS for stream 1 in a second batch. *)
Lemma realized_device_stays_ok_witness :
  let a := request 1 (set_params_request zero_channels) 4 in
  let i := request 2 (query_info 0 2 32) 68 in
  let b := request 3 (pcm_hdr VIRTIO_SND_R_PCM_RELEASE 1) 4 in
  let c := request 4 (le_encode 4 (request_code VIRTIO_SND_R_PCM_PREPARE)) 4 in
  let d := request 5 (set_params_request mono_u8_48k) 4 in
  ∃ s, control_traffic [[a; i]; [b; c; d]] (realized 2) = Done s
       ∧ device_ok s
       ∧ stream_exists s 0 ∧ stream_exists s 1.
Proof.
  intros a i b c d.
  assert (∀ e, e ∈ [a; i; b; c; d] → request_defined 2 e) as Hdef.
  { intros e He. apply list_elem_of_In in He. simpl in He.
    destruct He as [<-|[<-|[<-|[<-|[<-|[]]]]]];
      (split; [|split]); intros Hlen Hcode;
      first [ exfalso; vm_compute in Hlen; lia
            | exfalso; vm_compute in Hcode; discriminate Hcode
            | idtac ].
    - vm_compute. repeat split; intros Hx; discriminate Hx.
    - split; [vm_compute; reflexivity|right; vm_compute; reflexivity].
    - vm_compute. repeat split; intros Hx; discriminate Hx. }
  destruct (realized_device_stays_ok (instance (config_of 2)) (realized 2)
              [[a; i]; [b; c; d]]) as (s & H & _ & Hok & Hall).
  { vm_compute. reflexivity. }
  { reflexivity. }
  { apply Forall_forall. intros batch Hb. apply Forall_forall. intros e He.
    apply Hdef. simpl in Hb.
    destruct Hb as [<-|[<-|[]]]; simpl in He; apply list_elem_of_In; simpl; tauto. }
  exists s. split; [exact H|]. split; [exact Hok|].
  split; apply Hall; vm_compute; split; first [reflexivity|intros Hx; discriminate Hx].
Defined.

(** X10 at work: RELEASE and STOP for stream 1 and for id 2. *)
Lemma lifecycle_status_on_ok_device_witness :
  let good := command (request 0 (pcm_hdr VIRTIO_SND_R_PCM_RELEASE 1) 4) in
  let stray := command (request 1 (pcm_hdr VIRTIO_SND_R_PCM_STOP 2) 4) in
  virtio_snd_handle_pcm_release (realized 2) good
  = Done (with_resp_code VIRTIO_SND_S_OK good)
  ∧ virtio_snd_handle_pcm_start_stop (realized 2) stray false
    = Done (with_resp_code VIRTIO_SND_S_BAD_MSG stray).
Proof.
  intros good stray. split.
  - destruct (lifecycle_status_on_ok_device (realized 2) good true realized_2_ok)
      as [_ H]; [vm_compute; lia|]. exact H.
  - destruct (lifecycle_status_on_ok_device (realized 2) stray false realized_2_ok)
      as [H _]; [vm_compute; lia|]. exact H.
Defined.

(** X11 at work: START for the one stream of a device. *)
Lemma reply_carries_status_witness :
  let cmd := command (request 5 (pcm_hdr VIRTIO_SND_R_PCM_START 0) 4) in
  ∃ s' e,
    process_cmd (realized 1) cmd = Done s'
    ∧ vq_used (ctrl_vq s') = [(e, sizeof_pointer)]
    ∧ same_request (elem cmd) e
    ∧ field (in_sg e) 0 4 = status_code VIRTIO_SND_S_OK.
Proof.
  intros cmd.
  assert (∃ s', process_cmd (realized 1) cmd = Done s') as [s' H]
    by (vm_compute; eexists; reflexivity).
  destruct (reply_carries_status (realized 1) s' cmd)
    as (cmd' & s1 & e & Hd & Hused & _ & Hsame & _ & Hfield);
    [vm_compute; lia|exact H|].
  exists s', e. split; [exact H|]. split; [exact Hused|]. split; [exact Hsame|].
  rewrite Hfield by (vm_compute; lia).
  vm_compute in Hd. injection Hd as <- _. vm_compute. reflexivity.
Defined.

(** X12 at work: CHMAP_INFO, and the code 7 that no request has. *)
Lemma unsupported_and_unknown_requests_witness :
  let chmap := command (request 1 (le_encode 4 (request_code VIRTIO_SND_R_CHMAP_INFO)) 4) in
  let seven := command (request 2 (le_encode 4 7) 4) in
  process_cmd (realized 1) chmap
  = Done (answered (realized 1) (elem chmap) VIRTIO_SND_S_NOT_SUPP)
  ∧ process_cmd (realized 1) seven
    = Done (answered (realized 1) (elem seven) VIRTIO_SND_S_BAD_MSG).
Proof.
  intros chmap seven. split.
  - destruct (unsupported_and_unknown_requests (realized 1) chmap) as [H _];
      [vm_compute; lia|].
    apply (H VIRTIO_SND_R_CHMAP_INFO); [|vm_compute; reflexivity].
    apply list_elem_of_In. simpl. tauto.
  - destruct (unsupported_and_unknown_requests (realized 1) seven) as [_ H];
      [vm_compute; lia|].
    apply H. intros r. destruct r; vm_compute; intros Hx; discriminate Hx.
Defined.

(** X13 at work: a SET_PARAMS of eight bytes. *)
Lemma truncated_request_bad_msg_witness :
  let cmd := command (request 1 (pcm_hdr VIRTIO_SND_R_PCM_SET_PARAMS 0) 4) in
  process_cmd (realized 1) cmd
  = Done (answered (realized 1) (elem cmd) VIRTIO_SND_S_BAD_MSG).
Proof.
  intros cmd.
  apply (truncated_request_bad_msg (realized 1) cmd VIRTIO_SND_R_PCM_SET_PARAMS).
  - vm_compute. lia.
  - vm_compute. reflexivity.
  - vm_compute. lia.
Defined.

(** X14 at work: the queue of a freshly realized device is not ready; a
    START that arrives during a drain is queued and not answered. *)
Lemma busy_or_unready_queue_answers_nothing_witness :
  let a := request 1 (pcm_hdr VIRTIO_SND_R_PCM_START 0) 4 in
  let busy := with_processing_cmdq true (driver_offers [a] (realized 1)) in
  virtio_snd_handle_ctrl (realized 1) = Done (realized 1)
  ∧ ∃ s', virtio_snd_handle_ctrl busy = Done s'
          ∧ elem <$> cmdq s' = [a]
          ∧ vq_used (ctrl_vq s') = [].
Proof.
  intros a busy. split.
  - apply (busy_or_unready_queue_answers_nothing (realized 1)).
    vm_compute. reflexivity.
  - destruct (busy_or_unready_queue_answers_nothing busy) as [_ H].
    destruct H as (s' & H & Hq & _ & Hu & _); [reflexivity|reflexivity|].
    exists s'. split; [exact H|]. split; [exact Hq|exact Hu].
Defined.

(** X16 at work: the second of two streams of the first revision. *)
Lemma first_revision_realize_witness :
  virtio_snd_pcm_get_params (first_realized 2) 1 = Done (Some default_stored)
  ∧ virtio_snd_pcm_get_stream (first_realized 2) 1 = Done None.
Proof.
  destruct (first_revision_realize (instance (config_of 2)) (first_realized 2))
    as [_ H]; [vm_compute; reflexivity|].
  apply H. simpl. lia.
Defined.

(** X17 at work: the first revision's device with two streams is
    unrealized. *)
Lemma first_revision_unrealize_null_witness :
  first_revision.virtio_snd_unrealize (first_realized 2) = Fault NullPointer.
Proof.
  apply (first_revision_unrealize_null (instance (config_of 2)) (first_realized 2)).
  vm_compute. reflexivity.
Defined.

(** X18 at work: both revisions refuse JACK_INFO alike and drop the request
    of two bytes whose bytes decode to START; the first refuses a START that
    the second (X11) accepts. *)
Lemma revisions_agree_outside_pcm_witness :
  let jack := command (request 1 (le_encode 4 (request_code VIRTIO_SND_R_JACK_INFO)) 4) in
  let short := command (request 7 [x04; x01] 4) in
  let start := command (request 5 (pcm_hdr VIRTIO_SND_R_PCM_START 0) 4) in
  process_cmd (realized 1) jack = Done (first_revision.process_cmd (realized 1) jack)
  ∧ field (out_sg (elem short)) 0 4 = request_code VIRTIO_SND_R_PCM_START
  ∧ process_cmd (realized 1) short = Done (realized 1)
  ∧ first_revision.process_cmd (realized 1) short = realized 1
  ∧ first_revision.process_cmd (realized 1) start
    = answered (realized 1) (elem start) VIRTIO_SND_S_NOT_SUPP.
Proof.
  intros jack short start. split; [|split; [|split; [|split]]].
  - destruct (revisions_agree_outside_pcm (realized 1) jack) as (_ & _ & H).
    apply H. intros r Hr. apply list_elem_of_In in Hr. simpl in Hr.
    destruct Hr as [<-|[<-|[<-|[<-|[<-|[<-|[]]]]]]];
      vm_compute; intros Hx; discriminate Hx.
  - vm_compute. reflexivity.
  - destruct (revisions_agree_outside_pcm (realized 1) short) as (_ & H & _).
    apply H. unfold header_complete. vm_compute. lia.
  - destruct (revisions_agree_outside_pcm (realized 1) short) as (_ & H & _).
    apply H. unfold header_complete. vm_compute. lia.
  - destruct (revisions_agree_outside_pcm (realized 1) start) as (H & _).
    apply (H VIRTIO_SND_R_PCM_START); [vm_compute; lia|vm_compute; reflexivity].
Defined.

End MoreWitnesses.
